(** * Time tracking: tasks, time records, period filters and dashboards

    A shallow embedding of the [time_tracking] Django application
    (models.py, forms.py, filters.py, views.py, web_views.py,
    serializers.py) together with the properties its specification states.

    Tables are finite maps from primary key to row, a queryset is the
    sub-map selected by its filters, durations ([timedelta]) are counted in
    microseconds, and calendar dates follow Python's [datetime.date]. *)

From Stdlib Require Import ZArith QArith Qround Lia List Bool String Ascii DecimalString.
From stdpp Require Import base option list gmap fin_maps strings sorting.

Local Open Scope Z_scope.

(** ** Calendar dates, after Python's [datetime.date] *)

Module Calendar.

Record date := Date { year : Z; month : Z; day : Z }.

Definition MINYEAR : Z := 1.
Definition MAXYEAR : Z := 9999.

(** [_is_leap(year)] *)
Definition is_leap (y : Z) : bool :=
  (y mod 4 =? 0) && (negb (y mod 100 =? 0) || (y mod 400 =? 0)).

(** [_days_before_year(year)]: days before January 1st of [year]. *)
Definition days_before_year (y : Z) : Z :=
  let y' := y - 1 in y' * 365 + y' / 4 - y' / 100 + y' / 400.

(** The table [_DAYS_IN_MONTH], indexed from 1. *)
Definition DAYS_IN_MONTH (m : Z) : Z :=
  match m with
  | 1 => 31 | 2 => 28 | 3 => 31 | 4 => 30 | 5 => 31 | 6 => 30
  | 7 => 31 | 8 => 31 | 9 => 30 | 10 => 31 | 11 => 30 | 12 => 31
  | _ => -1
  end.

(** The table [_DAYS_BEFORE_MONTH], the running sum of the one above. *)
Definition DAYS_BEFORE_MONTH (m : Z) : Z :=
  match m with
  | 1 => 0 | 2 => 31 | 3 => 59 | 4 => 90 | 5 => 120 | 6 => 151
  | 7 => 181 | 8 => 212 | 9 => 243 | 10 => 273 | 11 => 304 | 12 => 334
  | _ => -1
  end.

Definition days_in_month (y m : Z) : Z :=
  if (m =? 2) && is_leap y then 29 else DAYS_IN_MONTH m.

Definition days_before_month (y m : Z) : Z :=
  DAYS_BEFORE_MONTH m + (if (2 <? m) && is_leap y then 1 else 0).

(** [_ymd2ord]: January 1st of year 1 is day 1. *)
Definition ymd2ord (y m d : Z) : Z :=
  days_before_year y + days_before_month y m + d.

Definition DI400Y : Z := 146097.
Definition DI100Y : Z := 36524.
Definition DI4Y : Z := 1461.
Definition MAXORDINAL : Z := 3652059.

(** [_ord2ymd] *)
Definition ord2ymd (n : Z) : date :=
  let n := n - 1 in
  let n400 := n / DI400Y in
  let n := n mod DI400Y in
  let n100 := n / DI100Y in
  let n := n mod DI100Y in
  let n4 := n / DI4Y in
  let n := n mod DI4Y in
  let n1 := n / 365 in
  let n := n mod 365 in
  let y := n400 * 400 + 1 + (n100 * 100 + n4 * 4 + n1) in
  if (n1 =? 4) || (n100 =? 4) then Date (y - 1) 12 31
  else
    let leapyear := (n1 =? 3) && (negb (n4 =? 24) || (n100 =? 3)) in
    let m := Z.shiftr (n + 50) 5 in
    let preceding :=
      DAYS_BEFORE_MONTH m + (if (2 <? m) && leapyear then 1 else 0) in
    if n <? preceding then
      let m := m - 1 in
      let preceding :=
        preceding - (DAYS_IN_MONTH m + (if (m =? 2) && leapyear then 1 else 0)) in
      Date y m (n - preceding + 1)
    else Date y m (n - preceding + 1).

(** [_check_date_fields]: what the constructor accepts. *)
Definition valid_date (d : date) : bool :=
  (MINYEAR <=? year d) && (year d <=? MAXYEAR) &&
  (1 <=? month d) && (month d <=? 12) &&
  (1 <=? day d) && (day d <=? days_in_month (year d) (month d)).

Definition toordinal (d : date) : Z := ymd2ord (year d) (month d) (day d).
Definition fromordinal (n : Z) : date := ord2ymd n.

(** [date.weekday()]: Monday is 0, Sunday is 6. *)
Definition weekday (d : date) : Z := (toordinal d + 6) mod 7.

(** [date(y, m, d)], [None] standing for the [ValueError] of an invalid
    date. *)
Definition make_date (y m d : Z) : option date :=
  if valid_date (Date y m d) then Some (Date y m d) else None.

(** [d - timedelta(days=n)]: [None] is the [OverflowError] raised when the
    result leaves the supported range. *)
Definition sub_days (d : date) (n : Z) : option date :=
  let o := toordinal d - n in
  if (0 <? o) && (o <=? MAXORDINAL) then Some (fromordinal o) else None.

Definition add_days (d : date) (n : Z) : option date := sub_days d (- n).

(** Comparison of dates is the comparison of (year, month, day). *)
Definition date_eqb (a b : date) : bool :=
  (year a =? year b) && (month a =? month b) && (day a =? day b).

Definition date_ltb (a b : date) : bool :=
  (year a <? year b) ||
  ((year a =? year b) &&
   ((month a <? month b) || ((month a =? month b) && (day a <? day b)))).

Definition date_leb (a b : date) : bool := date_ltb a b || date_eqb a b.

End Calendar.

Import Calendar.

(** ** Durations, after Python's [timedelta] *)

(** A [timedelta] is an exact count of microseconds. *)
Definition timedelta := Z.

Definition timedelta_of (hours minutes seconds : Z) : timedelta :=
  ((hours * 60 + minutes) * 60 + seconds) * 1000000.

Definition timedelta_minutes (n : Z) : timedelta := timedelta_of 0 n 0.

(** [td.total_seconds()]. Python returns a float; the rational it stands
    for is used here, which the float represents exactly for every whole
    number of seconds a [timedelta] can hold. *)
Definition total_seconds (td : timedelta) : Q := td # 1000000.

(** Python's float [x // y] and [x % y] for a positive [y]. *)
Definition floordiv (x y : Q) : Q := inject_Z (Qfloor (x / y)).
Definition pymod (x y : Q) : Q := x - y * inject_Z (Qfloor (x / y)).

(** [int(x)] truncates towards zero. *)
Definition int_of (x : Q) : Z := Z.quot (Qnum x) (Zpos (Qden x)).

(** [bool(td)]: only the zero duration is falsy. *)
Definition truthy (td : timedelta) : bool := negb (td =? 0).

(** [x or timedelta(0)] applied to the result of an aggregate, which is
    [None] over no rows. *)
Definition or_zero (x : option timedelta) : timedelta :=
  match x with
  | Some td => if truthy td then td else 0
  | None => 0
  end.

(** Decimal digits of a natural number. *)
Definition decimal (n : Z) : string :=
  NilZero.string_of_uint (N.to_uint (Z.to_N n)).

(** [str(n)] for an integer. *)
Definition str_int (n : Z) : string :=
  if n <? 0 then String "-" (decimal (- n)) else decimal n.

(** The format [f"{n:02d}"]: sign-aware zero padding to a width of two. *)
Definition format_02d (n : Z) : string :=
  if n <? 0 then String "-" (decimal (- n))
  else if n <? 10 then String "0" (decimal n)
  else decimal n.

(** ** The data model (models.py) *)

Record Task := {
  responsible_user : Z;          (* primary key of the owning User *)
  creation_date : Z;             (* timestamp *)
  description : string;
  active : bool
}.

Record TimeRecord := {
  task : Z;                      (* primary key of the Task *)
  record_date : date;
  worked_time : timedelta;
  work_description : string;
  record_creation_date : Z       (* timestamp, set when the row is created *)
}.

(** The two tables, each keyed by primary key. *)
Record Store := {
  tasks : gmap Z Task;
  time_records : gmap Z TimeRecord
}.

(** ** Querysets *)

(** [queryset.filter(...)] with the condition [p] on the row. *)
Definition qfilter {A} (p : A → bool) (qs : gmap Z A) : gmap Z A :=
  filter (λ kv, p kv.2 = true) qs.

(** [queryset.count()] *)
Definition count {A} (qs : gmap Z A) : Z := Z.of_nat (size qs).

(** The rows of a queryset, each with its primary key. *)
Definition rows {A} (qs : gmap Z A) : list (Z * A) := map_to_list qs.

(** [aggregate(total=Sum(field))['total']]: [None] when there is no row. *)
Definition aggregate_Sum {A} (field : A → Z) (qs : gmap Z A) : option Z :=
  match rows qs with
  | [] => None
  | l => Some (foldr (λ kv acc, field kv.2 + acc) 0 l)
  end.

(** [order_by('-key')]: a stable sort, largest key first. *)
Definition order_by_desc {A} (key : A → Z) (qs : gmap Z A) : list (Z * A) :=
  merge_sort (H := λ a b, Z_le_dec (key b.2) (key a.2))
    (λ a b, key b.2 ≤ key a.2) (rows qs).

(** Python's slice [l[:n]]. *)
Definition slice_to {A} (n : nat) (l : list A) : list A := take n l.

(** The reverse relation [task.time_records]. *)
Definition Task_time_records (st : Store) (pk : Z) : gmap Z TimeRecord :=
  qfilter (λ r, task r =? pk) (time_records st).

(** [Task.total_worked_time] *)
Definition total_worked_time (st : Store) (pk : Z) : timedelta :=
  or_zero (aggregate_Sum worked_time (Task_time_records st pk)).

(** [TimeRecord.worked_hours] *)
Definition worked_hours (r : TimeRecord) : string :=
  let total_seconds := total_seconds (worked_time r) in
  let hours := int_of (floordiv total_seconds 3600) in
  let minutes := int_of (floordiv (pymod total_seconds 3600) 60) in
  String.append (format_02d hours) (String ":" (format_02d minutes)).


(** ** Validation of time records (models.py) *)

(** A validation error: the field it is attached to and its message. *)
Definition ErrorDict := list (string * string).

Definition MSG_WORKED_TIME : string := "Worked time must be greater than zero.".
Definition MSG_RECORD_DATE : string := "Record date cannot be in the future.".
Definition MSG_MIN_VALUE : string :=
  "Ensure this value is greater than or equal to 0:01:00.".
Definition MSG_BLANK : string := "This field cannot be blank.".
Definition MSG_NO_TASK (pk : Z) : string :=
  String.append "Task instance with id "
    (String.append (str_int pk) " does not exist.").
Definition MSG_MAY_NOT_BE_BLANK : string := "This field may not be blank.".
Definition MSG_TASK_ID : string :=
  "Task not found or you don't have permission to access it.".

(** [TimeRecord.clean]: the first failing check raises. [today] is
    [timezone.now().date()]. A date object is always truthy, so the guard
    on [record_date] only matters for [worked_time]. *)
Definition TimeRecord_clean (today : date) (r : TimeRecord) : ErrorDict :=
  if truthy (worked_time r) && Qle_bool (total_seconds (worked_time r)) 0 then
    [("worked_time", MSG_WORKED_TIME)]
  else if date_ltb today (record_date r) then
    [("record_date", MSG_RECORD_DATE)]
  else [].

(** The validators of the fields, in the order of the fields: the task must
    exist, [worked_time] has [MinValueValidator(timedelta(minutes=1))], and
    a text field without [blank=True] must not be empty. *)
Definition clean_fields (st : Store) (r : TimeRecord) : ErrorDict :=
  (if decide (is_Some (tasks st !! task r)) then []
   else [("task", MSG_NO_TASK (task r))]) ++
  (if worked_time r <? timedelta_minutes 1 then [("worked_time", MSG_MIN_VALUE)]
   else []) ++
  (if decide (work_description r = "") then [("work_description", MSG_BLANK)]
   else []).

(** [Model.full_clean]: the field validators, then [clean], which runs even
    when a field has failed; all errors are raised together. *)
Definition full_clean (st : Store) (today : date) (r : TimeRecord) : ErrorDict :=
  clean_fields st r ++ TimeRecord_clean today r.

(** The result of a call that may raise a validation error. *)
Inductive outcome (A : Type) :=
  | Done (x : A)
  | Raised (errors : ErrorDict).
Arguments Done {A} x.
Arguments Raised {A} errors.

(** The primary key an insert is given: one past the largest in use. *)
Definition fresh_pk {A} (table : gmap Z A) : Z :=
  1 + foldr (λ kv acc, Z.max kv.1 acc) 0 (rows table).

(** [TimeRecord.save]: [self.full_clean()], then the row is written. An
    instance without primary key, or whose key is not in the table, is
    inserted and stamped with the creation time [now]; otherwise its row is
    replaced. When [full_clean] raises nothing is written. *)
Definition TimeRecord_save (today : date) (now : Z) (pk : option Z)
    (r : TimeRecord) (st : Store) : outcome Z * Store :=
  match full_clean st today r with
  | [] =>
      let k := default (fresh_pk (time_records st)) pk in
      let r' :=
        match time_records st !! k with
        | Some _ => r
        | None =>
            {| task := task r; record_date := record_date r;
               worked_time := worked_time r;
               work_description := work_description r;
               record_creation_date := now |}
        end in
      (Done k, {| tasks := tasks st;
                  time_records := <[k := r']> (time_records st) |})
  | errors => (Raised errors, st)
  end.

(** ** The record form (forms.py) *)

Module TimeRecordForm.

(** [clean_worked_time]: the message on the left when it raises, the
    cleaned value on the right. *)
Definition clean_worked_time (time : timedelta) : string + timedelta :=
  if truthy time && Qle_bool (total_seconds time) 0 then inl MSG_WORKED_TIME
  else inr time.

(** [clean_record_date] *)
Definition clean_record_date (today : date) (d : date) : string + date :=
  if date_ltb today d then inl MSG_RECORD_DATE else inr d.

End TimeRecordForm.

(** ** Named periods (filters.py) *)

Module TimeRecordFilter.

(** The choices of the [period] filter. *)
Definition period_choices : list string :=
  ["today"; "yesterday"; "this_week"; "last_week"; "this_month"; "last_month"].

(** [filter_period(queryset, name, value)] with [today] the current date.
    [None] stands for the exception a date computation raises when it
    leaves the range of dates. *)
Definition filter_period (today : date) (queryset : gmap Z TimeRecord)
    (value : string) : option (gmap Z TimeRecord) :=
  if decide (value = "today") then
    Some (qfilter (λ r, date_eqb (record_date r) today) queryset)
  else if decide (value = "yesterday") then
    yesterday ← sub_days today 1;
    Some (qfilter (λ r, date_eqb (record_date r) yesterday) queryset)
  else if decide (value = "this_week") then
    week_start ← sub_days today (weekday today);
    Some (qfilter (λ r, date_leb week_start (record_date r)) queryset)
  else if decide (value = "last_week") then
    week_start ← sub_days today (weekday today + 7);
    week_end ← add_days week_start 6;
    Some (qfilter (λ r, date_leb week_start (record_date r) &&
                        date_leb (record_date r) week_end) queryset)
  else if decide (value = "this_month") then
    month_start ← make_date (year today) (month today) 1;
    Some (qfilter (λ r, date_leb month_start (record_date r)) queryset)
  else if decide (value = "last_month") then
    last_month_start ←
      (if month today =? 1 then make_date (year today - 1) 12 1
       else make_date (year today) (month today - 1) 1);
    first ← make_date (year today) (month today) 1;
    last_month_end ← sub_days first 1;
    Some (qfilter (λ r, date_leb last_month_start (record_date r) &&
                        date_leb (record_date r) last_month_end) queryset)
  else Some queryset.

(** What the filter set makes of a query parameter. *)
Inductive FilterResult :=
  | Filtered (queryset : gmap Z TimeRecord)
  | InvalidChoice (errors : ErrorDict)
  | Failed.

Definition MSG_INVALID_CHOICE (value : string) : string :=
  String.append "Select a valid choice. "
    (String.append value " is not one of the available choices.").

(** The [period] filter, a [ChoiceFilter] over [period_choices] with
    [filter_period] as its method. An empty value leaves the queryset
    alone; a value that is not among the choices fails the validation of
    the choice field and never reaches the method. *)
Definition period (today : date) (queryset : gmap Z TimeRecord)
    (value : string) : FilterResult :=
  if decide (value = "") then Filtered queryset
  else if decide (value ∈ period_choices) then
    match filter_period today queryset value with
    | Some qs => Filtered qs
    | None => Failed
    end
  else InvalidChoice [("period", MSG_INVALID_CHOICE value)].

End TimeRecordFilter.


(** ** Serializers (serializers.py) *)

(** A duration as the number of hours a view reports:
    [td.total_seconds() / 3600]. *)
Definition hours_of (td : timedelta) : Q := total_seconds td / 3600.

(** What [TaskSerializer] renders. The owner is given by its primary key,
    and [total_hours] by the number of hours that the model prints with two
    decimals. *)
Record TaskData := {
  td_id : Z;
  td_responsible_user : Z;
  td_creation_date : Z;
  td_description : string;
  td_active : bool;
  td_total_worked_time : Q;
  td_total_hours : Q;
  td_records_count : Z
}.

Definition TaskSerializer (st : Store) (obj : Z * Task) : TaskData :=
  let total := total_worked_time st obj.1 in
  {| td_id := obj.1;
     td_responsible_user := responsible_user obj.2;
     td_creation_date := creation_date obj.2;
     td_description := description obj.2;
     td_active := active obj.2;
     td_total_worked_time := if truthy total then total_seconds total else 0%Q;
     td_total_hours := hours_of total;
     td_records_count := count (Task_time_records st obj.1) |}.

(** What [TimeRecordSerializer] renders; [trd_task] is the nested task,
    absent only if the row points at no task. *)
Record TimeRecordData := {
  trd_id : Z;
  trd_task : option TaskData;
  trd_record_date : date;
  trd_worked_time : timedelta;
  trd_work_description : string;
  trd_creation_date : Z;
  trd_worked_hours : string
}.

Definition TimeRecordSerializer (st : Store) (obj : Z * TimeRecord)
    : TimeRecordData :=
  {| trd_id := obj.1;
     trd_task := (λ t, TaskSerializer st (task obj.2, t)) <$> tasks st !! task obj.2;
     trd_record_date := record_date obj.2;
     trd_worked_time := worked_time obj.2;
     trd_work_description := work_description obj.2;
     trd_creation_date := record_creation_date obj.2;
     trd_worked_hours := worked_hours obj.2 |}.

(** The default ordering of time records: [-record_date], then
    [-creation_date]. *)
Definition record_newest_first (a b : TimeRecord) : bool :=
  date_ltb (record_date b) (record_date a) ||
  (date_eqb (record_date a) (record_date b) &&
   (record_creation_date b <=? record_creation_date a)).

(** [order_by] with an arbitrary "comes first" test. *)
Definition order_by {A} (first : A → A → bool) (qs : gmap Z A) : list (Z * A) :=
  merge_sort (H := λ a b, bool_eq_dec (first a.2 b.2) true)
    (λ a b, first a.2 b.2 = true) (rows qs).

(** What [TaskDetailSerializer] renders: the task and its time records. *)
Definition TaskDetailSerializer (st : Store) (obj : Z * Task)
    : TaskData * list TimeRecordData :=
  (TaskSerializer st obj,
   TimeRecordSerializer st <$>
     order_by record_newest_first (Task_time_records st obj.1)).

(** The writable fields of a task and of a time record. *)
Record TaskInput := { in_description : string; in_active : bool }.

Record TimeRecordInput := {
  in_task_id : Z;
  in_record_date : date;
  in_worked_time : timedelta;
  in_work_description : string
}.

(** ** The API (views.py) *)

(** The values a view puts in its response or its template context. *)
Inductive value :=
  | Int (n : Z)
  | Float (x : Q)
  | Tasks (l : list (Z * Task))
  | Records (l : list (Z * TimeRecord))
  | TasksData (l : list TaskData)
  | RecordsData (l : list TimeRecordData).

(** A Python dictionary with string keys, in insertion order. *)
Definition dict := list (string * value).

Definition get (d : dict) (key : string) : option value :=
  snd <$> List.find (λ kv, String.eqb kv.1 key) d.

(** The response of a view: its kind and, on success, its data.
    [BadRequest] carries the validation errors a serializer reports, and
    [ServerError] those of a validation error that [save] raises past the
    serializer. *)
Inductive Response (A : Type) :=
  | OK (data : A)
  | NoContent
  | NotFound
  | BadRequest (errors : ErrorDict)
  | ServerError (errors : ErrorDict).
Arguments OK {A} data.
Arguments NoContent {A}.
Arguments NotFound {A}.
Arguments BadRequest {A} errors.
Arguments ServerError {A} errors.

Module TaskViewSet.

(** [Task.objects.filter(responsible_user=self.request.user)] *)
Definition get_queryset (user : Z) (st : Store) : gmap Z Task :=
  qfilter (λ t, responsible_user t =? user) (tasks st).

(** [get_object()]: the row of the queryset with this key, if any. *)
Definition get_object (user pk : Z) (st : Store) : option Task :=
  get_queryset user st !! pk.

Definition retrieve (user pk : Z) (st : Store)
    : Response (TaskData * list TimeRecordData) :=
  match get_object user pk st with
  | None => NotFound
  | Some t => OK (TaskDetailSerializer st (pk, t))
  end.

(** [perform_create]: the owner is the requesting user. *)
Definition create (user : Z) (now : Z) (data : TaskInput) (st : Store)
    : Response TaskInput * Store :=
  if decide (in_description data = "") then
    (BadRequest [("description", MSG_MAY_NOT_BE_BLANK)], st)
  else
    let t := {| responsible_user := user; creation_date := now;
                description := in_description data;
                active := in_active data |} in
    (OK data, {| tasks := <[fresh_pk (tasks st) := t]> (tasks st);
                 time_records := time_records st |}).

Definition update (user pk : Z) (data : TaskInput) (st : Store)
    : Response TaskData * Store :=
  match get_object user pk st with
  | None => (NotFound, st)
  | Some t =>
      if decide (in_description data = "") then
        (BadRequest [("description", MSG_MAY_NOT_BE_BLANK)], st)
      else
        let t' := {| responsible_user := responsible_user t;
                     creation_date := creation_date t;
                     description := in_description data;
                     active := in_active data |} in
        let st' := {| tasks := <[pk := t']> (tasks st);
                      time_records := time_records st |} in
        (OK (TaskSerializer st' (pk, t')), st')
  end.

(** Deleting a task deletes its time records with it. *)
Definition destroy (user pk : Z) (st : Store) : Response () * Store :=
  match get_object user pk st with
  | None => (NotFound, st)
  | Some _ =>
      (NoContent,
       {| tasks := delete pk (tasks st);
          time_records := qfilter (λ r, negb (task r =? pk)) (time_records st) |})
  end.

Definition toggle_status (user pk : Z) (st : Store)
    : Response TaskData * Store :=
  match get_object user pk st with
  | None => (NotFound, st)
  | Some task =>
      let task := {| responsible_user := responsible_user task;
                     creation_date := creation_date task;
                     description := description task;
                     active := negb (active task) |} in
      let st' := {| tasks := <[pk := task]> (tasks st);
                    time_records := time_records st |} in
      (OK (TaskSerializer st' (pk, task)), st')
  end.

(** The default ordering of tasks: [-creation_date]. *)
Definition newest_first (a b : Task) : bool :=
  creation_date b <=? creation_date a.

(** The list views. [flt] is the condition the filter set and the search
    box of the request put on a row; pages are not modelled. *)
Definition inactive (user : Z) (st : Store) : Response (Datatypes.list TaskData) :=
  OK (TaskSerializer st <$>
        order_by newest_first (qfilter (λ t, negb (active t)) (get_queryset user st))).

Definition active (user : Z) (st : Store) : Response (Datatypes.list TaskData) :=
  OK (TaskSerializer st <$> order_by newest_first (qfilter active (get_queryset user st))).

Definition list (user : Z) (flt : Task → bool) (st : Store)
    : Response (Datatypes.list TaskData) :=
  OK (TaskSerializer st <$> order_by newest_first (qfilter flt (get_queryset user st))).

End TaskViewSet.

Module TimeRecordViewSet.

(** The condition [task__responsible_user=user]: the join of the row with
    its task. *)
Definition owned_by (st : Store) (user : Z) (r : TimeRecord) : bool :=
  match tasks st !! task r with
  | Some t => responsible_user t =? user
  | None => false
  end.

(** [TimeRecord.objects.filter(task__responsible_user=self.request.user)] *)
Definition get_queryset (user : Z) (st : Store) : gmap Z TimeRecord :=
  qfilter (owned_by st user) (time_records st).

Definition get_object (user pk : Z) (st : Store) : option TimeRecord :=
  get_queryset user st !! pk.

(** [validate_task_id]: [Task.objects.get(id=value, responsible_user=user)]
    must find a task. *)
Definition validate_task_id (user value : Z) (st : Store) : ErrorDict :=
  match TaskViewSet.get_queryset user st !! value with
  | Some _ => []
  | None => [("task_id", MSG_TASK_ID)]
  end.

Definition retrieve (user pk : Z) (st : Store) : Response TimeRecordData :=
  match get_object user pk st with
  | None => NotFound
  | Some r => OK (TimeRecordSerializer st (pk, r))
  end.

(** The validation of a model serializer: [validate_task_id], and for the
    fields taken from the model the validators of the model field. *)
Definition run_validation (user : Z) (data : TimeRecordInput) (st : Store)
    : ErrorDict :=
  validate_task_id user (in_task_id data) st ++
  (if in_worked_time data <? timedelta_minutes 1 then [("worked_time", MSG_MIN_VALUE)]
   else []) ++
  (if decide (in_work_description data = "") then
     [("work_description", MSG_MAY_NOT_BE_BLANK)]
   else []).

(** Creation: the serializer validates the data, then the model is saved. *)
Definition create (user : Z) (today : date) (now : Z) (data : TimeRecordInput)
    (st : Store) : Response TimeRecordInput * Store :=
  match run_validation user data st with
  | [] =>
      let r := {| task := in_task_id data;
                  record_date := in_record_date data;
                  worked_time := in_worked_time data;
                  work_description := in_work_description data;
                  record_creation_date := now |} in
      match TimeRecord_save today now None r st with
      | (Done _, st') => (OK data, st')
      | (Raised errors, _) => (ServerError errors, st)
      end
  | errors => (BadRequest errors, st)
  end.

Definition update (user : Z) (today : date) (now : Z) (pk : Z)
    (data : TimeRecordInput) (st : Store) : Response TimeRecordData * Store :=
  match get_object user pk st with
  | None => (NotFound, st)
  | Some r =>
      match run_validation user data st with
      | [] =>
          let r' := {| task := in_task_id data;
                       record_date := in_record_date data;
                       worked_time := in_worked_time data;
                       work_description := in_work_description data;
                       record_creation_date := record_creation_date r |} in
          match TimeRecord_save today now (Some pk) r' st with
          | (Done _, st') => (OK (TimeRecordSerializer st' (pk, r')), st')
          | (Raised errors, _) => (ServerError errors, st)
          end
      | errors => (BadRequest errors, st)
      end
  end.

Definition destroy (user pk : Z) (st : Store) : Response () * Store :=
  match get_object user pk st with
  | None => (NotFound, st)
  | Some _ =>
      (NoContent, {| tasks := tasks st;
                     time_records := delete pk (time_records st) |})
  end.

(** The list views [today], [this_week] and [this_month]; [None] when the
    date computation raises. *)
Definition today (user : Z) (today : date) (st : Store)
    : option (Datatypes.list TimeRecordData) :=
  let records := qfilter (λ r, date_eqb (record_date r) today) (get_queryset user st) in
  Some (TimeRecordSerializer st <$> order_by record_newest_first records).

Definition this_week (user : Z) (today : date) (st : Store)
    : option (Datatypes.list TimeRecordData) :=
  week_start ← sub_days today (weekday today);
  let records := qfilter (λ r, date_leb week_start (record_date r)) (get_queryset user st) in
  Some (TimeRecordSerializer st <$> order_by record_newest_first records).

Definition this_month (user : Z) (today : date) (st : Store)
    : option (Datatypes.list TimeRecordData) :=
  month_start ← make_date (year today) (month today) 1;
  let records := qfilter (λ r, date_leb month_start (record_date r)) (get_queryset user st) in
  Some (TimeRecordSerializer st <$> order_by record_newest_first records).

(** [summary]: the totals of the records of the user, and their number. *)
Definition summary (user : Z) (today : date) (st : Store) : option dict :=
  let records := get_queryset user st in
  let total_hours := or_zero (aggregate_Sum worked_time records) in
  week_start ← sub_days today (weekday today);
  let week_hours :=
    or_zero (aggregate_Sum worked_time
               (qfilter (λ r, date_leb week_start (record_date r)) records)) in
  month_start ← make_date (year today) (month today) 1;
  let month_hours :=
    or_zero (aggregate_Sum worked_time
               (qfilter (λ r, date_leb month_start (record_date r)) records)) in
  Some [("total_hours", Float (hours_of total_hours));
        ("week_hours", Float (hours_of week_hours));
        ("month_hours", Float (hours_of month_hours));
        ("total_records", Int (count records))].

(** The list view. [flt] is the condition that the filters other than
    [period] and the search box put on a row joined with its task, and
    [period] the value of the [period] parameter, empty when absent. *)
Definition list (user : Z) (today : date) (flt : TimeRecord → Task → bool)
    (period : string) (st : Store) : Response (Datatypes.list TimeRecordData) :=
  let queryset :=
    qfilter (λ r, match tasks st !! task r with
                  | Some t => flt r t
                  | None => false
                  end) (get_queryset user st) in
  match TimeRecordFilter.period today queryset period with
  | TimeRecordFilter.Filtered qs =>
      OK (TimeRecordSerializer st <$> order_by record_newest_first qs)
  | TimeRecordFilter.InvalidChoice errors => BadRequest errors
  | TimeRecordFilter.Failed => ServerError []
  end.

End TimeRecordViewSet.

(** ** Dashboards (views.py, web_views.py) *)

Module DashboardViewSet.

(** [DashboardViewSet.list]: the data the dashboard resource returns. *)
Definition list (user : Z) (today : date) (st : Store) : option dict :=
  let tasks := TaskViewSet.get_queryset user st in
  let total_tasks := count tasks in
  let active_tasks := count (qfilter active tasks) in
  let records := TimeRecordViewSet.get_queryset user st in
  let total_hours := or_zero (aggregate_Sum worked_time records) in
  week_start ← sub_days today (weekday today);
  let week_hours :=
    or_zero (aggregate_Sum worked_time
               (qfilter (λ r, date_leb week_start (record_date r)) records)) in
  month_start ← make_date (year today) (month today) 1;
  let month_hours :=
    or_zero (aggregate_Sum worked_time
               (qfilter (λ r, date_leb month_start (record_date r)) records)) in
  let recent_tasks := slice_to 5 (order_by_desc creation_date tasks) in
  let recent_records := slice_to 10 (order_by_desc record_creation_date records) in
  Some [("total_tasks", Int total_tasks);
        ("active_tasks", Int active_tasks);
        ("total_worked_hours", Float (hours_of total_hours));
        ("hours_this_week", Float (hours_of week_hours));
        ("hours_this_month", Float (hours_of month_hours));
        ("recent_tasks", TasksData (TaskSerializer st <$> recent_tasks));
        ("recent_records", RecordsData (TimeRecordSerializer st <$> recent_records))].

End DashboardViewSet.

(** ** The web views (web_views.py) *)

Section web_views.

(** The test [field__icontains=search]: a case-insensitive search for a
    substring, as the database carries it out. *)
Variable icontains : string → string → bool.

(** [dashboard]: the context the dashboard page is rendered with. *)
Definition dashboard (user : Z) (today : date) (st : Store) : option dict :=
  let tasks := TaskViewSet.get_queryset user st in
  let total_tasks := count tasks in
  let active_tasks := count (qfilter active tasks) in
  let records := TimeRecordViewSet.get_queryset user st in
  let total_hours := or_zero (aggregate_Sum worked_time records) in
  week_start ← sub_days today (weekday today);
  let week_hours :=
    or_zero (aggregate_Sum worked_time
               (qfilter (λ r, date_leb week_start (record_date r)) records)) in
  let recent_tasks := slice_to 5 (order_by_desc creation_date tasks) in
  let recent_records := slice_to 10 (order_by_desc record_creation_date records) in
  Some [("total_tasks", Int total_tasks);
        ("active_tasks", Int active_tasks);
        ("total_hours", Float (hours_of total_hours));
        ("week_hours", Float (hours_of week_hours));
        ("recent_tasks", Tasks recent_tasks);
        ("recent_records", Records recent_records)].

(** [record_list]: the records the record page shows. The request
    parameters are strings, empty when absent; [date_start] and [date_end]
    are given as the dates they spell. *)
Definition record_list (user : Z) (today : date) (search : string)
    (date_start date_end : option date) (period : string) (st : Store)
    : option (list (Z * TimeRecord)) :=
  let records := TimeRecordViewSet.get_queryset user st in
  let records :=
    if decide (search = "") then records
    else qfilter (λ r, icontains (work_description r) search ||
                       match tasks st !! task r with
                       | Some t => icontains (description t) search
                       | None => false
                       end) records in
  let records :=
    match date_start with
    | Some date_start => qfilter (λ r, date_leb date_start (record_date r)) records
    | None => records
    end in
  let records :=
    match date_end with
    | Some date_end => qfilter (λ r, date_leb (record_date r) date_end) records
    | None => records
    end in
  records ←
    (if decide (period = "") then Some records
     else if decide (period = "today") then
       Some (qfilter (λ r, date_eqb (record_date r) today) records)
     else if decide (period = "this_week") then
       week_start ← sub_days today (weekday today);
       Some (qfilter (λ r, date_leb week_start (record_date r)) records)
     else if decide (period = "this_month") then
       month_start ← make_date (year today) (month today) 1;
       Some (qfilter (λ r, date_leb month_start (record_date r)) records)
     else Some records);
  Some (order_by (λ a b, date_leb (record_date b) (record_date a)) records).

End web_views.

(** ** Definitions used to state the properties *)

(** The month and the day that [ord2ymd] finds for the [n]-th day of a
    year, counted from 0. *)
Definition month_day_of (leapyear : bool) (n : Z) : Z * Z :=
  let m := Z.shiftr (n + 50) 5 in
  let preceding :=
    DAYS_BEFORE_MONTH m + (if (2 <? m) && leapyear then 1 else 0) in
  if n <? preceding then
    let m := m - 1 in
    let preceding :=
      preceding - (DAYS_IN_MONTH m + (if (m =? 2) && leapyear then 1 else 0)) in
    (m, n - preceding + 1)
  else (m, n - preceding + 1).

Definition month_day_ok (leapyear : bool) (n : Z) : bool :=
  let '(m, d) := month_day_of leapyear n in
  (1 <=? m) && (m <=? 12) && (1 <=? d) &&
  (d <=? DAYS_IN_MONTH m + (if (m =? 2) && leapyear then 1 else 0)) &&
  (DAYS_BEFORE_MONTH m + (if (2 <? m) && leapyear then 1 else 0) + d =? n + 1).

(** The named periods of the specification, with the value that names
    each. *)
Inductive Period :=
  Today | Yesterday | ThisWeek | LastWeek | ThisMonth | LastMonth.

Definition period_value (p : Period) : string :=
  match p with
  | Today => "today"
  | Yesterday => "yesterday"
  | ThisWeek => "this_week"
  | LastWeek => "last_week"
  | ThisMonth => "this_month"
  | LastMonth => "last_month"
  end.

(** The calendar month before month [m] of year [y]. *)
Definition prior_month (y m : Z) : Z * Z :=
  if m =? 1 then (y - 1, 12) else (y, m - 1).

(** The predicate the specification gives for each period, on the date [r]
    of a record and the reference date [D]; days are counted by ordinal. *)
Definition in_period (D : date) (p : Period) (r : date) : bool :=
  match p with
  | Today => date_eqb r D
  | Yesterday => toordinal r =? toordinal D - 1
  | ThisWeek => toordinal D - weekday D <=? toordinal r
  | LastWeek =>
      let start := toordinal D - (weekday D + 7) in
      (start <=? toordinal r) && (toordinal r <=? start + 6)
  | ThisMonth => ymd2ord (year D) (month D) 1 <=? toordinal r
  | LastMonth =>
      (year r =? (prior_month (year D) (month D)).1) &&
      (month r =? (prior_month (year D) (month D)).2)
  end.

(** Every record of a table carries a date of the calendar. *)
Definition dates_valid (qs : gmap Z TimeRecord) : Prop :=
  map_Forall (λ _ r, valid_date (record_date r) = true) qs.

(** The sum of the worked time of a list of rows. *)
Definition sum_worked_time (l : list (Z * TimeRecord)) : Z :=
  foldr (λ kv acc, worked_time kv.2 + acc) 0 l.

(** A response reports the error [e]. *)
Definition reports {A} (resp : Response A) (e : string * string) : Prop :=
  match resp with
  | BadRequest errors | ServerError errors => e ∈ errors
  | _ => False
  end.

(** *** Requests of a user against the API *)

(** What a user can reach: the two querysets of the viewsets. *)
Definition visible (user : Z) (st : Store) : gmap Z Task * gmap Z TimeRecord :=
  (TaskViewSet.get_queryset user st, TimeRecordViewSet.get_queryset user st).

(** The store that holds the data of [user] and nothing else. *)
Definition restrict (user : Z) (st : Store) : Store :=
  {| tasks := TaskViewSet.get_queryset user st;
     time_records := TimeRecordViewSet.get_queryset user st |}.

(** The requests on existing data: list, retrieve, update and delete on
    the two resources, their extra actions, and the dashboard. *)
Inductive request :=
  | TaskList (flt : Task → bool)
  | TaskActive
  | TaskInactive
  | TaskRetrieve (pk : Z)
  | TaskUpdate (pk : Z) (data : TaskInput)
  | TaskToggle (pk : Z)
  | TaskDestroy (pk : Z)
  | RecordList (flt : TimeRecord → Task → bool) (period : string)
  | RecordToday
  | RecordThisWeek
  | RecordThisMonth
  | RecordSummary
  | RecordRetrieve (pk : Z)
  | RecordUpdate (pk : Z) (data : TimeRecordInput)
  | RecordDestroy (pk : Z)
  | Dashboard.

(** A reply; for the views that compute dates, [None] is the exception
    that the computation raises. *)
Inductive reply :=
  | TaskListReply (r : Response (list TaskData))
  | TaskDetailReply (r : Response (TaskData * list TimeRecordData))
  | TaskReply (r : Response TaskData)
  | RecordListReply (r : Response (list TimeRecordData))
  | RecordsReply (r : option (list TimeRecordData))
  | DictReply (r : option dict)
  | RecordReply (r : Response TimeRecordData)
  | EmptyReply (r : Response ()).

(** The router: each request goes to its view, on behalf of [user]. *)
Definition handle (user : Z) (today : date) (now : Z) (req : request)
    (st : Store) : reply * Store :=
  match req with
  | TaskList flt => (TaskListReply (TaskViewSet.list user flt st), st)
  | TaskActive => (TaskListReply (TaskViewSet.active user st), st)
  | TaskInactive => (TaskListReply (TaskViewSet.inactive user st), st)
  | TaskRetrieve pk => (TaskDetailReply (TaskViewSet.retrieve user pk st), st)
  | TaskUpdate pk data =>
      let '(r, st') := TaskViewSet.update user pk data st in (TaskReply r, st')
  | TaskToggle pk =>
      let '(r, st') := TaskViewSet.toggle_status user pk st in (TaskReply r, st')
  | TaskDestroy pk =>
      let '(r, st') := TaskViewSet.destroy user pk st in (EmptyReply r, st')
  | RecordList flt period =>
      (RecordListReply (TimeRecordViewSet.list user today flt period st), st)
  | RecordToday => (RecordsReply (TimeRecordViewSet.today user today st), st)
  | RecordThisWeek => (RecordsReply (TimeRecordViewSet.this_week user today st), st)
  | RecordThisMonth => (RecordsReply (TimeRecordViewSet.this_month user today st), st)
  | RecordSummary => (DictReply (TimeRecordViewSet.summary user today st), st)
  | Dashboard => (DictReply (DashboardViewSet.list user today st), st)
  | RecordRetrieve pk => (RecordReply (TimeRecordViewSet.retrieve user pk st), st)
  | RecordUpdate pk data =>
      let '(r, st') := TimeRecordViewSet.update user today now pk data st in
      (RecordReply r, st')
  | RecordDestroy pk =>
      let '(r, st') := TimeRecordViewSet.destroy user pk st in (EmptyReply r, st')
  end.

(** The request addresses the task, or the time record, with key [pk]. *)
Definition addresses_task (req : request) (pk : Z) : Prop :=
  match req with
  | TaskRetrieve k | TaskUpdate k _ | TaskToggle k | TaskDestroy k => k = pk
  | _ => False
  end.

Definition addresses_record (req : request) (pk : Z) : Prop :=
  match req with
  | RecordRetrieve k | RecordUpdate k _ | RecordDestroy k => k = pk
  | _ => False
  end.

(** The reply is "not found". *)
Definition not_found (rep : reply) : Prop :=
  match rep with
  | TaskDetailReply NotFound | TaskReply NotFound | RecordReply NotFound
  | EmptyReply NotFound => True
  | _ => False
  end.

(** The owners of the tasks a reply shows, nested ones included. *)
Definition record_owner (d : TimeRecordData) : list Z :=
  match trd_task d with
  | Some t => [td_responsible_user t]
  | None => []
  end.

Definition value_owners (v : value) : list Z :=
  match v with
  | TasksData l => td_responsible_user <$> l
  | RecordsData l => l ≫= record_owner
  | Tasks l => (λ kv, responsible_user kv.2) <$> l
  | _ => []
  end.

Definition owners_shown (rep : reply) : list Z :=
  match rep with
  | TaskListReply (OK l) => td_responsible_user <$> l
  | TaskDetailReply (OK (t, l)) => td_responsible_user t :: (l ≫= record_owner)
  | TaskReply (OK t) => [td_responsible_user t]
  | RecordListReply (OK l) => l ≫= record_owner
  | RecordsReply (Some l) => l ≫= record_owner
  | DictReply (Some d) => d ≫= (λ kv, value_owners kv.2)
  | RecordReply (OK d) => record_owner d
  | _ => []
  end.

(** A time record that the model accepts on the day [today]. *)
Definition record_ok (today : date) (r : TimeRecord) : Prop :=
  timedelta_minutes 1 <= worked_time r ∧ date_leb (record_date r) today = true.

(** The keys of the rows of a queryset. *)
Definition keys {A} (qs : gmap Z A) : gset Z := dom qs.

(** *** Example data *)

Definition alice : Z := 1.
Definition bob : Z := 2.

(** January 17th, 2024 was a Wednesday. *)
Definition wednesday : date := Date 2024 1 17.

Definition example_task (owner created : Z) (text : string) : Task :=
  {| responsible_user := owner; creation_date := created;
     description := text; active := true |}.

Definition example_record (t : Z) (d : date) (h m : Z) : TimeRecord :=
  {| task := t; record_date := d; worked_time := timedelta_of h m 0;
     work_description := "work"; record_creation_date := 0 |}.

(** Alice has one task with four records, Bob one task with one record. *)
Definition example_store : Store :=
  {| tasks :=
       <[1 := example_task alice 100 "Write the report"]>
       (<[2 := example_task bob 200 "Review"]> ∅);
     time_records :=
       <[1 := example_record 1 (Date 2024 1 15) 2 30]>
       (<[2 := example_record 1 (Date 2024 1 14) 0 5]>
       (<[3 := example_record 1 (Date 2023 12 20) 1 0]>
       (<[4 := example_record 2 (Date 2024 1 17) 3 0]>
       (<[5 := example_record 1 (Date 2024 1 2) 2 0]> ∅)))) |}.

(** ** The remaining web views (web_views.py) *)

(** What a page view returns: a rendered template with its context, a
    redirect with the success message it leaves, or "not found". *)
Inductive page (A : Type) :=
  | Rendered (context : A)
  | Redirect (to message : string)
  | Http404.
Arguments Rendered {A} context.
Arguments Redirect {A} to message.
Arguments Http404 {A}.

(** [get_object_or_404(Task, pk=pk, responsible_user=request.user)] *)
Definition get_task_or_404 (user pk : Z) (st : Store) : option Task :=
  match tasks st !! pk with
  | Some t => if responsible_user t =? user then Some t else None
  | None => None
  end.

(** [task_detail]: the task and its records, latest date first. *)
Definition task_detail (user pk : Z) (st : Store)
    : page ((Z * Task) * list (Z * TimeRecord)) :=
  match get_task_or_404 user pk st with
  | None => Http404
  | Some task =>
      let records :=
        order_by (λ a b, date_leb (record_date b) (record_date a))
          (Task_time_records st pk) in
      Rendered ((pk, task), records)
  end.

Section task_pages.

(** The test [field__icontains=search] of the database, the [username] of
    the user with a given key, and what a form text field does to the text
    submitted ([str.strip]). *)
Variable icontains : string → string → bool.
Variable username : Z → string.
Variable strip : string → string.

(** [task_list]: the tasks of the page, with the two parameters echoed. *)
Definition task_list (user : Z) (search status_filter : string) (st : Store)
    : list (Z * Task) * string * string :=
  let tasks := qfilter (λ t, responsible_user t =? user) (tasks st) in
  let tasks :=
    if decide (search = "") then tasks
    else qfilter (λ t, icontains (description t) search ||
                       icontains (username (responsible_user t)) search) tasks in
  let tasks :=
    if decide (status_filter = "active") then qfilter active tasks
    else if decide (status_filter = "inactive") then
      qfilter (λ t, negb (active t)) tasks
    else tasks in
  (order_by_desc creation_date tasks, search, status_filter).

(** The validation of [TaskForm]: the description is required. *)
Definition TaskForm_errors (data : TaskInput) : ErrorDict :=
  if decide (strip (in_description data) = "") then
    [("description", "This field is required.")]
  else [].

(** [new_task]: [post] holds the submitted form of a POST request and is
    [None] for a GET request. The context of the form page is the errors
    of the form and the title. *)
Definition new_task (user : Z) (now : Z) (post : option TaskInput) (st : Store)
    : page (ErrorDict * string) * Store :=
  match post with
  | Some data =>
      match TaskForm_errors data with
      | [] =>
          let task := {| responsible_user := user; creation_date := now;
                         description := strip (in_description data);
                         active := in_active data |} in
          (Redirect "task_list" "Task created successfully!",
           {| tasks := <[fresh_pk (tasks st) := task]> (tasks st);
              time_records := time_records st |})
      | errors => (Rendered (errors, "New Task"), st)
      end
  | None => (Rendered ([], "New Task"), st)
  end.

(** [edit_task] *)
Definition edit_task (user pk : Z) (post : option TaskInput) (st : Store)
    : page (ErrorDict * (Z * Task) * string) * Store :=
  match get_task_or_404 user pk st with
  | None => (Http404, st)
  | Some task =>
      match post with
      | Some data =>
          match TaskForm_errors data with
          | [] =>
              let task' := {| responsible_user := responsible_user task;
                              creation_date := creation_date task;
                              description := strip (in_description data);
                              active := in_active data |} in
              (Redirect "task_list" "Task updated successfully!",
               {| tasks := <[pk := task']> (tasks st);
                  time_records := time_records st |})
          | errors => (Rendered (errors, (pk, task), "Edit Task"), st)
          end
      | None => (Rendered ([], (pk, task), "Edit Task"), st)
      end
  end.

End task_pages.

(** ** The record form and the admin (forms.py, admin.py) *)

(** [TimeRecordForm.__init__]: the tasks the form offers, the own tasks of
    the user, newest first. *)
Definition TimeRecordForm_task_choices (user : Z) (st : Store) : list (Z * Task) :=
  order_by_desc creation_date (qfilter (λ t, responsible_user t =? user) (tasks st)).

(** [s[:n] + '...' if len(s) > n else s], the shortening that the admin
    columns use; a string is taken as the sequence of its characters. *)
Definition shorten (n : nat) (s : string) : string :=
  if (n <? String.length s)%nat then String.append (substring 0 n s) "..."
  else s.

Module TaskAdmin.

Definition short_description (obj : Task) : string :=
  shorten 50 (description obj).

End TaskAdmin.

Module TimeRecordAdmin.

(** [short_task]: [None] when the record points at no task. *)
Definition short_task (st : Store) (obj : TimeRecord) : option string :=
  (λ t, shorten 30 (description t)) <$> tasks st !! task obj.

Definition formatted_time (obj : TimeRecord) : string := worked_hours obj.

Definition short_work_description (obj : TimeRecord) : string :=
  shorten 40 (work_description obj).

End TimeRecordAdmin.

(** ** Definitions used to state further properties *)

(** Every time record points at a task of the store. *)
Definition references_ok (st : Store) : Prop :=
  map_Forall (λ _ r, is_Some (tasks st !! task r)) (time_records st).

(** Every time record of the store has a worked time of a minute or more. *)
Definition durations_ok (st : Store) : Prop :=
  map_Forall (λ _ r, timedelta_minutes 1 <= worked_time r) (time_records st).

(** The total worked time of the tasks of a list, added up. *)
Definition sum_task_totals (st : Store) (l : list (Z * Task)) : Z :=
  foldr (λ kv acc, total_worked_time st kv.1 + acc) 0 l.

(** The owner of a time record: the user responsible for its task. *)
Definition owner_of (st : Store) (r : TimeRecord) : option Z :=
  responsible_user <$> tasks st !! task r.

(** * Properties *)

(** ** The calendar *)

Ltac zbool :=
  repeat match goal with
  | |- context [Z.eqb ?a ?b] => destruct (Z.eqb_spec a b)
  | |- context [Z.ltb ?a ?b] => destruct (Z.ltb_spec a b)
  | |- context [Z.leb ?a ?b] => destruct (Z.leb_spec a b)
  | H : context [Z.eqb ?a ?b] |- _ => destruct (Z.eqb_spec a b)
  | H : context [Z.ltb ?a ?b] |- _ => destruct (Z.ltb_spec a b)
  | H : context [Z.leb ?a ?b] |- _ => destruct (Z.leb_spec a b)
  end.

Lemma days_before_year_succ y :
  days_before_year (y + 1) =
  days_before_year y + 365 + (if is_leap y then 1 else 0).
Proof.
  unfold days_before_year, is_leap.
  replace (y + 1 - 1) with y by lia.
  zbool; simpl; Z.div_mod_to_equations; lia.
Qed.

Lemma days_before_year_mono y k :
  0 <= k -> days_before_year y + 365 * k <= days_before_year (y + k).
Proof.
  intros Hk. revert k Hk.
  apply (natlike_ind (fun k => days_before_year y + 365 * k <= days_before_year (y + k))).
  - replace (y + 0) with y by lia. lia.
  - intros k Hk IH. replace (y + Z.succ k) with (y + k + 1) by lia.
    rewrite days_before_year_succ. destruct (is_leap (y + k)); lia.
Qed.

Lemma days_before_year_decomp q400 q100 q4 q1 :
  0 <= q100 <= 3 -> 0 <= q4 <= 24 -> 0 <= q1 <= 3 ->
  days_before_year (q400 * 400 + 1 + (q100 * 100 + q4 * 4 + q1)) =
  146097 * q400 + 36524 * q100 + 1461 * q4 + 365 * q1.
Proof.
  intros. unfold days_before_year.
  Z.div_mod_to_equations. lia.
Qed.

Lemma is_leap_decomp q400 q100 q4 q1 :
  0 <= q100 <= 3 -> 0 <= q4 <= 24 -> 0 <= q1 <= 3 ->
  is_leap (q400 * 400 + 1 + (q100 * 100 + q4 * 4 + q1)) =
  (q1 =? 3) && (negb (q4 =? 24) || (q100 =? 3)).
Proof.
  intros. unfold is_leap.
  zbool; simpl; try reflexivity; exfalso; Z.div_mod_to_equations; lia.
Qed.

Lemma month_day_ok_table leapyear :
  forallb (fun k => month_day_ok leapyear (Z.of_nat k)) (seq 0 365) = true.
Proof. destruct leapyear; vm_compute; reflexivity. Qed.

Lemma month_day_of_ok leapyear n :
  0 <= n < 365 -> month_day_ok leapyear n = true.
Proof.
  intros Hn.
  pose proof (month_day_ok_table leapyear) as Ht.
  rewrite forallb_forall in Ht.
  rewrite <- (Z2Nat.id n) by lia. apply Ht, in_seq. lia.
Qed.

Lemma ord2ymd_tail leapyear y n :
  (let m := Z.shiftr (n + 50) 5 in
   let preceding :=
     DAYS_BEFORE_MONTH m + (if (2 <? m) && leapyear then 1 else 0) in
   if n <? preceding then
     let m := m - 1 in
     let preceding :=
       preceding - (DAYS_IN_MONTH m + (if (m =? 2) && leapyear then 1 else 0)) in
     Date y m (n - preceding + 1)
   else Date y m (n - preceding + 1)) =
  Date y (fst (month_day_of leapyear n)) (snd (month_day_of leapyear n)).
Proof. unfold month_day_of. cbv zeta. destruct (_ <? _); reflexivity. Qed.

Lemma days_in_month_alt y m :
  days_in_month y m = DAYS_IN_MONTH m + (if (m =? 2) && is_leap y then 1 else 0).
Proof.
  unfold days_in_month. destruct ((m =? 2) && is_leap y) eqn:E; [|lia].
  apply andb_true_iff in E as [E _]. apply Z.eqb_eq in E. subst. reflexivity.
Qed.

(** Every day number from 1 on is the ordinal of the date [ord2ymd] gives
    it, and that date has a month and a day that exist. *)
Lemma ord2ymd_spec n :
  1 <= n ->
  let d := ord2ymd n in
  1 <= year d /\ 1 <= month d <= 12 /\
  1 <= day d <= days_in_month (year d) (month d) /\ toordinal d = n.
Proof.
  intros Hn. unfold ord2ymd. cbv zeta.
  unfold DI400Y, DI100Y, DI4Y.
  pose proof (Z.div_mod (n - 1) 146097 ltac:(lia)) as E1.
  pose proof (Z.mod_pos_bound (n - 1) 146097 ltac:(lia)) as B1.
  pose proof (Z.div_pos (n - 1) 146097 ltac:(lia) ltac:(lia)) as P1.
  set (q400 := (n - 1) / 146097) in *.
  set (r1 := (n - 1) mod 146097) in *.
  pose proof (Z.div_mod r1 36524 ltac:(lia)) as E2.
  pose proof (Z.mod_pos_bound r1 36524 ltac:(lia)) as B2.
  set (q100 := r1 / 36524) in *. set (r2 := r1 mod 36524) in *.
  pose proof (Z.div_mod r2 1461 ltac:(lia)) as E3.
  pose proof (Z.mod_pos_bound r2 1461 ltac:(lia)) as B3.
  set (q4 := r2 / 1461) in *. set (r3 := r2 mod 1461) in *.
  pose proof (Z.div_mod r3 365 ltac:(lia)) as E4.
  pose proof (Z.mod_pos_bound r3 365 ltac:(lia)) as B4.
  set (q1 := r3 / 365) in *. set (r4 := r3 mod 365) in *.
  clearbody q400 r1 q100 r2 q4 r3 q1 r4.
  assert (0 <= q100 <= 4) by lia.
  assert (0 <= q4 <= 24) by lia.
  assert (0 <= q1 <= 4) by lia.
  destruct ((q1 =? 4) || (q100 =? 4)) eqn:Esp.
  - (* the last day of a leap cycle *)
    rewrite orb_true_iff, !Z.eqb_eq in Esp.
    assert (Hy : q400 * 400 + 1 + (q100 * 100 + q4 * 4 + q1) - 1 =
      (if q100 =? 4 then q400 * 400 + 1 + (3 * 100 + 24 * 4 + 3)
       else q400 * 400 + 1 + (q100 * 100 + q4 * 4 + 3))).
    { destruct (Z.eqb_spec q100 4); lia. }
    rewrite Hy. clear Hy.
    unfold toordinal, ymd2ord, days_in_month, days_before_month.
    simpl year; simpl month; simpl day.
    destruct (Z.eqb_spec q100 4).
    + rewrite is_leap_decomp, days_before_year_decomp by lia. simpl. lia.
    + rewrite is_leap_decomp, days_before_year_decomp by lia.
      destruct (Z.eqb_spec q4 24); [lia|]. simpl. lia.
  - apply orb_false_iff in Esp as [Ea Eb].
    apply Z.eqb_neq in Ea, Eb.
    rewrite ord2ymd_tail.
    pose proof (month_day_of_ok ((q1 =? 3) && (negb (q4 =? 24) || (q100 =? 3))) r4 B4) as Hok.
    unfold month_day_ok in Hok.
    rewrite <- (is_leap_decomp q400) in * by lia.
    set (y := q400 * 400 + 1 + (q100 * 100 + q4 * 4 + q1)) in *.
    destruct (month_day_of (is_leap y) r4) as [m d] eqn:Emd.
    simpl fst; simpl snd.
    rewrite !andb_true_iff in Hok. destruct Hok as [[[[K1 K2] K3] K4] K5].
    apply Z.leb_le in K1, K2, K3, K4. apply Z.eqb_eq in K5.
    unfold toordinal, ymd2ord, days_before_month. simpl year; simpl month; simpl day.
    rewrite days_in_month_alt.
    subst y. rewrite days_before_year_decomp by lia.
    repeat split; try lia.
Qed.

Lemma valid_date_spec d :
  valid_date d = true <->
  1 <= year d <= 9999 /\ 1 <= month d <= 12 /\
  1 <= day d <= days_in_month (year d) (month d).
Proof.
  unfold valid_date, MINYEAR, MAXYEAR.
  rewrite !andb_true_iff, !Z.leb_le. lia.
Qed.

Ltac month_cases m :=
  let H := fresh in
  assert (H : m = 1 \/ m = 2 \/ m = 3 \/ m = 4 \/ m = 5 \/ m = 6 \/
              m = 7 \/ m = 8 \/ m = 9 \/ m = 10 \/ m = 11 \/ m = 12) by lia;
  repeat (destruct H as [H|H]; [subst m|]); [..|subst m].

Lemma day_of_year_bounds y m d :
  1 <= m <= 12 -> 1 <= d <= days_in_month y m ->
  1 <= days_before_month y m + d <= 365 + (if is_leap y then 1 else 0).
Proof.
  intros Hm. unfold days_in_month, days_before_month.
  month_cases m; destruct (is_leap y); simpl; lia.
Qed.

Lemma days_before_month_next y m m' :
  1 <= m -> m < m' -> m' <= 12 ->
  days_before_month y m + days_in_month y m <= days_before_month y m'.
Proof.
  intros H1 H2 H3. unfold days_in_month, days_before_month.
  month_cases m; month_cases m'; try lia; destruct (is_leap y); simpl; lia.
Qed.

Lemma toordinal_lt a b :
  valid_date a = true -> valid_date b = true ->
  date_ltb a b = true -> toordinal a < toordinal b.
Proof.
  intros Ha Hb. apply valid_date_spec in Ha, Hb.
  destruct a as [y m d], b as [y' m' d']. unfold date_ltb, toordinal, ymd2ord.
  simpl in *.
  rewrite !orb_true_iff, !andb_true_iff, !orb_true_iff, !andb_true_iff,
    !Z.ltb_lt, !Z.eqb_eq.
  intros [Hy | [-> [Hm | [-> Hd]]]].
  - pose proof (day_of_year_bounds y m d ltac:(lia) ltac:(lia)).
    pose proof (day_of_year_bounds y' m' d' ltac:(lia) ltac:(lia)).
    pose proof (days_before_year_succ y).
    pose proof (days_before_year_mono (y + 1) (y' - (y + 1)) ltac:(lia)) as Hmono.
    replace (y + 1 + (y' - (y + 1))) with y' in Hmono by lia. lia.
  - pose proof (days_before_month_next y' m m' ltac:(lia) Hm ltac:(lia)).
    unfold days_before_month in *. lia.
  - lia.
Qed.

Lemma date_eqb_eq a b : date_eqb a b = true <-> a = b.
Proof.
  destruct a, b. unfold date_eqb. simpl.
  rewrite !andb_true_iff, !Z.eqb_eq. split; [intros [[-> ->] ->]|intros [= -> -> ->]]; auto.
Qed.

Lemma date_trichotomy a b :
  date_ltb a b = true \/ a = b \/ date_ltb b a = true.
Proof.
  destruct a as [y m d], b as [y' m' d']. unfold date_ltb. simpl.
  rewrite !orb_true_iff, !andb_true_iff, !orb_true_iff, !andb_true_iff,
    !Z.ltb_lt, !Z.eqb_eq.
  destruct (Z.lt_trichotomy y y') as [?|[->|?]]; [lia| |lia].
  destruct (Z.lt_trichotomy m m') as [?|[->|?]]; [lia| |lia].
  destruct (Z.lt_trichotomy d d') as [?|[->|?]]; [lia| |lia].
  right; left; reflexivity.
Qed.

Lemma toordinal_inj a b :
  valid_date a = true -> valid_date b = true ->
  toordinal a = toordinal b -> a = b.
Proof.
  intros Ha Hb E.
  destruct (date_trichotomy a b) as [H|[H|H]]; [|assumption|].
  - pose proof (toordinal_lt a b Ha Hb H). lia.
  - pose proof (toordinal_lt b a Hb Ha H). lia.
Qed.

(** Dates compare as their day numbers do. *)
Lemma date_ltb_ordinal a b :
  valid_date a = true -> valid_date b = true ->
  date_ltb a b = (toordinal a <? toordinal b).
Proof.
  intros Ha Hb.
  destruct (Z.ltb_spec (toordinal a) (toordinal b)) as [Hlt|Hge].
  - destruct (date_trichotomy a b) as [H|[H|H]]; [assumption| |].
    + subst. lia.
    + pose proof (toordinal_lt b a Hb Ha H). lia.
  - destruct (date_ltb a b) eqn:H; [|reflexivity].
    pose proof (toordinal_lt a b Ha Hb H). lia.
Qed.

Lemma date_eqb_ordinal a b :
  valid_date a = true -> valid_date b = true ->
  date_eqb a b = (toordinal a =? toordinal b).
Proof.
  intros Ha Hb. destruct (Z.eqb_spec (toordinal a) (toordinal b)) as [E|E].
  - apply date_eqb_eq, toordinal_inj; assumption.
  - destruct (date_eqb a b) eqn:H; [|reflexivity].
    apply date_eqb_eq in H. subst. lia.
Qed.

Lemma date_leb_ordinal a b :
  valid_date a = true -> valid_date b = true ->
  date_leb a b = (toordinal a <=? toordinal b).
Proof.
  intros Ha Hb. unfold date_leb.
  rewrite date_ltb_ordinal, date_eqb_ordinal by assumption.
  destruct (Z.ltb_spec (toordinal a) (toordinal b)),
    (Z.eqb_spec (toordinal a) (toordinal b)),
    (Z.leb_spec (toordinal a) (toordinal b)); simpl; try reflexivity; lia.
Qed.

Lemma toordinal_range d :
  valid_date d = true -> 1 <= toordinal d <= MAXORDINAL.
Proof.
  intros Hd. pose proof Hd as Hv. apply valid_date_spec in Hd.
  destruct d as [y m dd]. unfold toordinal, ymd2ord. simpl in *.
  pose proof (day_of_year_bounds y m dd ltac:(lia) ltac:(lia)).
  pose proof (days_before_year_mono 1 (y - 1) ltac:(lia)) as H1.
  replace (1 + (y - 1)) with y in H1 by lia.
  pose proof (days_before_year_succ y).
  pose proof (days_before_year_mono (y + 1) (10000 - (y + 1)) ltac:(lia)) as H2.
  replace (y + 1 + (10000 - (y + 1))) with 10000 in H2 by lia.
  change (days_before_year 1) with 0 in H1.
  change (days_before_year 10000) with 3652059 in H2.
  unfold MAXORDINAL. lia.
Qed.

Lemma toordinal_fromordinal n : 1 <= n -> toordinal (fromordinal n) = n.
Proof. intros Hn. apply (ord2ymd_spec n Hn). Qed.

Lemma fromordinal_valid n :
  1 <= n <= MAXORDINAL -> valid_date (fromordinal n) = true.
Proof.
  intros Hn. destruct (ord2ymd_spec n ltac:(lia)) as (Hy & Hm & Hd & Ho).
  fold (fromordinal n) in *. apply valid_date_spec. repeat split; try lia.
  destruct (Z_le_gt_dec (year (fromordinal n)) 9999) as [|Hgt]; [assumption|].
  exfalso.
  pose proof (days_before_year_mono 10000 (year (fromordinal n) - 10000) ltac:(lia)) as H2.
  replace (10000 + (year (fromordinal n) - 10000)) with (year (fromordinal n)) in H2 by lia.
  change (days_before_year 10000) with 3652059 in H2.
  pose proof (day_of_year_bounds _ _ _ Hm Hd).
  unfold toordinal, ymd2ord, MAXORDINAL in *. lia.
Qed.

Lemma fromordinal_toordinal d :
  valid_date d = true -> fromordinal (toordinal d) = d.
Proof.
  intros Hd. pose proof (toordinal_range d Hd).
  apply toordinal_inj; [apply fromordinal_valid; lia|assumption|].
  apply toordinal_fromordinal. lia.
Qed.

(** *** Querysets *)

Lemma qfilter_lookup {A} (p : A → bool) (qs : gmap Z A) k :
  qfilter p qs !! k =
  match qs !! k with
  | Some x => if p x then Some x else None
  | None => None
  end.
Proof.
  unfold qfilter. destruct (qs !! k) as [x|] eqn:E.
  - destruct (p x) eqn:Ep.
    + apply map_lookup_filter_Some. auto.
    + apply map_lookup_filter_None. right. intros y Hy. simpl. congruence.
  - apply map_lookup_filter_None. left. assumption.
Qed.

Lemma qfilter_ext {A} (p q : A → bool) (qs : gmap Z A) :
  (∀ k x, qs !! k = Some x → p x = q x) → qfilter p qs = qfilter q qs.
Proof.
  intros H. apply map_eq. intros k. rewrite !qfilter_lookup.
  destruct (qs !! k) as [x|] eqn:E; [|reflexivity].
  rewrite (H k x E). reflexivity.
Qed.

(** *** Date arithmetic *)

Lemma weekday_range d : 0 <= weekday d < 7.
Proof. unfold weekday. apply Z.mod_pos_bound. lia. Qed.

Lemma sub_days_Some d n :
  valid_date d = true -> 1 <= toordinal d - n <= MAXORDINAL ->
  ∃ d', sub_days d n = Some d' ∧ valid_date d' = true ∧
        toordinal d' = toordinal d - n.
Proof.
  intros Hd Hn. exists (fromordinal (toordinal d - n)). unfold sub_days.
  destruct (Z.ltb_spec 0 (toordinal d - n)); [|lia].
  destruct (Z.leb_spec (toordinal d - n) MAXORDINAL); [|lia]. simpl.
  split; [reflexivity|]. split.
  - apply fromordinal_valid. lia.
  - apply toordinal_fromordinal. lia.
Qed.

Lemma toordinal_year_ge d :
  valid_date d = true -> 2 <= year d -> 366 <= toordinal d.
Proof.
  intros Hd Hy. apply valid_date_spec in Hd. destruct d as [y m dd].
  unfold toordinal, ymd2ord. simpl in *.
  pose proof (day_of_year_bounds y m dd ltac:(lia) ltac:(lia)).
  pose proof (days_before_year_mono 2 (y - 2) ltac:(lia)) as H2.
  replace (2 + (y - 2)) with y in H2 by lia.
  change (days_before_year 2) with 365 in H2. lia.
Qed.

Lemma days_in_month_ge y m : 1 <= m <= 12 -> 28 <= days_in_month y m <= 31.
Proof.
  intros Hm. unfold days_in_month.
  month_cases m; destruct (is_leap y); simpl; lia.
Qed.

Lemma first_of_month_valid d :
  valid_date d = true -> valid_date (Date (year d) (month d) 1) = true.
Proof.
  intros Hd. apply valid_date_spec in Hd. apply valid_date_spec. simpl.
  pose proof (days_in_month_ge (year d) (month d) ltac:(lia)). lia.
Qed.

Lemma make_date_first d :
  valid_date d = true ->
  make_date (year d) (month d) 1 = Some (Date (year d) (month d) 1).
Proof.
  intros Hd. unfold make_date. rewrite first_of_month_valid by assumption.
  reflexivity.
Qed.

Lemma prior_month_range y m :
  2 <= y <= 9999 -> 1 <= m <= 12 ->
  1 <= (prior_month y m).1 <= 9999 ∧ 1 <= (prior_month y m).2 <= 12.
Proof.
  intros Hy Hm. unfold prior_month. destruct (Z.eqb_spec m 1); simpl; lia.
Qed.

(** The day before the first of a month is the last day of the month
    before. *)
Lemma first_of_month_pred y m :
  1 <= m <= 12 ->
  ymd2ord y m 1 - 1 =
  ymd2ord (prior_month y m).1 (prior_month y m).2
    (days_in_month (prior_month y m).1 (prior_month y m).2).
Proof.
  intros Hm. unfold prior_month. destruct (Z.eqb_spec m 1) as [->|Hne]; simpl.
  - unfold ymd2ord, days_before_month, days_in_month. simpl.
    pose proof (days_before_year_succ (y - 1)) as Hs.
    replace (y - 1 + 1) with y in Hs by lia.
    destruct (is_leap (y - 1)), (is_leap y); simpl; lia.
  - unfold ymd2ord, days_before_month, days_in_month.
    month_cases m; try lia; destruct (is_leap y); simpl; lia.
Qed.

Lemma last_month_window D r :
  valid_date D = true -> 2 <= year D -> valid_date r = true ->
  let py := (prior_month (year D) (month D)).1 in
  let pm := (prior_month (year D) (month D)).2 in
  date_leb (Date py pm 1) r && date_leb r (Date py pm (days_in_month py pm)) =
  (year r =? py) && (month r =? pm).
Proof.
  intros HD Hy Hr py pm. apply valid_date_spec in Hr.
  destruct r as [y m d]. unfold date_leb, date_ltb, date_eqb.
  cbn [year month day] in *.
  destruct (Z.eqb_spec y py) as [->|]; destruct (Z.eqb_spec m pm) as [->|];
    cbn [andb orb]; zbool; cbn [andb orb]; try reflexivity; try lia.
  all: pose proof (days_in_month_ge py pm ltac:(lia)); lia.
Qed.

Lemma sub_days_first_of_month D :
  valid_date D = true -> 2 <= year D ->
  let py := (prior_month (year D) (month D)).1 in
  let pm := (prior_month (year D) (month D)).2 in
  sub_days (Date (year D) (month D) 1) 1 = Some (Date py pm (days_in_month py pm)).
Proof.
  intros HD Hy py pm.
  pose proof (first_of_month_valid D HD) as Hf.
  pose proof (toordinal_year_ge _ Hf Hy) as Hge.
  pose proof (toordinal_range _ Hf) as Hr.
  destruct (sub_days_Some _ 1 Hf ltac:(lia)) as (d' & -> & Hv & Ho).
  f_equal. apply toordinal_inj; [assumption| |].
  - apply valid_date_spec in HD. apply valid_date_spec. simpl.
    destruct (prior_month_range (year D) (month D) ltac:(lia) ltac:(lia)).
    pose proof (days_in_month_ge py pm ltac:(assumption)).
    subst py pm. lia.
  - rewrite Ho. apply valid_date_spec in HD.
    unfold toordinal at 1. cbn [year month day].
    rewrite first_of_month_pred by lia. reflexivity.
Qed.

Lemma last_month_start D :
  valid_date D = true -> 2 <= year D ->
  (if month D =? 1 then make_date (year D - 1) 12 1
   else make_date (year D) (month D - 1) 1) =
  Some (Date (prior_month (year D) (month D)).1 (prior_month (year D) (month D)).2 1).
Proof.
  intros HD Hy. apply valid_date_spec in HD.
  unfold prior_month. destruct (Z.eqb_spec (month D) 1); cbn [fst snd];
    unfold make_date.
  - replace (valid_date _) with true; [reflexivity|].
    symmetry. apply valid_date_spec. simpl. unfold days_in_month. simpl. lia.
  - replace (valid_date _) with true; [reflexivity|].
    symmetry. apply valid_date_spec. cbn [year month day].
    pose proof (days_in_month_ge (year D) (month D - 1) ltac:(lia)). lia.
Qed.

Lemma filter_period_named D p (qs : gmap Z TimeRecord) :
  valid_date D = true -> 2 <= year D -> dates_valid qs ->
  TimeRecordFilter.filter_period D qs (period_value p) =
  Some (qfilter (λ r, in_period D p (record_date r)) qs).
Proof.
  intros HD Hy Hqs.
  pose proof (toordinal_year_ge D HD Hy) as Hord.
  pose proof (toordinal_range D HD) as Hrange.
  pose proof (weekday_range D) as Hwd.
  unfold TimeRecordFilter.filter_period.
  destruct p; cbn [period_value];
    repeat (case_decide as Hc; [try discriminate Hc|]); try congruence.
  - reflexivity.
  - destruct (sub_days_Some D 1 HD ltac:(lia)) as (y & -> & Hv & Ho).
    cbn [mbind option_bind]. f_equal. apply qfilter_ext. intros k r Hr.
    rewrite date_eqb_ordinal by (auto; eapply Hqs; eauto).
    rewrite Ho. reflexivity.
  - destruct (sub_days_Some D (weekday D) HD ltac:(lia)) as (ws & -> & Hv & Ho).
    cbn [mbind option_bind]. f_equal. apply qfilter_ext. intros k r Hr.
    rewrite date_leb_ordinal by (auto; eapply Hqs; eauto).
    rewrite Ho. reflexivity.
  - destruct (sub_days_Some D (weekday D + 7) HD ltac:(lia)) as (ws & -> & Hv & Ho).
    cbn [mbind option_bind]. unfold add_days.
    destruct (sub_days_Some ws (Z.opp 6) Hv ltac:(lia)) as (we & -> & Hv' & Ho').
    cbn [mbind option_bind]. f_equal. apply qfilter_ext. intros k r Hr.
    rewrite !date_leb_ordinal by (auto; eapply Hqs; eauto).
    rewrite Ho', Ho. cbn [in_period].
    replace (toordinal D - (weekday D + 7) - - (6)) with
      (toordinal D - (weekday D + 7) + 6) by lia.
    reflexivity.
  - rewrite make_date_first by assumption.
    cbn [mbind option_bind]. f_equal. apply qfilter_ext. intros k r Hr.
    rewrite date_leb_ordinal
      by (auto using first_of_month_valid; eapply Hqs; eauto).
    reflexivity.
  - rewrite last_month_start, make_date_first by assumption. cbn [mbind option_bind].
    rewrite sub_days_first_of_month by assumption. cbn [mbind option_bind].
    f_equal. apply qfilter_ext. intros k r Hr.
    apply last_month_window; auto. eapply Hqs; eauto.
Qed.

(** *** Sums of durations *)

Lemma sum_worked_time_perm l k :
  l ≡ₚ k → sum_worked_time l = sum_worked_time k.
Proof.
  unfold sum_worked_time.
  induction 1 as [|x l k _ IH|x y l|l k m _ IH1 _ IH2]; simpl; lia.
Qed.

Lemma rows_qfilter {A} (p : A → bool) (qs : gmap Z A) :
  rows (qfilter p qs) ≡ₚ filter (λ kv, p kv.2 = true) (rows qs).
Proof.
  unfold rows, qfilter. apply NoDup_Permutation.
  - apply NoDup_map_to_list.
  - apply NoDup_filter, NoDup_map_to_list.
  - intros [k x]. rewrite list_elem_of_filter, !elem_of_map_to_list.
    rewrite map_lookup_filter_Some. simpl. tauto.
Qed.

Lemma or_zero_aggregate_Sum (qs : gmap Z TimeRecord) :
  or_zero (aggregate_Sum worked_time qs) = sum_worked_time (rows qs).
Proof.
  unfold aggregate_Sum, or_zero, truthy.
  destruct (rows qs) as [|kv l] eqn:E; [reflexivity|].
  fold (sum_worked_time (kv :: l)).
  destruct (Z.eqb_spec (sum_worked_time (kv :: l)) 0) as [->|]; reflexivity.
Qed.

Lemma total_worked_time_sum st pk :
  total_worked_time st pk =
  sum_worked_time (filter (λ kv, task kv.2 = pk) (rows (time_records st))).
Proof.
  unfold total_worked_time, Task_time_records.
  rewrite or_zero_aggregate_Sum.
  rewrite (sum_worked_time_perm _ _ (rows_qfilter _ _)).
  f_equal. apply list_filter_iff. intros [k r]. simpl. apply Z.eqb_eq.
Qed.

Lemma total_worked_time_none st pk :
  (∀ k r, time_records st !! k = Some r → task r ≠ pk) →
  total_worked_time st pk = 0.
Proof.
  intros H. rewrite total_worked_time_sum.
  destruct (filter _ _) as [|[k r] l] eqn:E; [reflexivity|]. exfalso.
  assert (Hin : (k, r) ∈ filter (λ kv, task kv.2 = pk) (rows (time_records st)))
    by (rewrite E; left).
  apply list_elem_of_filter in Hin as [Hp Hin].
  apply elem_of_map_to_list in Hin. exact (H k r Hin Hp).
Qed.

(** *** Formatting of worked hours *)

Lemma floordiv_total_seconds_3600 td :
  floordiv (total_seconds td) 3600 = inject_Z (td / 3600000000).
Proof.
  unfold floordiv, total_seconds, Qdiv, Qmult, Qinv, Qfloor. cbn [Qnum Qden].
  change (Z.pos (1000000 * 3600)) with 3600000000.
  rewrite Z.mul_1_r. reflexivity.
Qed.

Lemma int_of_inject_Z z : int_of (inject_Z z) = z.
Proof. unfold int_of, inject_Z. cbn [Qnum Qden]. apply Z.quot_1_r. Qed.

Lemma floordiv_pymod_total_seconds td :
  floordiv (pymod (total_seconds td) 3600) 60 =
  inject_Z ((td mod 3600000000) / 60000000).
Proof.
  unfold pymod. fold (floordiv (total_seconds td) 3600).
  rewrite floordiv_total_seconds_3600.
  unfold floordiv, total_seconds, Qminus, Qplus, Qopp, Qdiv, Qmult, Qinv,
    Qfloor, inject_Z.
  cbn [Qnum Qden].
  change (Z.pos (1000000 * (1 * 1) * 60)) with 60000000.
  f_equal. f_equal.
  rewrite (Z.mod_eq td 3600000000) by lia. lia.
Qed.

Lemma worked_hours_microseconds r :
  worked_hours r =
  String.append (format_02d (worked_time r / 3600000000))
    (String ":" (format_02d ((worked_time r mod 3600000000) / 60000000))).
Proof.
  unfold worked_hours.
  rewrite floordiv_total_seconds_3600, floordiv_pymod_total_seconds.
  rewrite !int_of_inject_Z. reflexivity.
Qed.

Lemma worked_hours_seconds r :
  let s := worked_time r / 1000000 in
  worked_hours r =
  String.append (format_02d (s / 3600))
    (String ":" (format_02d ((s mod 3600) / 60))).
Proof.
  intros s. rewrite worked_hours_microseconds. subst s.
  f_equal; [|f_equal]; f_equal.
  - rewrite Z.div_div by lia. reflexivity.
  - Z.div_mod_to_equations. lia.
Qed.

(** *** Period values outside the choices *)

Lemma filter_period_unrecognized today (qs : gmap Z TimeRecord) value :
  value ∉ TimeRecordFilter.period_choices →
  TimeRecordFilter.filter_period today qs value = Some qs.
Proof.
  intros H. unfold TimeRecordFilter.filter_period.
  repeat (case_decide;
          [exfalso; apply H; subst value;
           unfold TimeRecordFilter.period_choices; set_solver|]).
  reflexivity.
Qed.

Lemma period_unrecognized today (qs : gmap Z TimeRecord) value :
  value ∉ TimeRecordFilter.period_choices →
  TimeRecordFilter.period today qs value =
  if decide (value = "") then TimeRecordFilter.Filtered qs
  else TimeRecordFilter.InvalidChoice
         [("period", TimeRecordFilter.MSG_INVALID_CHOICE value)].
Proof.
  intros H. unfold TimeRecordFilter.period.
  case_decide; [reflexivity|]. case_decide; [contradiction|reflexivity].
Qed.

Lemma record_list_other_period icontains user today search ds de period st :
  period ≠ "today" → period ≠ "this_week" → period ≠ "this_month" →
  record_list icontains user today search ds de period st =
  record_list icontains user today search ds de "" st.
Proof.
  intros H1 H2 H3. unfold record_list.
  repeat case_decide; try congruence; reflexivity.
Qed.

(** *** Toggling a task *)

Lemma TaskViewSet_get_object_Some user pk st t :
  TaskViewSet.get_object user pk st = Some t ↔
  tasks st !! pk = Some t ∧ responsible_user t = user.
Proof.
  unfold TaskViewSet.get_object, TaskViewSet.get_queryset.
  rewrite qfilter_lookup. destruct (tasks st !! pk) as [t'|].
  - destruct (Z.eqb_spec (responsible_user t') user) as [E|E].
    + split; [intros [= <-]; auto|intros [[= <-] _]; reflexivity].
    + split; [discriminate|intros [[= <-] ?]; contradiction].
  - split; [discriminate|intros [? _]; discriminate].
Qed.

Lemma toggle_status_twice user pk st t :
  TaskViewSet.get_object user pk st = Some t →
  ∃ t1 st1,
    TaskViewSet.toggle_status user pk st = (OK (TaskSerializer st1 (pk, t1)), st1) ∧
    tasks st1 !! pk = Some t1 ∧
    active t1 = negb (active t) ∧
    TaskViewSet.toggle_status user pk st1 = (OK (TaskSerializer st (pk, t)), st).
Proof.
  intros Hget.
  pose proof Hget as Hget'. apply TaskViewSet_get_object_Some in Hget' as [Hlk Hown].
  eexists _, _. split; [|split; [|split]].
  - unfold TaskViewSet.toggle_status. rewrite Hget. reflexivity.
  - cbn. apply lookup_insert_eq.
  - reflexivity.
  - unfold TaskViewSet.toggle_status.
    match goal with |- context [TaskViewSet.get_object user pk ?s] =>
      assert (Hg : TaskViewSet.get_object user pk s =
        Some {| responsible_user := responsible_user t;
                creation_date := creation_date t;
                description := description t;
                active := negb (active t) |})
    end.
    { apply TaskViewSet_get_object_Some. split; [apply lookup_insert_eq|exact Hown]. }
    rewrite Hg. cbn [responsible_user creation_date description active tasks time_records].
    rewrite negb_involutive, insert_insert_eq.
    assert (Ht : {| responsible_user := responsible_user t;
                    creation_date := creation_date t;
                    description := description t;
                    active := active t |} = t) by (destruct t; reflexivity).
    rewrite Ht. rewrite (insert_id (tasks st) pk t Hlk).
    destruct st; reflexivity.
Qed.

Lemma toggle_status_not_found user pk st :
  TaskViewSet.get_object user pk st = None →
  TaskViewSet.toggle_status user pk st = (NotFound, st).
Proof. intros H. unfold TaskViewSet.toggle_status. rewrite H. reflexivity. Qed.

(** *** Saving a time record *)

Lemma clean_fields_nil st r :
  clean_fields st r = [] →
  is_Some (tasks st !! task r) ∧ timedelta_minutes 1 <= worked_time r ∧
  work_description r ≠ "".
Proof.
  unfold clean_fields. intros H.
  case_decide; [|discriminate]. 
  destruct (Z.ltb_spec (worked_time r) (timedelta_minutes 1)); [discriminate|].
  case_decide; [discriminate|]. auto.
Qed.

Lemma TimeRecord_clean_nil today r :
  TimeRecord_clean today r = [] → date_ltb today (record_date r) = false.
Proof.
  unfold TimeRecord_clean. destruct (_ && _); [discriminate|].
  destruct (date_ltb today (record_date r)); [discriminate|reflexivity].
Qed.

Lemma full_clean_nil st today r :
  full_clean st today r = [] →
  timedelta_minutes 1 <= worked_time r ∧ date_ltb today (record_date r) = false.
Proof.
  unfold full_clean. intros H. apply app_eq_nil in H as [H1 H2].
  apply clean_fields_nil in H1 as (_ & ? & _).
  apply TimeRecord_clean_nil in H2. auto.
Qed.

Lemma full_clean_rejects st today r :
  worked_time r < timedelta_minutes 1 ∨ date_ltb today (record_date r) = true →
  full_clean st today r ≠ [].
Proof.
  intros H Hnil. apply full_clean_nil in Hnil as [? ?].
  destruct H; [lia|congruence].
Qed.

Lemma TimeRecord_save_Done today now pk r st k st' :
  TimeRecord_save today now pk r st = (Done k, st') →
  full_clean st today r = [] ∧
  ∃ r', time_records st' !! k = Some r' ∧
        task r' = task r ∧ record_date r' = record_date r ∧
        worked_time r' = worked_time r ∧
        work_description r' = work_description r.
Proof.
  unfold TimeRecord_save. destruct (full_clean st today r) eqn:E; [|discriminate].
  intros [= <- <-]. split; [reflexivity|]. cbn [time_records].
  eexists. split; [apply lookup_insert_eq|].
  destruct (time_records st !! _); auto.
Qed.

Lemma TimeRecord_save_Raised today now pk r st :
  full_clean st today r ≠ [] →
  TimeRecord_save today now pk r st = (Raised (full_clean st today r), st).
Proof.
  unfold TimeRecord_save. destruct (full_clean st today r); [congruence|reflexivity].
Qed.

(** *** The two validation rules *)

Lemma worked_time_rule td :
  truthy td && Qle_bool (total_seconds td) 0 = (td <? 0).
Proof.
  unfold truthy, total_seconds, Qle_bool. cbn [Qnum Qden].
  destruct (Z.eqb_spec td 0), (Z.leb_spec (td * 1) (0 * 1000000)),
    (Z.ltb_spec td 0); simpl; try reflexivity; lia.
Qed.

Lemma date_ltb_irrefl d : date_ltb d d = false.
Proof.
  unfold date_ltb. rewrite !Z.ltb_irrefl, !Z.eqb_refl. reflexivity.
Qed.

Lemma TimeRecord_clean_cases today r :
  TimeRecord_clean today r =
  if worked_time r <? 0 then [("worked_time", MSG_WORKED_TIME)]
  else if date_ltb today (record_date r) then [("record_date", MSG_RECORD_DATE)]
  else [].
Proof. unfold TimeRecord_clean. rewrite worked_time_rule. reflexivity. Qed.

Lemma clean_worked_time_cases td :
  TimeRecordForm.clean_worked_time td =
  if td <? 0 then inl MSG_WORKED_TIME else inr td.
Proof. unfold TimeRecordForm.clean_worked_time. rewrite worked_time_rule. reflexivity. Qed.

Lemma sub_days_weekday today :
  valid_date today = true →
  ∃ week_start, sub_days today (weekday today) = Some week_start ∧
    valid_date week_start = true ∧
    toordinal week_start = toordinal today - weekday today.
Proof.
  intros Hv. pose proof (toordinal_range today Hv) as Hr.
  apply sub_days_Some; [assumption|].
  pose proof (weekday_range today). unfold weekday in *.
  Z.div_mod_to_equations. lia.
Qed.

(** *** Ownership *)

Lemma tasks_queryset_lookup user st k :
  TaskViewSet.get_queryset user st !! k =
  match tasks st !! k with
  | Some t => if responsible_user t =? user then Some t else None
  | None => None
  end.
Proof. apply qfilter_lookup. Qed.

Lemma records_queryset_lookup user st k :
  TimeRecordViewSet.get_queryset user st !! k =
  match time_records st !! k with
  | Some r => if TimeRecordViewSet.owned_by st user r then Some r else None
  | None => None
  end.
Proof. apply qfilter_lookup. Qed.

Lemma owned_by_true st user r :
  TimeRecordViewSet.owned_by st user r = true ↔
  ∃ t, tasks st !! task r = Some t ∧ responsible_user t = user.
Proof.
  unfold TimeRecordViewSet.owned_by. destruct (tasks st !! task r) as [t|].
  - rewrite Z.eqb_eq. split; [eauto|]. intros (t' & [= <-] & ?). assumption.
  - split; [discriminate|]. intros (t' & [=] & _).
Qed.

Lemma owned_by_one_owner st a b r :
  a ≠ b → TimeRecordViewSet.owned_by st b r = true →
  TimeRecordViewSet.owned_by st a r = false.
Proof.
  unfold TimeRecordViewSet.owned_by. intros Hne.
  destruct (tasks st !! task r) as [t|]; [|discriminate].
  rewrite Z.eqb_eq. intros <-. apply Z.eqb_neq. congruence.
Qed.

Lemma owned_by_restrict user st r :
  TimeRecordViewSet.owned_by (restrict user st) user r =
  TimeRecordViewSet.owned_by st user r.
Proof.
  unfold TimeRecordViewSet.owned_by, restrict. cbn [tasks].
  rewrite tasks_queryset_lookup. destruct (tasks st !! task r) as [t|]; [|reflexivity].
  destruct (responsible_user t =? user) eqn:E; [assumption|reflexivity].
Qed.

Lemma tasks_queryset_restrict user st :
  TaskViewSet.get_queryset user (restrict user st) =
  TaskViewSet.get_queryset user st.
Proof.
  apply map_eq. intros k. rewrite tasks_queryset_lookup. cbn [restrict tasks].
  rewrite tasks_queryset_lookup. destruct (tasks st !! k) as [t|]; [|reflexivity].
  destruct (responsible_user t =? user) eqn:E; [rewrite E|]; reflexivity.
Qed.

Lemma records_queryset_restrict user st :
  TimeRecordViewSet.get_queryset user (restrict user st) =
  TimeRecordViewSet.get_queryset user st.
Proof.
  apply map_eq. intros k. rewrite records_queryset_lookup.
  change (time_records (restrict user st)) with
    (TimeRecordViewSet.get_queryset user st).
  rewrite records_queryset_lookup.
  destruct (time_records st !! k) as [r|]; [|reflexivity].
  destruct (TimeRecordViewSet.owned_by st user r) eqn:E; [|reflexivity].
  rewrite owned_by_restrict, E. reflexivity.
Qed.
Lemma restrict_idemp user st : restrict user (restrict user st) = restrict user st.
Proof.
  unfold restrict at 1. rewrite tasks_queryset_restrict, records_queryset_restrict.
  reflexivity.
Qed.

Lemma visible_restrict user st : visible user (restrict user st) = visible user st.
Proof.
  unfold visible. rewrite tasks_queryset_restrict, records_queryset_restrict.
  reflexivity.
Qed.

Lemma restrict_visible user st1 st2 :
  visible user st1 = visible user st2 → restrict user st1 = restrict user st2.
Proof. unfold visible, restrict. intros [= -> ->]. reflexivity. Qed.

(** The time records of a task of [user] are all within reach of [user]. *)
Lemma Task_time_records_restrict user st pk t :
  tasks st !! pk = Some t → responsible_user t = user →
  Task_time_records (restrict user st) pk = Task_time_records st pk.
Proof.
  intros Hlk Hown. unfold Task_time_records. apply map_eq. intros k.
  rewrite !qfilter_lookup. cbn [restrict time_records].
  rewrite records_queryset_lookup.
  destruct (time_records st !! k) as [r|]; [|reflexivity].
  destruct (Z.eqb_spec (task r) pk) as [E|E].
  - replace (TimeRecordViewSet.owned_by st user r) with true.
    + destruct (Z.eqb_spec (task r) pk); [reflexivity|contradiction].
    + symmetry. apply owned_by_true. exists t. rewrite E. auto.
  - destruct (TimeRecordViewSet.owned_by st user r); [|reflexivity].
    destruct (Z.eqb_spec (task r) pk); [contradiction|reflexivity].
Qed.

Lemma TaskSerializer_restrict user st pk t t' :
  tasks st !! pk = Some t → responsible_user t = user →
  TaskSerializer (restrict user st) (pk, t') = TaskSerializer st (pk, t').
Proof.
  intros Hlk Hown. unfold TaskSerializer, total_worked_time. cbn [fst snd].
  rewrite (Task_time_records_restrict user st pk t Hlk Hown). reflexivity.
Qed.

Lemma TimeRecordSerializer_restrict user st k r :
  TimeRecordViewSet.owned_by st user r = true →
  TimeRecordSerializer (restrict user st) (k, r) = TimeRecordSerializer st (k, r).
Proof.
  intros Hown. apply owned_by_true in Hown as (t & Hlk & Ht).
  unfold TimeRecordSerializer. cbn [fst snd restrict tasks].
  rewrite tasks_queryset_lookup, Hlk.
  replace (responsible_user t =? user) with true by (symmetry; apply Z.eqb_eq; assumption).
  cbn [fmap option_fmap option_map].
  fold (restrict user st).
  rewrite (TaskSerializer_restrict user st (task r) t t Hlk Ht). reflexivity.
Qed.

(** *** Sorted listings hold the rows of the queryset *)

Lemma elem_of_order_by {A} (first : A → A → bool) (qs : gmap Z A) kv :
  kv ∈ order_by first qs ↔ qs !! kv.1 = Some kv.2.
Proof.
  unfold order_by. rewrite merge_sort_Permutation. unfold rows.
  destruct kv. apply elem_of_map_to_list.
Qed.

Lemma elem_of_order_by_desc {A} (key : A → Z) (qs : gmap Z A) kv :
  kv ∈ order_by_desc key qs ↔ qs !! kv.1 = Some kv.2.
Proof.
  unfold order_by_desc. rewrite merge_sort_Permutation. unfold rows.
  destruct kv. apply elem_of_map_to_list.
Qed.

Lemma fmap_order_by_ext {A B} (f g : Z * A → B) first (qs : gmap Z A) :
  (∀ k x, qs !! k = Some x → f (k, x) = g (k, x)) →
  f <$> order_by first qs = g <$> order_by first qs.
Proof.
  intros H. apply Forall_fmap_ext, Forall_forall. intros [k x] Hin.
  apply elem_of_order_by in Hin. apply H, Hin.
Qed.

Lemma qfilter_Some {A} (p : A → bool) (qs : gmap Z A) k x :
  qfilter p qs !! k = Some x ↔ qs !! k = Some x ∧ p x = true.
Proof.
  rewrite qfilter_lookup. destruct (qs !! k) as [y|].
  - destruct (p y) eqn:E.
    + split; [intros [= <-]; auto|intros [[= <-] _]; reflexivity].
    + split; [discriminate|intros [[= <-] ?]; congruence].
  - split; [discriminate|intros [? _]; discriminate].
Qed.

Lemma tasks_queryset_Some user st k t :
  TaskViewSet.get_queryset user st !! k = Some t ↔
  tasks st !! k = Some t ∧ responsible_user t = user.
Proof. apply TaskViewSet_get_object_Some. Qed.

Lemma records_queryset_Some user st k r :
  TimeRecordViewSet.get_queryset user st !! k = Some r ↔
  time_records st !! k = Some r ∧ TimeRecordViewSet.owned_by st user r = true.
Proof. apply qfilter_Some. Qed.

(** *** The views on the data of one user alone *)

Lemma TaskViewSet_list_restrict user flt st :
  TaskViewSet.list user flt (restrict user st) = TaskViewSet.list user flt st.
Proof.
  unfold TaskViewSet.list. rewrite tasks_queryset_restrict. f_equal.
  apply fmap_order_by_ext. intros k t Hk.
  apply qfilter_Some in Hk as [Hk _]. apply tasks_queryset_Some in Hk as [Hk Ho].
  eapply TaskSerializer_restrict; eauto.
Qed.

Lemma TaskDetailSerializer_restrict user st pk t t' :
  tasks st !! pk = Some t → responsible_user t = user →
  TaskDetailSerializer (restrict user st) (pk, t') = TaskDetailSerializer st (pk, t').
Proof.
  intros Hlk Ho. unfold TaskDetailSerializer. cbn [fst snd].
  rewrite (TaskSerializer_restrict user st pk t t' Hlk Ho).
  rewrite (Task_time_records_restrict user st pk t Hlk Ho). f_equal.
  apply fmap_order_by_ext. intros k r Hk.
  apply qfilter_Some in Hk as [Hk Ht]. apply Z.eqb_eq in Ht.
  apply TimeRecordSerializer_restrict, owned_by_true.
  exists t. rewrite Ht. auto.
Qed.

Lemma TaskViewSet_retrieve_restrict user pk st :
  TaskViewSet.retrieve user pk (restrict user st) = TaskViewSet.retrieve user pk st.
Proof.
  unfold TaskViewSet.retrieve, TaskViewSet.get_object.
  rewrite tasks_queryset_restrict.
  destruct (TaskViewSet.get_queryset user st !! pk) as [t|] eqn:E; [|reflexivity].
  apply tasks_queryset_Some in E as [Hlk Ho].
  rewrite (TaskDetailSerializer_restrict user st pk t t Hlk Ho). reflexivity.
Qed.

(** Replacing a task of [user] by one of the same owner. *)
Lemma restrict_replace_task user st pk t t' :
  tasks st !! pk = Some t → responsible_user t = user →
  responsible_user t' = user →
  restrict user {| tasks := <[pk := t']> (tasks st);
                   time_records := time_records st |} =
  {| tasks := <[pk := t']> (tasks (restrict user st));
     time_records := time_records (restrict user st) |}.
Proof.
  intros Hlk Ho Ho'. unfold restrict. cbn [tasks time_records]. f_equal.
  - apply map_eq. intros k. rewrite tasks_queryset_lookup. cbn [tasks].
    rewrite !lookup_insert. case_decide as Hk.
    + subst k. rewrite Ho', Z.eqb_refl. reflexivity.
    + rewrite tasks_queryset_lookup. reflexivity.
  - apply map_eq. intros k. rewrite !records_queryset_lookup. cbn [time_records].
    destruct (time_records st !! k) as [r|]; [|reflexivity].
    replace (TimeRecordViewSet.owned_by _ user r) with
      (TimeRecordViewSet.owned_by st user r); [reflexivity|].
    unfold TimeRecordViewSet.owned_by. cbn [tasks].
    rewrite lookup_insert. case_decide as Hk; [|reflexivity].
    subst pk. rewrite Hlk, Ho, Ho'. reflexivity.
Qed.

Lemma TaskViewSet_update_restrict user pk data st :
  TaskViewSet.update user pk data (restrict user st) =
  ((TaskViewSet.update user pk data st).1,
   restrict user (TaskViewSet.update user pk data st).2).
Proof.
  unfold TaskViewSet.update, TaskViewSet.get_object.
  rewrite tasks_queryset_restrict.
  destruct (TaskViewSet.get_queryset user st !! pk) as [t|] eqn:E;
    [|reflexivity].
  apply tasks_queryset_Some in E as [Hlk Ho].
  case_decide; [reflexivity|].
  cbn [fst snd].
  match goal with |- context [<[pk := ?x]> (tasks st)] => set (t' := x) end.
  assert (Ho' : responsible_user t' = user) by exact Ho.
  rewrite (restrict_replace_task user st pk t t' Hlk Ho Ho').
  f_equal. f_equal.
  rewrite <- (restrict_replace_task user st pk t t' Hlk Ho Ho').
  eapply TaskSerializer_restrict; [cbn [tasks]; apply lookup_insert_eq|assumption].
Qed.

Lemma TaskViewSet_toggle_status_restrict user pk st :
  TaskViewSet.toggle_status user pk (restrict user st) =
  ((TaskViewSet.toggle_status user pk st).1,
   restrict user (TaskViewSet.toggle_status user pk st).2).
Proof.
  unfold TaskViewSet.toggle_status, TaskViewSet.get_object.
  rewrite tasks_queryset_restrict.
  destruct (TaskViewSet.get_queryset user st !! pk) as [t|] eqn:E;
    [|reflexivity].
  apply tasks_queryset_Some in E as [Hlk Ho].
  cbn [fst snd].
  match goal with |- context [<[pk := ?x]> (tasks st)] => set (t' := x) end.
  assert (Ho' : responsible_user t' = user) by exact Ho.
  rewrite (restrict_replace_task user st pk t t' Hlk Ho Ho').
  f_equal. f_equal.
  rewrite <- (restrict_replace_task user st pk t t' Hlk Ho Ho').
  eapply TaskSerializer_restrict; [cbn [tasks]; apply lookup_insert_eq|assumption].
Qed.

Lemma TaskViewSet_destroy_restrict user pk st :
  TaskViewSet.destroy user pk (restrict user st) =
  ((TaskViewSet.destroy user pk st).1,
   restrict user (TaskViewSet.destroy user pk st).2).
Proof.
  unfold TaskViewSet.destroy, TaskViewSet.get_object.
  rewrite tasks_queryset_restrict.
  destruct (TaskViewSet.get_queryset user st !! pk) as [t|] eqn:E;
    [|reflexivity].
  apply tasks_queryset_Some in E as [Hlk Ho].
  cbn [fst snd]. f_equal. unfold restrict. cbn [tasks time_records]. f_equal.
  - apply map_eq. intros k. rewrite tasks_queryset_lookup. cbn [tasks].
    rewrite !lookup_delete. case_decide; [reflexivity|].
    rewrite tasks_queryset_lookup. reflexivity.
  - apply map_eq. intros k.
    rewrite records_queryset_lookup, !qfilter_lookup. cbn [time_records].
    rewrite records_queryset_lookup, qfilter_lookup.
    destruct (time_records st !! k) as [r|]; [|reflexivity].
    destruct (Z.eqb_spec (task r) pk) as [Hr|Hr]; cbn [negb].
    + destruct (TimeRecordViewSet.owned_by st user r); [|reflexivity].
      destruct (Z.eqb_spec (task r) pk); [reflexivity|contradiction].
    + match goal with |- context [TimeRecordViewSet.owned_by ?s user r] =>
        lazymatch s with
        | st => fail
        | _ => assert (Hs : TimeRecordViewSet.owned_by s user r =
                            TimeRecordViewSet.owned_by st user r)
        end
      end.
      { unfold TimeRecordViewSet.owned_by. cbn [tasks].
        rewrite lookup_delete_ne by congruence. reflexivity. }
      rewrite Hs.
      destruct (TimeRecordViewSet.owned_by st user r); [|reflexivity].
      destruct (Z.eqb_spec (task r) pk); [contradiction|reflexivity].
Qed.

Lemma tasks_lookup_restrict user st r :
  TimeRecordViewSet.owned_by st user r = true →
  tasks (restrict user st) !! task r = tasks st !! task r.
Proof.
  intros Hown. apply owned_by_true in Hown as (t & Hlk & Ht).
  cbn [restrict tasks]. rewrite tasks_queryset_lookup, Hlk.
  apply Z.eqb_eq in Ht. rewrite Ht. reflexivity.
Qed.

(** A period never adds a row to the queryset it filters. *)
Lemma filter_period_subseteq today (queryset qs : gmap Z TimeRecord) value k r :
  TimeRecordFilter.filter_period today queryset value = Some qs →
  qs !! k = Some r → queryset !! k = Some r.
Proof.
  unfold TimeRecordFilter.filter_period. intros H Hk.
  repeat case_decide;
    repeat match type of H with
    | (?m ≫= _) = Some _ => destruct m; [cbn [mbind option_bind] in H|discriminate H]
    end;
    injection H as <-; try assumption; apply qfilter_Some in Hk as [Hk _]; exact Hk.
Qed.

Lemma period_subseteq today (queryset qs : gmap Z TimeRecord) value k r :
  TimeRecordFilter.period today queryset value = TimeRecordFilter.Filtered qs →
  qs !! k = Some r → queryset !! k = Some r.
Proof.
  unfold TimeRecordFilter.period. intros H Hk.
  case_decide; [injection H as <-; assumption|].
  case_decide; [|discriminate].
  destruct (TimeRecordFilter.filter_period today queryset value) eqn:E; [|discriminate].
  injection H as <-. eapply filter_period_subseteq; eauto.
Qed.

Lemma TimeRecordViewSet_list_restrict user today flt period st :
  TimeRecordViewSet.list user today flt period (restrict user st) =
  TimeRecordViewSet.list user today flt period st.
Proof.
  unfold TimeRecordViewSet.list. rewrite records_queryset_restrict.
  match goal with |- match TimeRecordFilter.period _ ?a _ with _ => _ end =
                     match TimeRecordFilter.period _ ?b _ with _ => _ end =>
    assert (Hq : a = b)
  end.
  { apply qfilter_ext. intros k r Hk.
    apply records_queryset_Some in Hk as [_ Hown].
    rewrite (tasks_lookup_restrict user st r Hown). reflexivity. }
  rewrite Hq.
  destruct (TimeRecordFilter.period today _ period) as [qs| |] eqn:E; try reflexivity.
  f_equal. apply fmap_order_by_ext. intros k r Hk.
  eapply period_subseteq in Hk; [|exact E].
  apply qfilter_Some in Hk as [Hk _]. apply records_queryset_Some in Hk as [_ Hown].
  apply TimeRecordSerializer_restrict, Hown.
Qed.

Lemma TimeRecordViewSet_retrieve_restrict user pk st :
  TimeRecordViewSet.retrieve user pk (restrict user st) =
  TimeRecordViewSet.retrieve user pk st.
Proof.
  unfold TimeRecordViewSet.retrieve, TimeRecordViewSet.get_object.
  rewrite records_queryset_restrict.
  destruct (TimeRecordViewSet.get_queryset user st !! pk) as [r|] eqn:E; [|reflexivity].
  apply records_queryset_Some in E as [_ Hown].
  rewrite (TimeRecordSerializer_restrict user st pk r Hown). reflexivity.
Qed.

Lemma run_validation_restrict user data st :
  TimeRecordViewSet.run_validation user data (restrict user st) =
  TimeRecordViewSet.run_validation user data st.
Proof.
  unfold TimeRecordViewSet.run_validation, TimeRecordViewSet.validate_task_id.
  rewrite tasks_queryset_restrict. reflexivity.
Qed.

Lemma run_validation_nil user data st :
  TimeRecordViewSet.run_validation user data st = [] →
  ∃ t, tasks st !! in_task_id data = Some t ∧ responsible_user t = user.
Proof.
  unfold TimeRecordViewSet.run_validation, TimeRecordViewSet.validate_task_id.
  destruct (TaskViewSet.get_queryset user st !! in_task_id data) as [t|] eqn:E;
    [|discriminate].
  intros _. exists t. apply tasks_queryset_Some, E.
Qed.

Lemma TimeRecord_save_existing today now pk r r0 st :
  time_records st !! pk = Some r0 →
  TimeRecord_save today now (Some pk) r st =
  match full_clean st today r with
  | [] => (Done pk, {| tasks := tasks st;
                       time_records := <[pk := r]> (time_records st) |})
  | errors => (Raised errors, st)
  end.
Proof.
  intros H. unfold TimeRecord_save.
  change (default (fresh_pk (time_records st)) (Some pk)) with pk.
  cbv zeta. rewrite H. reflexivity.
Qed.

Lemma full_clean_restrict user st today r :
  TimeRecordViewSet.owned_by st user r = true →
  full_clean (restrict user st) today r = full_clean st today r.
Proof.
  intros Hown. unfold full_clean, clean_fields.
  rewrite (tasks_lookup_restrict user st r Hown). reflexivity.
Qed.

(** Replacing a time record of [user] by one of a task of [user]. *)
Lemma restrict_replace_record user st pk r' :
  TimeRecordViewSet.owned_by st user r' = true →
  restrict user {| tasks := tasks st;
                   time_records := <[pk := r']> (time_records st) |} =
  {| tasks := tasks (restrict user st);
     time_records := <[pk := r']> (time_records (restrict user st)) |}.
Proof.
  intros Hown. unfold restrict. cbn [tasks time_records]. f_equal.
  apply map_eq. intros k. rewrite records_queryset_lookup. cbn [time_records].
  rewrite !lookup_insert. case_decide as Hk.
  - replace (TimeRecordViewSet.owned_by _ user r') with true; reflexivity.
  - rewrite records_queryset_lookup. reflexivity.
Qed.

Lemma TimeRecordViewSet_update_restrict user today now pk data st :
  TimeRecordViewSet.update user today now pk data (restrict user st) =
  ((TimeRecordViewSet.update user today now pk data st).1,
   restrict user (TimeRecordViewSet.update user today now pk data st).2).
Proof.
  unfold TimeRecordViewSet.update, TimeRecordViewSet.get_object.
  rewrite records_queryset_restrict, run_validation_restrict.
  destruct (TimeRecordViewSet.get_queryset user st !! pk) as [r|] eqn:E;
    [|reflexivity].
  pose proof E as E'. apply records_queryset_Some in E' as [Hlk _].
  destruct (TimeRecordViewSet.run_validation user data st) eqn:Ev; [|reflexivity].
  apply run_validation_nil in Ev as (t & Ht & Hto).
  match goal with |- context [TimeRecord_save _ _ _ ?x st] => set (r' := x) end.
  assert (Hown : TimeRecordViewSet.owned_by st user r' = true).
  { apply owned_by_true. exists t. auto. }
  rewrite (TimeRecord_save_existing today now pk r' r st Hlk).
  rewrite (TimeRecord_save_existing today now pk r' r (restrict user st) E).
  rewrite (full_clean_restrict user st today r' Hown).
  destruct (full_clean st today r'); [|reflexivity].
  cbn [fst snd].
  rewrite (restrict_replace_record user st pk r' Hown).
  f_equal. f_equal.
  rewrite <- (restrict_replace_record user st pk r' Hown).
  apply TimeRecordSerializer_restrict. exact Hown.
Qed.

Lemma TimeRecordViewSet_destroy_restrict user pk st :
  TimeRecordViewSet.destroy user pk (restrict user st) =
  ((TimeRecordViewSet.destroy user pk st).1,
   restrict user (TimeRecordViewSet.destroy user pk st).2).
Proof.
  unfold TimeRecordViewSet.destroy, TimeRecordViewSet.get_object.
  rewrite records_queryset_restrict.
  destruct (TimeRecordViewSet.get_queryset user st !! pk) as [r|] eqn:E;
    [|reflexivity].
  cbn [fst snd]. f_equal. unfold restrict. cbn [tasks time_records]. f_equal.
  apply map_eq. intros k. rewrite records_queryset_lookup. cbn [time_records].
  rewrite !lookup_delete. case_decide; [reflexivity|].
  rewrite records_queryset_lookup. reflexivity.
Qed.

Lemma records_serialized_restrict user st first (qs : gmap Z TimeRecord) :
  (∀ k r, qs !! k = Some r → TimeRecordViewSet.owned_by st user r = true) →
  TimeRecordSerializer (restrict user st) <$> order_by first qs =
  TimeRecordSerializer st <$> order_by first qs.
Proof.
  intros H. apply fmap_order_by_ext. intros k r Hk.
  apply TimeRecordSerializer_restrict. eapply H, Hk.
Qed.

Lemma qfilter_records_owned user st p k r :
  qfilter p (TimeRecordViewSet.get_queryset user st) !! k = Some r →
  TimeRecordViewSet.owned_by st user r = true.
Proof.
  intros Hk. apply qfilter_Some in Hk as [Hk _].
  apply records_queryset_Some in Hk as [_ Ho]. exact Ho.
Qed.

Lemma TimeRecordViewSet_today_restrict user today st :
  TimeRecordViewSet.today user today (restrict user st) =
  TimeRecordViewSet.today user today st.
Proof.
  unfold TimeRecordViewSet.today. rewrite records_queryset_restrict. f_equal.
  apply records_serialized_restrict. intros k r. apply qfilter_records_owned.
Qed.

Lemma TimeRecordViewSet_this_week_restrict user today st :
  TimeRecordViewSet.this_week user today (restrict user st) =
  TimeRecordViewSet.this_week user today st.
Proof.
  unfold TimeRecordViewSet.this_week. rewrite records_queryset_restrict.
  destruct (sub_days today (weekday today)); [|reflexivity].
  cbn [mbind option_bind]. f_equal.
  apply records_serialized_restrict. intros k r. apply qfilter_records_owned.
Qed.

Lemma TimeRecordViewSet_this_month_restrict user today st :
  TimeRecordViewSet.this_month user today (restrict user st) =
  TimeRecordViewSet.this_month user today st.
Proof.
  unfold TimeRecordViewSet.this_month. rewrite records_queryset_restrict.
  destruct (make_date (year today) (month today) 1); [|reflexivity].
  cbn [mbind option_bind]. f_equal.
  apply records_serialized_restrict. intros k r. apply qfilter_records_owned.
Qed.

Lemma TimeRecordViewSet_summary_restrict user today st :
  TimeRecordViewSet.summary user today (restrict user st) =
  TimeRecordViewSet.summary user today st.
Proof.
  unfold TimeRecordViewSet.summary. rewrite records_queryset_restrict.
  reflexivity.
Qed.

Lemma elem_of_slice_to {A} (x : A) n l : x ∈ slice_to n l → x ∈ l.
Proof.
  unfold slice_to. intros H. apply elem_of_take in H as (i & Hi & _).
  eapply list_elem_of_lookup_2, Hi.
Qed.

Lemma recent_tasks_restrict user st n :
  TaskSerializer (restrict user st) <$>
    slice_to n (order_by_desc creation_date (TaskViewSet.get_queryset user st)) =
  TaskSerializer st <$>
    slice_to n (order_by_desc creation_date (TaskViewSet.get_queryset user st)).
Proof.
  apply Forall_fmap_ext, Forall_forall. intros [k t] Hin.
  apply elem_of_slice_to, elem_of_order_by_desc in Hin.
  apply tasks_queryset_Some in Hin as [Hlk Ho].
  eapply TaskSerializer_restrict; eauto.
Qed.

Lemma recent_records_restrict user st n :
  TimeRecordSerializer (restrict user st) <$>
    slice_to n (order_by_desc record_creation_date
                  (TimeRecordViewSet.get_queryset user st)) =
  TimeRecordSerializer st <$>
    slice_to n (order_by_desc record_creation_date
                  (TimeRecordViewSet.get_queryset user st)).
Proof.
  apply Forall_fmap_ext, Forall_forall. intros [k r] Hin.
  apply elem_of_slice_to, elem_of_order_by_desc in Hin.
  apply records_queryset_Some in Hin as [_ Ho].
  apply TimeRecordSerializer_restrict, Ho.
Qed.

Lemma DashboardViewSet_list_restrict user today st :
  DashboardViewSet.list user today (restrict user st) =
  DashboardViewSet.list user today st.
Proof.
  unfold DashboardViewSet.list.
  rewrite tasks_queryset_restrict, records_queryset_restrict.
  destruct (sub_days today (weekday today)); [|reflexivity].
  destruct (make_date (year today) (month today) 1); [|reflexivity].
  cbn [mbind option_bind].
  rewrite recent_tasks_restrict, recent_records_restrict. reflexivity.
Qed.

(** Handling a request commutes with forgetting the data of the others. *)
Lemma handle_restrict user today now req st :
  handle user today now req (restrict user st) =
  ((handle user today now req st).1,
   restrict user (handle user today now req st).2).
Proof.
  destruct req; cbn [handle].
  - rewrite TaskViewSet_list_restrict. reflexivity.
  - unfold TaskViewSet.active. fold (TaskViewSet.list user active (restrict user st)).
    rewrite TaskViewSet_list_restrict. reflexivity.
  - unfold TaskViewSet.inactive.
    fold (TaskViewSet.list user (λ t, negb (active t)) (restrict user st)).
    rewrite TaskViewSet_list_restrict. reflexivity.
  - rewrite TaskViewSet_retrieve_restrict. reflexivity.
  - rewrite TaskViewSet_update_restrict.
    destruct (TaskViewSet.update user pk data st). reflexivity.
  - rewrite TaskViewSet_toggle_status_restrict.
    destruct (TaskViewSet.toggle_status user pk st). reflexivity.
  - rewrite TaskViewSet_destroy_restrict.
    destruct (TaskViewSet.destroy user pk st). reflexivity.
  - rewrite TimeRecordViewSet_list_restrict. reflexivity.
  - rewrite TimeRecordViewSet_today_restrict. reflexivity.
  - rewrite TimeRecordViewSet_this_week_restrict. reflexivity.
  - rewrite TimeRecordViewSet_this_month_restrict. reflexivity.
  - rewrite TimeRecordViewSet_summary_restrict. reflexivity.
  - rewrite TimeRecordViewSet_retrieve_restrict. reflexivity.
  - rewrite TimeRecordViewSet_update_restrict.
    destruct (TimeRecordViewSet.update user today now pk data st). reflexivity.
  - rewrite TimeRecordViewSet_destroy_restrict.
    destruct (TimeRecordViewSet.destroy user pk st). reflexivity.
  - rewrite DashboardViewSet_list_restrict. reflexivity.
Qed.

(** *** What a request leaves alone *)

Lemma visible_other_replace_task user other st pk t t' :
  user ≠ other →
  tasks st !! pk = Some t → responsible_user t = user →
  responsible_user t' = user →
  visible other {| tasks := <[pk := t']> (tasks st);
                   time_records := time_records st |} = visible other st.
Proof.
  intros Hne Hlk Ho Ho'. unfold visible. f_equal.
  - apply map_eq. intros k. rewrite !tasks_queryset_lookup. cbn [tasks].
    rewrite lookup_insert. case_decide as Hk; [|reflexivity].
    subst k. rewrite Hlk, Ho, Ho'.
    destruct (Z.eqb_spec user other); [contradiction|reflexivity].
  - apply map_eq. intros k. rewrite !records_queryset_lookup. cbn [time_records].
    destruct (time_records st !! k) as [r|]; [|reflexivity].
    replace (TimeRecordViewSet.owned_by _ other r) with
      (TimeRecordViewSet.owned_by st other r); [reflexivity|].
    unfold TimeRecordViewSet.owned_by. cbn [tasks].
    rewrite lookup_insert. case_decide as Hk; [|reflexivity].
    subst pk. rewrite Hlk, Ho, Ho'. reflexivity.
Qed.

Lemma visible_other_delete_task user other st pk t :
  user ≠ other →
  tasks st !! pk = Some t → responsible_user t = user →
  visible other
    {| tasks := delete pk (tasks st);
       time_records := qfilter (λ r, negb (task r =? pk)) (time_records st) |} =
  visible other st.
Proof.
  intros Hne Hlk Ho. unfold visible. f_equal.
  - apply map_eq. intros k. rewrite !tasks_queryset_lookup. cbn [tasks].
    rewrite lookup_delete. case_decide as Hk; [|reflexivity].
    subst k. rewrite Hlk, Ho.
    destruct (Z.eqb_spec user other); [contradiction|reflexivity].
  - apply map_eq. intros k. rewrite !records_queryset_lookup. cbn [time_records].
    rewrite qfilter_lookup.
    destruct (time_records st !! k) as [r|]; [|reflexivity].
    unfold TimeRecordViewSet.owned_by. cbn [tasks].
    destruct (Z.eqb_spec (task r) pk) as [Hr|Hr]; cbn [negb].
    + rewrite Hr, Hlk, Ho.
      destruct (Z.eqb_spec user other); [contradiction|reflexivity].
    + rewrite lookup_delete_ne by congruence. reflexivity.
Qed.

Lemma visible_other_replace_record user other st pk r r' :
  user ≠ other →
  time_records st !! pk = Some r →
  TimeRecordViewSet.owned_by st user r = true →
  TimeRecordViewSet.owned_by st user r' = true →
  visible other {| tasks := tasks st;
                   time_records := <[pk := r']> (time_records st) |} =
  visible other st.
Proof.
  intros Hne Hlk Ho Ho'. unfold visible. f_equal.
  apply map_eq. intros k. rewrite !records_queryset_lookup. cbn [time_records].
  rewrite lookup_insert. case_decide as Hk; [|reflexivity].
  subst k. rewrite Hlk.
  change (TimeRecordViewSet.owned_by _ other r') with
    (TimeRecordViewSet.owned_by st other r').
  rewrite (owned_by_one_owner st other user r') by auto.
  rewrite (owned_by_one_owner st other user r) by auto. reflexivity.
Qed.

Lemma visible_other_delete_record user other st pk r :
  user ≠ other →
  time_records st !! pk = Some r →
  TimeRecordViewSet.owned_by st user r = true →
  visible other {| tasks := tasks st;
                   time_records := delete pk (time_records st) |} =
  visible other st.
Proof.
  intros Hne Hlk Ho. unfold visible. f_equal.
  apply map_eq. intros k. rewrite !records_queryset_lookup. cbn [time_records].
  rewrite lookup_delete. case_decide as Hk; [|reflexivity].
  subst k. rewrite Hlk.
  rewrite (owned_by_one_owner st other user r) by auto. reflexivity.
Qed.

(** A request of [user] changes nothing that another user can reach. *)
Lemma handle_others_unchanged user other today now req st :
  user ≠ other →
  visible other (handle user today now req st).2 = visible other st.
Proof.
  intros Hne. destruct req; cbn [handle]; try reflexivity.
  - unfold TaskViewSet.update, TaskViewSet.get_object.
    destruct (TaskViewSet.get_queryset user st !! pk) as [t|] eqn:E; [|reflexivity].
    apply tasks_queryset_Some in E as [Hlk Ho].
    case_decide; [reflexivity|]. cbn [snd].
    eapply visible_other_replace_task; eauto.
  - unfold TaskViewSet.toggle_status, TaskViewSet.get_object.
    destruct (TaskViewSet.get_queryset user st !! pk) as [t|] eqn:E; [|reflexivity].
    apply tasks_queryset_Some in E as [Hlk Ho]. cbn [snd].
    eapply visible_other_replace_task; eauto.
  - unfold TaskViewSet.destroy, TaskViewSet.get_object.
    destruct (TaskViewSet.get_queryset user st !! pk) as [t|] eqn:E; [|reflexivity].
    apply tasks_queryset_Some in E as [Hlk Ho]. cbn [snd].
    eapply visible_other_delete_task; eauto.
  - unfold TimeRecordViewSet.update, TimeRecordViewSet.get_object.
    destruct (TimeRecordViewSet.get_queryset user st !! pk) as [r|] eqn:E;
      [|reflexivity].
    apply records_queryset_Some in E as [Hlk Ho].
    destruct (TimeRecordViewSet.run_validation user data st) eqn:Ev; [|reflexivity].
    apply run_validation_nil in Ev as (t & Ht & Hto).
    rewrite (TimeRecord_save_existing today now pk _ r st Hlk).
    destruct (full_clean st today _); [|reflexivity]. cbn [snd].
    eapply visible_other_replace_record; eauto.
    apply owned_by_true. exists t. auto.
  - unfold TimeRecordViewSet.destroy, TimeRecordViewSet.get_object.
    destruct (TimeRecordViewSet.get_queryset user st !! pk) as [r|] eqn:E;
      [|reflexivity].
    apply records_queryset_Some in E as [Hlk Ho]. cbn [snd].
    eapply visible_other_delete_record; eauto.
Qed.

(** *** Addressing what belongs to another user *)

Lemma task_of_other_not_found user st pk t :
  tasks st !! pk = Some t → responsible_user t ≠ user →
  TaskViewSet.get_object user pk st = None.
Proof.
  intros Hlk Ho. unfold TaskViewSet.get_object.
  rewrite tasks_queryset_lookup, Hlk.
  destruct (Z.eqb_spec (responsible_user t) user); [contradiction|reflexivity].
Qed.

Lemma record_of_other_not_found user st pk r :
  time_records st !! pk = Some r →
  TimeRecordViewSet.owned_by st user r = false →
  TimeRecordViewSet.get_object user pk st = None.
Proof.
  intros Hlk Ho. unfold TimeRecordViewSet.get_object.
  rewrite records_queryset_lookup, Hlk, Ho. reflexivity.
Qed.

Lemma handle_task_of_other user today now req st pk t :
  addresses_task req pk →
  tasks st !! pk = Some t → responsible_user t ≠ user →
  not_found (handle user today now req st).1 ∧
  (handle user today now req st).2 = st.
Proof.
  intros Ha Hlk Ho.
  pose proof (task_of_other_not_found user st pk t Hlk Ho) as Hnf.
  destruct req; cbn [addresses_task] in Ha; try contradiction; subst pk0;
    cbn [handle];
    unfold TaskViewSet.retrieve, TaskViewSet.update, TaskViewSet.toggle_status,
      TaskViewSet.destroy;
    rewrite Hnf; cbn; auto.
Qed.

Lemma handle_record_of_other user today now req st pk r :
  addresses_record req pk →
  time_records st !! pk = Some r →
  TimeRecordViewSet.owned_by st user r = false →
  not_found (handle user today now req st).1 ∧
  (handle user today now req st).2 = st.
Proof.
  intros Ha Hlk Ho.
  pose proof (record_of_other_not_found user st pk r Hlk Ho) as Hnf.
  destruct req; cbn [addresses_record] in Ha; try contradiction; subst pk0;
    cbn [handle];
    unfold TimeRecordViewSet.retrieve, TimeRecordViewSet.update,
      TimeRecordViewSet.destroy;
    rewrite Hnf; cbn; auto.
Qed.

(** *** Whose data a reply shows *)

Lemma record_owner_serializer st user k r u :
  TimeRecordViewSet.owned_by st user r = true →
  u ∈ record_owner (TimeRecordSerializer st (k, r)) → u = user.
Proof.
  intros Hown. apply owned_by_true in Hown as (t & Hlk & Ht).
  unfold record_owner, TimeRecordSerializer. cbn [trd_task fst snd].
  rewrite Hlk. cbn. rewrite list_elem_of_singleton. congruence.
Qed.

Lemma records_owner_serializer st user (l : list (Z * TimeRecord)) u :
  (∀ kv, kv ∈ l → TimeRecordViewSet.owned_by st user kv.2 = true) →
  u ∈ (TimeRecordSerializer st <$> l) ≫= record_owner → u = user.
Proof.
  intros Hl Hu. apply list_elem_of_bind in Hu as (d & Hu & Hd).
  apply list_elem_of_fmap in Hd as ([k r] & -> & Hin).
  eapply record_owner_serializer; [|exact Hu]. apply (Hl _ Hin).
Qed.

Lemma tasks_owner_serializer st user (l : list (Z * Task)) u :
  (∀ kv, kv ∈ l → responsible_user kv.2 = user) →
  u ∈ td_responsible_user <$> (TaskSerializer st <$> l) → u = user.
Proof.
  intros Hl Hu. apply list_elem_of_fmap in Hu as (d & -> & Hd).
  apply list_elem_of_fmap in Hd as (kv & -> & Hin). apply (Hl _ Hin).
Qed.

Lemma TaskViewSet_list_owners user flt st u :
  u ∈ owners_shown (TaskListReply (TaskViewSet.list user flt st)) → u = user.
Proof.
  unfold TaskViewSet.list. cbn [owners_shown].
  apply tasks_owner_serializer. intros [k t] Hin.
  apply elem_of_order_by in Hin. apply qfilter_Some in Hin as [Hin _].
  apply tasks_queryset_Some in Hin as [_ Ho]. exact Ho.
Qed.

Lemma records_reply_owners user st first p u :
  u ∈ (TimeRecordSerializer st <$>
         order_by first (qfilter p (TimeRecordViewSet.get_queryset user st)))
        ≫= record_owner → u = user.
Proof.
  apply records_owner_serializer. intros [k r] Hin.
  apply elem_of_order_by in Hin. eapply qfilter_records_owned, Hin.
Qed.

Lemma DashboardViewSet_list_owners user today st u :
  u ∈ owners_shown (DictReply (DashboardViewSet.list user today st)) → u = user.
Proof.
  unfold DashboardViewSet.list.
  destruct (sub_days today (weekday today)); [|cbn; intros H; inversion H].
  destruct (make_date (year today) (month today) 1); [|cbn; intros H; inversion H].
  cbn [mbind option_bind owners_shown].
  rewrite !bind_cons. cbn [value_owners snd].
  rewrite !elem_of_app.
  intros [Hu|[Hu|[Hu|[Hu|[Hu|[Hu|[Hu|Hu]]]]]]]; try (inversion Hu; fail).
  - eapply tasks_owner_serializer; [|exact Hu].
    intros [k t] Hin. apply elem_of_slice_to, elem_of_order_by_desc in Hin.
    apply tasks_queryset_Some in Hin as [_ Ho]. exact Ho.
  - eapply records_owner_serializer; [|exact Hu].
    intros [k r] Hin. apply elem_of_slice_to, elem_of_order_by_desc in Hin.
    apply records_queryset_Some in Hin as [_ Ho]. exact Ho.
Qed.

Lemma TimeRecordViewSet_summary_owners user today st u :
  u ∈ owners_shown (DictReply (TimeRecordViewSet.summary user today st)) → u = user.
Proof.
  unfold TimeRecordViewSet.summary.
  destruct (sub_days today (weekday today)); [|cbn; intros H; inversion H].
  destruct (make_date (year today) (month today) 1); [|cbn; intros H; inversion H].
  cbn. intros H; inversion H.
Qed.

Lemma handle_owners_shown user today now req st u :
  u ∈ owners_shown (handle user today now req st).1 → u = user.
Proof.
  destruct req; cbn [handle fst].
  - apply TaskViewSet_list_owners.
  - apply (TaskViewSet_list_owners user active st).
  - apply (TaskViewSet_list_owners user (λ t, negb (active t)) st).
  - unfold TaskViewSet.retrieve, TaskViewSet.get_object.
    destruct (TaskViewSet.get_queryset user st !! pk) as [t|] eqn:E;
      [|cbn; intros H; inversion H].
    apply tasks_queryset_Some in E as [Hlk Ho].
    unfold TaskDetailSerializer. cbn [owners_shown fst snd].
    rewrite elem_of_cons. intros [->|Hu]; [exact Ho|].
    eapply records_owner_serializer; [|exact Hu].
    intros [k r] Hin. apply elem_of_order_by in Hin.
    apply qfilter_Some in Hin as [_ Hr]. apply Z.eqb_eq in Hr.
    cbn [snd] in *. apply owned_by_true. exists t. rewrite Hr. auto.
  - destruct (TaskViewSet.update user pk data st) as [r st'] eqn:E. cbn [fst].
    unfold TaskViewSet.update, TaskViewSet.get_object in E.
    destruct (TaskViewSet.get_queryset user st !! pk) as [t|] eqn:Eq;
      [|injection E as <- <-; cbn; intros H; inversion H].
    apply tasks_queryset_Some in Eq as [Hlk Ho].
    case_decide; injection E as <- <-; cbn; [intros H'; inversion H'|].
    rewrite list_elem_of_singleton. congruence.
  - destruct (TaskViewSet.toggle_status user pk st) as [r st'] eqn:E. cbn [fst].
    unfold TaskViewSet.toggle_status, TaskViewSet.get_object in E.
    destruct (TaskViewSet.get_queryset user st !! pk) as [t|] eqn:Eq;
      [|injection E as <- <-; cbn; intros H; inversion H].
    apply tasks_queryset_Some in Eq as [Hlk Ho].
    injection E as <- <-; cbn.
    rewrite list_elem_of_singleton. congruence.
  - destruct (TaskViewSet.destroy user pk st) as [r st'] eqn:E. cbn [fst].
    unfold TaskViewSet.destroy in E.
    destruct (TaskViewSet.get_object user pk st);
      injection E as <- <-; cbn; intros H; inversion H.
  - unfold TimeRecordViewSet.list.
    destruct (TimeRecordFilter.period today _ period) as [qs| |] eqn:E;
      [|cbn; intros H; inversion H..].
    cbn [owners_shown]. intros Hu.
    eapply records_owner_serializer; [|exact Hu].
    intros [k r] Hin. apply elem_of_order_by in Hin.
    eapply period_subseteq in Hin; [|exact E].
    eapply qfilter_records_owned, Hin.
  - unfold TimeRecordViewSet.today. cbn [owners_shown].
    apply records_reply_owners.
  - unfold TimeRecordViewSet.this_week.
    destruct (sub_days today (weekday today)); [|cbn; intros H; inversion H].
    cbn [mbind option_bind owners_shown]. apply records_reply_owners.
  - unfold TimeRecordViewSet.this_month.
    destruct (make_date (year today) (month today) 1); [|cbn; intros H; inversion H].
    cbn [mbind option_bind owners_shown]. apply records_reply_owners.
  - apply TimeRecordViewSet_summary_owners.
  - unfold TimeRecordViewSet.retrieve, TimeRecordViewSet.get_object.
    destruct (TimeRecordViewSet.get_queryset user st !! pk) as [r|] eqn:E;
      [|cbn; intros H; inversion H].
    apply records_queryset_Some in E as [Hlk Ho]. cbn [owners_shown].
    apply record_owner_serializer, Ho.
  - destruct (TimeRecordViewSet.update user today now pk data st) as [rp st'] eqn:E.
    cbn [fst].
    unfold TimeRecordViewSet.update, TimeRecordViewSet.get_object in E.
    destruct (TimeRecordViewSet.get_queryset user st !! pk) as [r|] eqn:Eq;
      [|injection E as <- <-; cbn; intros H; inversion H].
    apply records_queryset_Some in Eq as [Hlk Ho].
    destruct (TimeRecordViewSet.run_validation user data st) eqn:Ev;
      [|injection E as <- <-; cbn; intros H; inversion H].
    apply run_validation_nil in Ev as (t & Ht & Hto).
    rewrite (TimeRecord_save_existing today now pk _ r st Hlk) in E.
    destruct (full_clean st today _);
      [|injection E as <- <-; cbn; intros H; inversion H].
    injection E as <- <-. cbn [owners_shown].
    apply record_owner_serializer. apply owned_by_true. exists t. auto.
  - destruct (TimeRecordViewSet.destroy user pk st) as [r st'] eqn:E. cbn [fst].
    unfold TimeRecordViewSet.destroy in E.
    destruct (TimeRecordViewSet.get_object user pk st);
      injection E as <- <-; cbn; intros H; inversion H.
  - apply DashboardViewSet_list_owners.
Qed.

(** Two stores that hold the same data of [user] answer alike. *)
Lemma handle_same_view user today now req st1 st2 :
  visible user st1 = visible user st2 →
  (handle user today now req st1).1 = (handle user today now req st2).1 ∧
  visible user (handle user today now req st1).2 =
  visible user (handle user today now req st2).2.
Proof.
  intros Hv. apply restrict_visible in Hv.
  pose proof (handle_restrict user today now req st1) as H1.
  pose proof (handle_restrict user today now req st2) as H2.
  rewrite Hv in H1. rewrite H1 in H2.
  pose proof (f_equal fst H2) as Hr. pose proof (f_equal snd H2) as Hs.
  cbn [fst snd] in Hr, Hs. split; [exact Hr|].
  rewrite <- (visible_restrict user (handle user today now req st1).2),
    <- (visible_restrict user (handle user today now req st2).2).
  rewrite Hs. reflexivity.
Qed.

(** ** The properties of the specification *)

Lemma example_dates_valid : dates_valid (time_records example_store).
Proof. unfold dates_valid. apply (bool_decide_unpack _). vm_compute. exact I. Qed.

(** *** Named periods *)

Lemma period_named D p (qs : gmap Z TimeRecord) :
  valid_date D = true -> 2 <= year D -> dates_valid qs ->
  TimeRecordFilter.period D qs (period_value p) =
  TimeRecordFilter.Filtered (qfilter (λ r, in_period D p (record_date r)) qs).
Proof.
  intros HD Hy Hqs. unfold TimeRecordFilter.period.
  case_decide as He; [destruct p; discriminate He|].
  case_decide as Hc.
  - rewrite filter_period_named by assumption. reflexivity.
  - exfalso. apply Hc. unfold TimeRecordFilter.period_choices.
    destruct p; cbn [period_value]; set_solver.
Qed.

(** The week of the [this_week] period starts on a Monday. *)
Lemma week_start_is_monday D :
  valid_date D = true ->
  ∃ week_start, sub_days D (weekday D) = Some week_start ∧
                weekday week_start = 0 ∧
                toordinal D - 6 <= toordinal week_start <= toordinal D.
Proof.
  intros HD. destruct (sub_days_weekday D HD) as (ws & Hs & Hv & Ho).
  exists ws. split; [assumption|].
  pose proof (weekday_range D) as Hr.
  split; [|lia]. unfold weekday in *. rewrite Ho.
  Z.div_mod_to_equations. lia.
Qed.

Example weekday_examples :
  weekday wednesday = 2 ∧ weekday (Date 2024 1 15) = 0 ∧
  weekday (Date 2024 1 14) = 6 ∧ toordinal (Date 1 1 1) = 1 ∧
  fromordinal 738902 = wednesday ∧ toordinal (Date 9999 12 31) = MAXORDINAL.
Proof. repeat split. Qed.

(** C3. For a reference date [D] and each of the six period names, the
    period filter keeps exactly the records whose date satisfies the
    predicate of the specification: the same day, the day before, from the
    Monday of the week of [D] on, the seven days of the week before, from
    the first of the month of [D] on, and the whole calendar month before,
    December of the year before when [D] is in January. The reference date
    is a date from year 2 on, so that the days and months before it
    exist. *)
Theorem period_filter_keeps_specified_records D p (qs : gmap Z TimeRecord) :
  valid_date D = true -> 2 <= year D -> dates_valid qs ->
  TimeRecordFilter.filter_period D qs (period_value p) =
    Some (qfilter (λ r, in_period D p (record_date r)) qs) ∧
  TimeRecordFilter.period D qs (period_value p) =
    TimeRecordFilter.Filtered (qfilter (λ r, in_period D p (record_date r)) qs).
Proof.
  intros HD Hy Hqs. split.
  - apply filter_period_named; assumption.
  - apply period_named; assumption.
Qed.

Lemma period_filter_last_month_in_january :
  TimeRecordFilter.filter_period wednesday (time_records example_store)
    (period_value LastMonth) =
    Some (qfilter (λ r, in_period wednesday LastMonth (record_date r))
            (time_records example_store)) ∧
  TimeRecordFilter.period wednesday (time_records example_store)
    (period_value LastMonth) =
    TimeRecordFilter.Filtered
      (qfilter (λ r, in_period wednesday LastMonth (record_date r))
         (time_records example_store)).
Proof.
  apply (period_filter_keeps_specified_records wednesday LastMonth
           (time_records example_store)).
  - reflexivity.
  - simpl. lia.
  - exact example_dates_valid.
Defined.

(** On a Wednesday, [this_week] keeps the records from Monday on and drops
    the one of the Sunday before; in January, [last_month] keeps the
    records of December. *)
Example this_week_on_wednesday :
  keys <$> TimeRecordFilter.filter_period wednesday (time_records example_store)
             "this_week" = Some {[1; 4]}.
Proof. vm_compute. reflexivity. Qed.

Example last_month_in_january :
  keys <$> TimeRecordFilter.filter_period wednesday (time_records example_store)
             "last_month" = Some {[3]}.
Proof. vm_compute. reflexivity. Qed.

Example last_month_is_all_of_december :
  in_period wednesday LastMonth (Date 2023 12 1) = true ∧
  in_period wednesday LastMonth (Date 2023 12 31) = true ∧
  in_period wednesday LastMonth (Date 2023 11 30) = false ∧
  in_period wednesday LastMonth (Date 2024 1 1) = false.
Proof. repeat split. Qed.

(** C6, as the code has it. A period value outside the six names goes
    through [filter_period] and through the record page without filtering
    and without error. At the API the [period] parameter is a choice
    filter: an empty value means no filter, and any other value outside
    the six names is refused as an invalid choice. *)
Theorem unrecognized_period today (qs : gmap Z TimeRecord) value :
  value ∉ TimeRecordFilter.period_choices →
  TimeRecordFilter.filter_period today qs value = Some qs ∧
  (∀ icontains user search date_start date_end st,
     record_list icontains user today search date_start date_end value st =
     record_list icontains user today search date_start date_end "" st) ∧
  TimeRecordFilter.period today qs value =
    (if decide (value = "") then TimeRecordFilter.Filtered qs
     else TimeRecordFilter.InvalidChoice
            [("period", TimeRecordFilter.MSG_INVALID_CHOICE value)]).
Proof.
  intros H. split; [|split].
  - apply filter_period_unrecognized, H.
  - intros. apply record_list_other_period; intros ->; apply H;
      unfold TimeRecordFilter.period_choices; set_solver.
  - apply period_unrecognized, H.
Qed.

Lemma unrecognized_period_next_week :
  TimeRecordFilter.filter_period wednesday (time_records example_store) "next_week" =
    Some (time_records example_store) ∧
  (∀ icontains user search date_start date_end st,
     record_list icontains user wednesday search date_start date_end "next_week" st =
     record_list icontains user wednesday search date_start date_end "" st) ∧
  TimeRecordFilter.period wednesday (time_records example_store) "next_week" =
    (if decide ("next_week" = "") then
       TimeRecordFilter.Filtered (time_records example_store)
     else TimeRecordFilter.InvalidChoice
            [("period", TimeRecordFilter.MSG_INVALID_CHOICE "next_week")]).
Proof.
  apply (unrecognized_period wednesday (time_records example_store) "next_week").
  unfold TimeRecordFilter.period_choices. apply (bool_decide_unpack _).
  vm_compute. exact I.
Defined.

(** C6 does not hold as stated at the API: the value [next_week] is
    refused, it does not pass through. *)
Lemma unrecognized_period_refused_by_api :
  ¬ (∀ today (qs : gmap Z TimeRecord) value,
       value ∉ TimeRecordFilter.period_choices →
       TimeRecordFilter.period today qs value = TimeRecordFilter.Filtered qs).
Proof.
  intros H.
  specialize (H wednesday (time_records example_store) "next_week").
  assert (Hn : "next_week" ∉ TimeRecordFilter.period_choices).
  { unfold TimeRecordFilter.period_choices. apply (bool_decide_unpack _).
    vm_compute. exact I. }
  specialize (H Hn). vm_compute in H. discriminate H.
Qed.



(** The three periods of the page do filter, and the periods it ignores
    are periods of the API filter. *)
Example record_list_periods :
  (λ p : string,
     (λ l : list (Z * TimeRecord), l.*1) <$>
       record_list (λ _ _, true) alice wednesday "" None None p example_store) <$>
    [""; "today"; "this_week"; "this_month"; "yesterday"; "last_month"] =
  [Some [1; 2; 5; 3]; Some []; Some [1]; Some [1; 2; 5];
   Some [1; 2; 5; 3]; Some [1; 2; 5; 3]].
Proof. vm_compute. reflexivity. Qed.

Example api_periods_filter :
  (λ p : string, keys <$> TimeRecordFilter.filter_period wednesday
                   (TimeRecordViewSet.get_queryset alice example_store) p) <$>
    ["yesterday"; "last_week"; "last_month"] =
  [Some ∅; Some {[2]}; Some {[3]}].
Proof. vm_compute. reflexivity. Qed.

(** *** Totals *)

(** C5. The total worked time of a task is the sum of the worked time of
    the time records whose task it is, and the zero duration when it has
    none. *)
Theorem total_worked_time_is_sum st pk :
  total_worked_time st pk =
    sum_worked_time (filter (λ kv, task kv.2 = pk) (rows (time_records st))) ∧
  (map_Forall (λ _ r, task r ≠ pk) (time_records st) →
   total_worked_time st pk = 0).
Proof.
  split.
  - apply total_worked_time_sum.
  - intros H. apply total_worked_time_none. exact H.
Qed.

Lemma total_worked_time_examples :
  total_worked_time example_store 1 = timedelta_of 5 35 0 ∧
  total_worked_time example_store 7 = 0.
Proof.
  destruct (total_worked_time_is_sum example_store 1) as [H1 _].
  destruct (total_worked_time_is_sum example_store 7) as [_ H7].
  split.
  - rewrite H1. vm_compute. reflexivity.
  - apply H7. apply (bool_decide_unpack _). vm_compute. exact I.
Defined.

(** *** Worked hours *)



(** *** Toggling *)

(** C8. One call of [toggle_status] on a task of the user negates its
    [active] flag and answers with the representation of the updated task;
    a second call answers with the representation of the task as it was
    and leaves the store as it was. *)
Theorem toggle_status_is_an_involution user pk st t :
  TaskViewSet.get_object user pk st = Some t →
  ∃ t1 st1,
    TaskViewSet.toggle_status user pk st = (OK (TaskSerializer st1 (pk, t1)), st1) ∧
    tasks st1 !! pk = Some t1 ∧
    active t1 = negb (active t) ∧
    td_active (TaskSerializer st1 (pk, t1)) = negb (active t) ∧
    TaskViewSet.toggle_status user pk st1 = (OK (TaskSerializer st (pk, t)), st) ∧
    td_active (TaskSerializer st (pk, t)) = active t.
Proof.
  intros H. destruct (toggle_status_twice user pk st t H) as (t1 & st1 & H1 & H2 & H3 & H4).
  exists t1, st1. repeat split; try assumption.
Qed.

Lemma toggle_status_example :
  ∃ t1 st1,
    TaskViewSet.toggle_status alice 1 example_store =
      (OK (TaskSerializer st1 (1, t1)), st1) ∧
    tasks st1 !! 1 = Some t1 ∧
    active t1 = negb (active (example_task alice 100 "Write the report")) ∧
    td_active (TaskSerializer st1 (1, t1)) =
      negb (active (example_task alice 100 "Write the report")) ∧
    TaskViewSet.toggle_status alice 1 st1 =
      (OK (TaskSerializer example_store
             (1, example_task alice 100 "Write the report")), example_store) ∧
    td_active (TaskSerializer example_store
                 (1, example_task alice 100 "Write the report")) =
      active (example_task alice 100 "Write the report").
Proof.
  apply (toggle_status_is_an_involution alice 1 example_store
           (example_task alice 100 "Write the report")).
  vm_compute. reflexivity.
Defined.

(** *** Saving *)

Lemma date_leb_of_not_ltb a b : date_ltb a b = false → date_leb b a = true.
Proof.
  intros H. unfold date_leb.
  destruct (date_trichotomy a b) as [Hlt|[->|Hgt]].
  - congruence.
  - replace (date_eqb b b) with true; [apply orb_true_r|].
    symmetry. apply date_eqb_eq. reflexivity.
  - rewrite Hgt. reflexivity.
Qed.

Lemma TimeRecord_save_ok today now pk r st k st' :
  TimeRecord_save today now pk r st = (Done k, st') →
  ∃ r', time_records st' !! k = Some r' ∧ worked_time r' = worked_time r ∧
        record_date r' = record_date r ∧ record_ok today r'.
Proof.
  intros H. apply TimeRecord_save_Done in H as (Hc & r' & Hlk & _ & Hd & Hw & _).
  apply full_clean_nil in Hc as [Hmin Hdate].
  exists r'. unfold record_ok. rewrite Hw, Hd.
  repeat split; try assumption. apply date_leb_of_not_ltb, Hdate.
Qed.

Lemma TimeRecord_save_rejects today now pk r st :
  worked_time r < timedelta_minutes 1 ∨ date_ltb today (record_date r) = true →
  ∃ errors, errors ≠ [] ∧
            TimeRecord_save today now pk r st = (Raised errors, st).
Proof.
  intros H. exists (full_clean st today r).
  pose proof (full_clean_rejects st today r H) as Hne.
  split; [assumption|]. apply TimeRecord_save_Raised, Hne.
Qed.

Lemma TimeRecord_save_keeps_ok today now pk r st :
  map_Forall (λ _ r, record_ok today r) (time_records st) →
  map_Forall (λ _ r, record_ok today r)
    (time_records (TimeRecord_save today now pk r st).2).
Proof.
  intros Hst. destruct (TimeRecord_save today now pk r st) as [[k|errs] st'] eqn:E.
  - pose proof (TimeRecord_save_ok _ _ _ _ _ _ _ E) as (r' & Hlk & _ & _ & Hok).
    unfold TimeRecord_save in E.
    destruct (full_clean st today r); [|discriminate].
    injection E as <- <-. cbn [snd time_records] in *.
    rewrite lookup_insert_eq in Hlk. injection Hlk as <-.
    apply map_Forall_insert_2; assumption.
  - unfold TimeRecord_save in E.
    destruct (full_clean st today r); [discriminate|].
    injection E as _ <-. exact Hst.
Qed.

(** C9. A time record that [TimeRecord.save] writes has a worked time of
    at least one minute and a date that is not after the current date,
    whether it is saved directly or by the create and update views of the
    API, because [save] validates the whole model first; a save that
    violates either condition raises and leaves the store as it was. *)
Theorem saved_time_record_is_valid today now pk r st :
  (∀ k st', TimeRecord_save today now pk r st = (Done k, st') →
     ∃ r', time_records st' !! k = Some r' ∧ worked_time r' = worked_time r ∧
           record_date r' = record_date r ∧ record_ok today r') ∧
  (worked_time r < timedelta_minutes 1 ∨ date_ltb today (record_date r) = true →
     ∃ errors, errors ≠ [] ∧
               TimeRecord_save today now pk r st = (Raised errors, st)) ∧
  (map_Forall (λ _ r, record_ok today r) (time_records st) →
     map_Forall (λ _ r, record_ok today r)
       (time_records (TimeRecord_save today now pk r st).2) ∧
     (∀ user data,
        map_Forall (λ _ r, record_ok today r)
          (time_records (TimeRecordViewSet.create user today now data st).2)) ∧
     (∀ user k data,
        map_Forall (λ _ r, record_ok today r)
          (time_records (TimeRecordViewSet.update user today now k data st).2))).
Proof.
  split; [|split].
  - intros k st' H. eapply TimeRecord_save_ok, H.
  - apply TimeRecord_save_rejects.
  - intros Hst. split; [apply TimeRecord_save_keeps_ok, Hst|]. split.
    + intros user data. unfold TimeRecordViewSet.create.
      destruct (TimeRecordViewSet.run_validation user data st); [|exact Hst].
      match goal with |- context [TimeRecord_save today now None ?x st] =>
        pose proof (TimeRecord_save_keeps_ok today now None x st Hst) as Hk;
        destruct (TimeRecord_save today now None x st) as [[?|?] ?]
      end; [exact Hk|exact Hst].
    + intros user k data. unfold TimeRecordViewSet.update.
      destruct (TimeRecordViewSet.get_object user k st); [|exact Hst].
      destruct (TimeRecordViewSet.run_validation user data st); [|exact Hst].
      match goal with |- context [TimeRecord_save today now (Some k) ?x st] =>
        pose proof (TimeRecord_save_keeps_ok today now (Some k) x st Hst) as Hk;
        destruct (TimeRecord_save today now (Some k) x st) as [[?|?] ?]
      end; [exact Hk|exact Hst].
Qed.

Lemma saved_time_record_example :
  (∃ r', time_records
           (TimeRecord_save wednesday 7 None (example_record 1 wednesday 1 0)
              example_store).2 !! 6 = Some r' ∧
         worked_time r' = timedelta_of 1 0 0 ∧ record_date r' = wednesday ∧
         record_ok wednesday r') ∧
  (∃ errors, errors ≠ [] ∧
     TimeRecord_save wednesday 7 None (example_record 1 (Date 2024 1 18) 1 0)
       example_store = (Raised errors, example_store)).
Proof.
  split.
  - apply (saved_time_record_is_valid wednesday 7 None
             (example_record 1 wednesday 1 0) example_store).
    vm_compute. reflexivity.
  - apply (saved_time_record_is_valid wednesday 7 None
             (example_record 1 (Date 2024 1 18) 1 0) example_store).
    right. vm_compute. reflexivity.
Defined.

(** *** Ownership *)

(** C4. Whatever a user A lists, retrieves, updates or deletes through the
    API, the reply shows tasks and time records of A only and nothing that
    another user B can reach is changed; a task or a time record of B
    addressed by its key is "not found" and the store stays as it is; and
    the replies to A, with the data A can reach afterwards, are the same
    on the store that holds the data of A alone, hence on any two stores
    that agree on the data of A. *)
Theorem ownership_isolation A B today now req st :
  A ≠ B →
  (∀ u, u ∈ owners_shown (handle A today now req st).1 → u = A) ∧
  visible B (handle A today now req st).2 = visible B st ∧
  (∀ pk t, addresses_task req pk → tasks st !! pk = Some t →
           responsible_user t = B →
           not_found (handle A today now req st).1 ∧
           (handle A today now req st).2 = st) ∧
  (∀ pk r, addresses_record req pk → time_records st !! pk = Some r →
           TimeRecordViewSet.owned_by st B r = true →
           not_found (handle A today now req st).1 ∧
           (handle A today now req st).2 = st) ∧
  handle A today now req (restrict A st) =
    ((handle A today now req st).1, restrict A (handle A today now req st).2) ∧
  (∀ st2, visible A st = visible A st2 →
          (handle A today now req st).1 = (handle A today now req st2).1 ∧
          visible A (handle A today now req st).2 =
          visible A (handle A today now req st2).2).
Proof.
  intros Hne. repeat split.
  - apply handle_owners_shown.
  - apply handle_others_unchanged, Hne.
  - eapply handle_task_of_other; eauto. congruence.
  - eapply handle_task_of_other; eauto. congruence.
  - eapply handle_record_of_other; eauto. eapply owned_by_one_owner; eauto.
  - eapply handle_record_of_other; eauto. eapply owned_by_one_owner; eauto.
  - apply handle_restrict.
  - apply handle_same_view. assumption.
  - apply handle_same_view. assumption.
Qed.

Lemma ownership_isolation_example :
  not_found (handle alice wednesday 0 (TaskRetrieve 2) example_store).1 ∧
  (handle alice wednesday 0 (TaskRetrieve 2) example_store).2 = example_store.
Proof.
  assert (Hne : alice ≠ bob) by discriminate.
  destruct (ownership_isolation alice bob wednesday 0 (TaskRetrieve 2)
              example_store Hne) as (_ & _ & H & _).
  apply (H 2 (example_task bob 200 "Review")); reflexivity.
Defined.

(** What Alice gets for a key of Bob is what she gets for a key that does
    not exist, and her list shows her own records only. *)
Example alice_requests :
  (handle alice wednesday 0 (RecordRetrieve 4) example_store).1 =
  (handle alice wednesday 0 (RecordRetrieve 99) example_store).1 ∧
  (handle alice wednesday 0 (RecordDestroy 4) example_store) =
  (EmptyReply NotFound, example_store) ∧
  keys (TimeRecordViewSet.get_queryset alice example_store) = {[1; 2; 3; 5]} ∧
  keys (TimeRecordViewSet.get_queryset bob example_store) = {[4]}.
Proof. vm_compute. repeat split. Qed.

(** *** Validation *)

Lemma TimeRecordViewSet_create_rejects user today now data st :
  in_worked_time data < timedelta_minutes 1 ∨
  date_ltb today (in_record_date data) = true →
  (∃ errors, errors ≠ [] ∧
     ((TimeRecordViewSet.create user today now data st).1 = BadRequest errors ∨
      (TimeRecordViewSet.create user today now data st).1 = ServerError errors)) ∧
  (TimeRecordViewSet.create user today now data st).2 = st.
Proof.
  intros H. unfold TimeRecordViewSet.create.
  destruct (TimeRecordViewSet.run_validation user data st) as [|e errs] eqn:Ev.
  - match goal with |- context [TimeRecord_save today now None ?x st] =>
      destruct (TimeRecord_save_rejects today now None x st H) as (errors & Hne & ->)
    end.
    cbn [fst snd]. split; [|reflexivity]. exists errors. auto.
  - cbn [fst snd]. split; [|reflexivity]. exists (e :: errs). split; [discriminate|auto].
Qed.

Lemma TimeRecordViewSet_create_min_value user today now data st :
  in_worked_time data < timedelta_minutes 1 →
  reports (TimeRecordViewSet.create user today now data st).1
    ("worked_time", MSG_MIN_VALUE).
Proof.
  intros H. unfold TimeRecordViewSet.create, TimeRecordViewSet.run_validation.
  destruct (Z.ltb_spec (in_worked_time data) (timedelta_minutes 1)); [|lia].
  destruct (TimeRecordViewSet.validate_task_id user (in_task_id data) st) as [|e l];
    cbn [app fst reports].
  - left.
  - right. apply elem_of_app. right. left.
Qed.

Lemma TimeRecordViewSet_update_rejects user today now pk data st :
  in_worked_time data < timedelta_minutes 1 ∨
  date_ltb today (in_record_date data) = true →
  (∀ d, (TimeRecordViewSet.update user today now pk data st).1 ≠ OK d) ∧
  (TimeRecordViewSet.update user today now pk data st).2 = st.
Proof.
  intros H. unfold TimeRecordViewSet.update.
  destruct (TimeRecordViewSet.get_object user pk st); [|split; [discriminate|reflexivity]].
  destruct (TimeRecordViewSet.run_validation user data st);
    [|split; [discriminate|reflexivity]].
  match goal with |- context [TimeRecord_save today now (Some pk) ?x st] =>
    destruct (TimeRecord_save_rejects today now (Some pk) x st H) as (errors & Hne & ->)
  end.
  split; [discriminate|reflexivity].
Qed.




(** The zero duration: the worked-time rule of [TimeRecord.clean] and of
    the form lets it pass, and the validation fails on the minimum of one
    minute alone. *)
Example zero_worked_time :
  TimeRecord_clean wednesday (example_record 1 wednesday 0 0) = [] ∧
  TimeRecordForm.clean_worked_time (timedelta_of 0 0 0) = inr 0 ∧
  full_clean example_store wednesday (example_record 1 wednesday 0 0) =
    [("worked_time", MSG_MIN_VALUE)].
Proof. vm_compute. repeat split. Qed.

(** *** Dashboards *)

(** [order_by_desc] lists the rows of the queryset, largest key first. *)
Lemma order_by_desc_sorted {A} (key : A → Z) (qs : gmap Z A) :
  Sorted (λ a b, key b.2 ≤ key a.2) (order_by_desc key qs) ∧
  order_by_desc key qs ≡ₚ rows qs.
Proof.
  unfold order_by_desc. split.
  - assert (Ht : Total (λ a b : Z * A, key b.2 ≤ key a.2))
      by (intros a b; lia).
    apply (Sorted_merge_sort (λ a b : Z * A, key b.2 ≤ key a.2)).
  - apply merge_sort_Permutation.
Qed.

(** C1, as the code has it. The dashboard page and the dashboard resource
    of the API present, for the same user and the same current date, the
    same number of tasks and of active tasks, the same total of worked
    hours and of worked hours since the Monday of the week, the same five
    most recent tasks and the same ten most recent time records, the API
    in serialized form. The page has no hours of the month. *)
Theorem dashboard_page_and_api user today st :
  valid_date today = true →
  ∃ context data week_start,
    sub_days today (weekday today) = Some week_start ∧
    dashboard user today st = Some context ∧
    DashboardViewSet.list user today st = Some data ∧
    let tasks := TaskViewSet.get_queryset user st in
    let records := TimeRecordViewSet.get_queryset user st in
    let total := sum_worked_time (rows records) in
    let week :=
      sum_worked_time
        (rows (qfilter (λ r, date_leb week_start (record_date r)) records)) in
    let recent_tasks := take 5 (order_by_desc creation_date tasks) in
    let recent_records := take 10 (order_by_desc record_creation_date records) in
    (get context "total_tasks" = Some (Int (count tasks)) ∧
     get data "total_tasks" = Some (Int (count tasks))) ∧
    (get context "active_tasks" = Some (Int (count (qfilter active tasks))) ∧
     get data "active_tasks" = Some (Int (count (qfilter active tasks)))) ∧
    (get context "total_hours" = Some (Float (hours_of total)) ∧
     get data "total_worked_hours" = Some (Float (hours_of total))) ∧
    (get context "week_hours" = Some (Float (hours_of week)) ∧
     get data "hours_this_week" = Some (Float (hours_of week))) ∧
    (get context "recent_tasks" = Some (Tasks recent_tasks) ∧
     get data "recent_tasks" =
       Some (TasksData (TaskSerializer st <$> recent_tasks))) ∧
    (get context "recent_records" = Some (Records recent_records) ∧
     get data "recent_records" =
       Some (RecordsData (TimeRecordSerializer st <$> recent_records))).
Proof.
  intros Hv. destruct (sub_days_weekday today Hv) as (ws & Hws & _ & _).
  unfold dashboard, DashboardViewSet.list.
  rewrite Hws, (make_date_first today Hv). cbn [mbind option_bind].
  rewrite !or_zero_aggregate_Sum.
  eexists _, _, ws. split; [reflexivity|]. split; [reflexivity|].
  split; [reflexivity|]. cbv zeta. repeat split.
Qed.

Lemma dashboard_page_and_api_example :
  ∃ context data,
    dashboard alice wednesday example_store = Some context ∧
    DashboardViewSet.list alice wednesday example_store = Some data ∧
    get context "total_hours" = Some (Float (hours_of (timedelta_of 5 35 0))) ∧
    get data "total_worked_hours" = Some (Float (hours_of (timedelta_of 5 35 0))) ∧
    get context "week_hours" = Some (Float (hours_of (timedelta_of 2 30 0))) ∧
    get data "hours_this_week" = Some (Float (hours_of (timedelta_of 2 30 0))).
Proof.
  destruct (dashboard_page_and_api alice wednesday example_store eq_refl)
    as (context & data & ws & Hws & Hc & Hd & _ & _ & [H1 H2] & [H3 H4] & _).
  exists context, data. split; [exact Hc|]. split; [exact Hd|].
  vm_compute in Hws. injection Hws as <-.
  rewrite H1, H2, H3, H4. vm_compute. repeat split.
Defined.

(** C1 does not hold as stated for the hours of the month: the API
    returns them, and no entry of the context of the page holds them. *)
Lemma dashboard_page_lacks_month_hours :
  ∃ h, (d ← DashboardViewSet.list alice wednesday example_store;
        get d "hours_this_month") = Some (Float h) ∧
       ∀ context key,
         dashboard alice wednesday example_store = Some context →
         get context key ≠ Some (Float h).
Proof.
  exists (hours_of (timedelta_of 4 35 0)). split; [vm_compute; reflexivity|].
  intros context key H. vm_compute in H. injection H as <-.
  unfold get. cbn [List.find fst snd].
  repeat (destruct (String.eqb _ key); [cbn; intros [=]|]).
  cbn. discriminate.
Qed.

(** ** Further properties of the code *)

(** *** Weeks and months *)

(** X1. The start of the week that the views and the period filter compute,
    [today - timedelta(days=today.weekday())], exists for every date, is a
    date of the calendar, falls on a Monday and lies at most six days
    before [today]. *)
Theorem week_start_exists_and_is_monday today :
  valid_date today = true →
  ∃ week_start,
    sub_days today (weekday today) = Some week_start ∧
    valid_date week_start = true ∧
    weekday week_start = 0 ∧
    toordinal today - 6 <= toordinal week_start <= toordinal today ∧
    date_leb week_start today = true.
Proof.
  intros Hv. destruct (sub_days_weekday today Hv) as (ws & Hs & Hvw & Ho).
  exists ws. pose proof (weekday_range today) as Hr.
  split; [assumption|]. split; [assumption|]. split; [|split; [lia|]].
  - unfold weekday in *. rewrite Ho. Z.div_mod_to_equations. lia.
  - rewrite date_leb_ordinal by assumption. apply Z.leb_le. lia.
Qed.

Lemma week_start_of_wednesday :
  ∃ week_start,
    sub_days wednesday (weekday wednesday) = Some week_start ∧
    valid_date week_start = true ∧
    weekday week_start = 0 ∧
    toordinal wednesday - 6 <= toordinal week_start <= toordinal wednesday ∧
    date_leb week_start wednesday = true.
Proof. apply (week_start_exists_and_is_monday wednesday). reflexivity. Defined.

(** X2. The window of [last_week] is the week before: it starts on the
    Monday seven days before the start of this week and ends on the Sunday
    that is the day before the start of this week. *)
Theorem last_week_is_monday_to_sunday today :
  valid_date today = true → 2 <= year today →
  ∃ this_start week_start week_end,
    sub_days today (weekday today) = Some this_start ∧
    sub_days today (weekday today + 7) = Some week_start ∧
    add_days week_start 6 = Some week_end ∧
    weekday week_start = 0 ∧ weekday week_end = 6 ∧
    toordinal week_start = toordinal this_start - 7 ∧
    toordinal week_end = toordinal this_start - 1.
Proof.
  intros Hv Hy.
  pose proof (toordinal_year_ge today Hv Hy) as Hord.
  pose proof (toordinal_range today Hv) as Hrange.
  pose proof (weekday_range today) as Hwd.
  destruct (sub_days_weekday today Hv) as (ts & Hts & Hvt & Hot).
  destruct (sub_days_Some today (weekday today + 7) Hv ltac:(lia))
    as (ws & Hws & Hvw & How).
  destruct (sub_days_Some ws (Z.opp 6) Hvw ltac:(lia)) as (we & Hwe & Hve & Hoe).
  exists ts, ws, we. unfold add_days.
  repeat split; try assumption; try lia.
  - unfold weekday in *. rewrite How. Z.div_mod_to_equations. lia.
  - unfold weekday in *. rewrite Hoe, How. Z.div_mod_to_equations. lia.
Qed.

Lemma last_week_of_wednesday :
  ∃ this_start week_start week_end,
    sub_days wednesday (weekday wednesday) = Some this_start ∧
    sub_days wednesday (weekday wednesday + 7) = Some week_start ∧
    add_days week_start 6 = Some week_end ∧
    weekday week_start = 0 ∧ weekday week_end = 6 ∧
    toordinal week_start = toordinal this_start - 7 ∧
    toordinal week_end = toordinal this_start - 1.
Proof.
  apply (last_week_is_monday_to_sunday wednesday); [reflexivity|simpl; lia].
Defined.

(** X3. For every current date the views that compute the start of the
    week or of the month answer: the date computation never leaves the
    range of dates, so [this_week], [this_month], [summary] and the two
    dashboards never raise. *)
Theorem week_and_month_views_answer user today st :
  valid_date today = true →
  is_Some (TimeRecordViewSet.this_week user today st) ∧
  is_Some (TimeRecordViewSet.this_month user today st) ∧
  is_Some (TimeRecordViewSet.summary user today st) ∧
  is_Some (DashboardViewSet.list user today st) ∧
  is_Some (dashboard user today st).
Proof.
  intros Hv. destruct (sub_days_weekday today Hv) as (ws & Hs & _ & _).
  unfold TimeRecordViewSet.this_week, TimeRecordViewSet.this_month,
    TimeRecordViewSet.summary, DashboardViewSet.list, dashboard.
  rewrite Hs, (make_date_first today Hv). cbn [mbind option_bind].
  repeat split; eexists; reflexivity.
Qed.

Lemma week_and_month_views_answer_on_first_day :
  is_Some (TimeRecordViewSet.this_week alice (Date 1 1 1) example_store) ∧
  is_Some (TimeRecordViewSet.this_month alice (Date 1 1 1) example_store) ∧
  is_Some (TimeRecordViewSet.summary alice (Date 1 1 1) example_store) ∧
  is_Some (DashboardViewSet.list alice (Date 1 1 1) example_store) ∧
  is_Some (dashboard alice (Date 1 1 1) example_store).
Proof.
  apply (week_and_month_views_answer alice (Date 1 1 1) example_store).
  reflexivity.
Defined.

(** *** The named list actions and the period parameter *)

Lemma records_queryset_joined user st :
  qfilter (λ r, match tasks st !! task r with
                | Some t => true
                | None => false
                end) (TimeRecordViewSet.get_queryset user st) =
  TimeRecordViewSet.get_queryset user st.
Proof.
  apply map_eq. intros k. rewrite qfilter_lookup.
  destruct (TimeRecordViewSet.get_queryset user st !! k) as [r|] eqn:E;
    [|reflexivity].
  apply records_queryset_Some in E as [_ Ho].
  apply owned_by_true in Ho as (t & -> & _). reflexivity.
Qed.

(** X4. The list actions [today], [this_week] and [this_month] of the API
    return what the list view returns for the period parameter of the same
    name and no other filter. *)
Theorem named_actions_are_periods user today st :
  valid_date today = true →
  (∃ l, TimeRecordViewSet.today user today st = Some l ∧
        TimeRecordViewSet.list user today (λ _ _, true) "today" st = OK l) ∧
  (∃ l, TimeRecordViewSet.this_week user today st = Some l ∧
        TimeRecordViewSet.list user today (λ _ _, true) "this_week" st = OK l) ∧
  (∃ l, TimeRecordViewSet.this_month user today st = Some l ∧
        TimeRecordViewSet.list user today (λ _ _, true) "this_month" st = OK l).
Proof.
  intros Hv. destruct (sub_days_weekday today Hv) as (ws & Hs & _ & _).
  unfold TimeRecordViewSet.today, TimeRecordViewSet.this_week,
    TimeRecordViewSet.this_month, TimeRecordViewSet.list.
  rewrite records_queryset_joined.
  unfold TimeRecordFilter.period, TimeRecordFilter.filter_period.
  rewrite Hs, (make_date_first today Hv). cbn [mbind option_bind].
  repeat split; eexists; (split; [reflexivity|]);
    repeat (case_decide as Hc; [try discriminate Hc|]); try reflexivity;
    exfalso; apply Hc; unfold TimeRecordFilter.period_choices; set_solver.
Qed.

Lemma named_actions_are_periods_example :
  ∃ l, TimeRecordViewSet.this_week alice wednesday example_store = Some l ∧
       TimeRecordViewSet.list alice wednesday (λ _ _, true) "this_week"
         example_store = OK l.
Proof.
  apply (named_actions_are_periods alice wednesday example_store). reflexivity.
Defined.

(** *** How the periods relate *)

Lemma in_period_today D r :
  valid_date D = true → in_period D Today r = true →
  in_period D ThisWeek r = true ∧ in_period D ThisMonth r = true.
Proof.
  intros HD H. cbn [in_period] in *. apply date_eqb_eq in H. subst r.
  pose proof (weekday_range D). apply valid_date_spec in HD.
  split; apply Z.leb_le; [lia|]. unfold toordinal, ymd2ord. lia.
Qed.

Lemma in_period_yesterday D r :
  in_period D Yesterday r = true →
  in_period D Today r = false ∧
  (in_period D ThisWeek r = true ∨ in_period D LastWeek r = true).
Proof.
  cbn [in_period]. intros H. apply Z.eqb_eq in H.
  pose proof (weekday_range D). split.
  - destruct (date_eqb r D) eqn:E; [|reflexivity].
    apply date_eqb_eq in E. subst. lia.
  - destruct (Z.leb_spec (toordinal D - weekday D) (toordinal r)); [left; reflexivity|].
    right. apply andb_true_iff. split; apply Z.leb_le; lia.
Qed.

Lemma in_period_last_week D r :
  in_period D LastWeek r = true → in_period D ThisWeek r = false.
Proof.
  cbn [in_period]. intros H. apply andb_true_iff in H as [H1 H2].
  apply Z.leb_le in H1, H2. apply Z.leb_gt. lia.
Qed.

Lemma in_period_last_month D r :
  valid_date D = true → valid_date r = true →
  in_period D LastMonth r = true → in_period D ThisMonth r = false.
Proof.
  intros HD Hr H. cbn [in_period] in *. apply andb_true_iff in H as [H1 H2].
  apply Z.eqb_eq in H1, H2. apply Z.leb_gt.
  change (ymd2ord (year D) (month D) 1) with
    (toordinal (Date (year D) (month D) 1)).
  apply toordinal_lt; [assumption|apply first_of_month_valid, HD|].
  unfold date_ltb. cbn [year month day]. rewrite H1, H2.
  apply valid_date_spec in HD.
  unfold prior_month. destruct (Z.eqb_spec (month D) 1); cbn [fst snd].
  - replace (year D - 1 <? year D) with true by (symmetry; apply Z.ltb_lt; lia).
    reflexivity.
  - rewrite Z.eqb_refl.
    replace (month D - 1 <? month D) with true by (symmetry; apply Z.ltb_lt; lia).
    rewrite orb_true_r. reflexivity.
Qed.

(** X5. Of the records that the period filter keeps: those of [today] are
    among those of [this_week] and of [this_month]; those of [yesterday]
    are not those of [today] and are among those of [this_week] or of
    [last_week]; no record is both of [last_week] and of [this_week], nor
    both of [last_month] and of [this_month]. *)
Theorem periods_nest_and_exclude D (qs : gmap Z TimeRecord) :
  valid_date D = true → 2 <= year D → dates_valid qs →
  ∃ t y tw lw tm lm,
    TimeRecordFilter.filter_period D qs "today" = Some t ∧
    TimeRecordFilter.filter_period D qs "yesterday" = Some y ∧
    TimeRecordFilter.filter_period D qs "this_week" = Some tw ∧
    TimeRecordFilter.filter_period D qs "last_week" = Some lw ∧
    TimeRecordFilter.filter_period D qs "this_month" = Some tm ∧
    TimeRecordFilter.filter_period D qs "last_month" = Some lm ∧
    t ⊆ tw ∧ t ⊆ tm ∧ y ##ₘ t ∧ lw ##ₘ tw ∧ lm ##ₘ tm ∧
    (∀ k r, y !! k = Some r → tw !! k = Some r ∨ lw !! k = Some r).
Proof.
  intros HD Hy Hqs.
  pose proof (λ p, filter_period_named D p qs HD Hy Hqs) as Hp.
  pose proof (Hp Today) as H1. pose proof (Hp Yesterday) as H2.
  pose proof (Hp ThisWeek) as H3. pose proof (Hp LastWeek) as H4.
  pose proof (Hp ThisMonth) as H5. pose proof (Hp LastMonth) as H6.
  cbn [period_value] in *.
  eexists _, _, _, _, _, _.
  split; [exact H1|]. split; [exact H2|]. split; [exact H3|].
  split; [exact H4|]. split; [exact H5|]. split; [exact H6|].
  split; [|split; [|split; [|split; [|split]]]].
  - apply map_subseteq_spec. intros k r Hk.
    apply qfilter_Some in Hk as [Hk Hin]. apply qfilter_Some. split; [assumption|].
    apply (in_period_today D _ HD Hin).
  - apply map_subseteq_spec. intros k r Hk.
    apply qfilter_Some in Hk as [Hk Hin]. apply qfilter_Some. split; [assumption|].
    apply (in_period_today D _ HD Hin).
  - apply map_disjoint_spec. intros k r r' Hk Hk'.
    apply qfilter_Some in Hk as [Hk Hin]. apply qfilter_Some in Hk' as [Hk' Hin'].
    assert (r' = r) by congruence. subst r'.
    apply in_period_yesterday in Hin as [Hin _]. congruence.
  - apply map_disjoint_spec. intros k r r' Hk Hk'.
    apply qfilter_Some in Hk as [Hk Hin]. apply qfilter_Some in Hk' as [Hk' Hin'].
    assert (r' = r) by congruence. subst r'.
    apply in_period_last_week in Hin. congruence.
  - apply map_disjoint_spec. intros k r r' Hk Hk'.
    apply qfilter_Some in Hk as [Hk Hin]. apply qfilter_Some in Hk' as [Hk' Hin'].
    assert (r' = r) by congruence. subst r'.
    apply in_period_last_month in Hin; [congruence|assumption|].
    eapply Hqs, Hk.
  - intros k r Hk. apply qfilter_Some in Hk as [Hk Hin].
    apply in_period_yesterday in Hin as [_ [Hin|Hin]];
      [left|right]; apply qfilter_Some; auto.
Qed.

Lemma periods_nest_and_exclude_example :
  ∃ t y tw lw tm lm,
    TimeRecordFilter.filter_period wednesday (time_records example_store) "today" = Some t ∧
    TimeRecordFilter.filter_period wednesday (time_records example_store) "yesterday" = Some y ∧
    TimeRecordFilter.filter_period wednesday (time_records example_store) "this_week" = Some tw ∧
    TimeRecordFilter.filter_period wednesday (time_records example_store) "last_week" = Some lw ∧
    TimeRecordFilter.filter_period wednesday (time_records example_store) "this_month" = Some tm ∧
    TimeRecordFilter.filter_period wednesday (time_records example_store) "last_month" = Some lm ∧
    t ⊆ tw ∧ t ⊆ tm ∧ y ##ₘ t ∧ lw ##ₘ tw ∧ lm ##ₘ tm ∧
    (∀ k r, y !! k = Some r → tw !! k = Some r ∨ lw !! k = Some r).
Proof.
  apply (periods_nest_and_exclude wednesday (time_records example_store)).
  - reflexivity.
  - simpl. lia.
  - exact example_dates_valid.
Defined.

(** *** Summary and dashboard *)

(** X6. The summary of the time records and the dashboard of the API give
    the same three totals of hours for the same user and date, and the
    summary counts the time records of the user. *)
Theorem summary_agrees_with_dashboard user today st :
  valid_date today = true →
  ∃ s d total week month,
    TimeRecordViewSet.summary user today st = Some s ∧
    DashboardViewSet.list user today st = Some d ∧
    get s "total_hours" = Some (Float total) ∧
    get d "total_worked_hours" = Some (Float total) ∧
    get s "week_hours" = Some (Float week) ∧
    get d "hours_this_week" = Some (Float week) ∧
    get s "month_hours" = Some (Float month) ∧
    get d "hours_this_month" = Some (Float month) ∧
    get s "total_records" =
      Some (Int (count (TimeRecordViewSet.get_queryset user st))).
Proof.
  intros Hv. destruct (sub_days_weekday today Hv) as (ws & Hs & _ & _).
  unfold TimeRecordViewSet.summary, DashboardViewSet.list.
  rewrite Hs, (make_date_first today Hv). cbn [mbind option_bind].
  eexists _, _, _, _, _. repeat split.
Qed.

Lemma summary_agrees_with_dashboard_example :
  ∃ s d total week month,
    TimeRecordViewSet.summary alice wednesday example_store = Some s ∧
    DashboardViewSet.list alice wednesday example_store = Some d ∧
    get s "total_hours" = Some (Float total) ∧
    get d "total_worked_hours" = Some (Float total) ∧
    get s "week_hours" = Some (Float week) ∧
    get d "hours_this_week" = Some (Float week) ∧
    get s "month_hours" = Some (Float month) ∧
    get d "hours_this_month" = Some (Float month) ∧
    get s "total_records" =
      Some (Int (count (TimeRecordViewSet.get_queryset alice example_store))).
Proof.
  apply (summary_agrees_with_dashboard alice wednesday example_store).
  reflexivity.
Defined.

Lemma sum_worked_time_nonneg (l : list (Z * TimeRecord)) :
  Forall (λ kv, 0 <= worked_time kv.2) l → 0 <= sum_worked_time l.
Proof.
  unfold sum_worked_time. induction 1 as [|kv l Hk _ IH]; simpl; lia.
Qed.

Lemma sum_worked_time_filter (P : Z * TimeRecord → Prop)
    `{!∀ x, Decision (P x)} (l : list (Z * TimeRecord)) :
  Forall (λ kv, 0 <= worked_time kv.2) l →
  0 <= sum_worked_time (filter P l) <= sum_worked_time l.
Proof.
  unfold sum_worked_time. induction 1 as [|kv l Hk _ IH].
  - simpl. lia.
  - rewrite filter_cons. destruct (decide (P kv)); simpl; lia.
Qed.

Lemma sum_worked_time_qfilter p (qs : gmap Z TimeRecord) :
  map_Forall (λ _ r, 0 <= worked_time r) qs →
  0 <= sum_worked_time (rows (qfilter p qs)) <= sum_worked_time (rows qs).
Proof.
  intros H. rewrite (sum_worked_time_perm _ _ (rows_qfilter p qs)).
  apply sum_worked_time_filter. apply Forall_forall. intros [k r] Hin.
  apply elem_of_map_to_list in Hin. apply (H k r Hin).
Qed.

Lemma hours_of_le a b : a <= b → (hours_of a <= hours_of b)%Q.
Proof.
  intros H. unfold hours_of, total_seconds, Qdiv, Qmult, Qinv, Qle.
  cbn [Qnum Qden]. nia.
Qed.

Lemma hours_of_nonneg a : 0 <= a → (0 <= hours_of a)%Q.
Proof.
  intros H. unfold hours_of, total_seconds, Qdiv, Qmult, Qinv, Qle.
  cbn [Qnum Qden]. nia.
Qed.

Lemma durations_ok_queryset user st :
  durations_ok st →
  map_Forall (λ _ r, 0 <= worked_time r) (TimeRecordViewSet.get_queryset user st).
Proof.
  intros H k r Hk. apply records_queryset_Some in Hk as [Hk _].
  pose proof (H k r Hk) as Hm. change (timedelta_minutes 1) with 60000000 in Hm.
  cbn beta in Hm. lia.
Qed.

(** X7. When every stored time record has a worked time of a minute or
    more, as [save] guarantees, the hours of the week and the hours of the
    month of the summary are not negative and do not exceed the total
    hours. *)
Theorem summary_parts_within_total user today st :
  valid_date today = true → durations_ok st →
  ∃ total week month n,
    TimeRecordViewSet.summary user today st =
      Some [("total_hours", Float total); ("week_hours", Float week);
            ("month_hours", Float month); ("total_records", Int n)] ∧
    (0 <= week)%Q ∧ (week <= total)%Q ∧ (0 <= month)%Q ∧ (month <= total)%Q.
Proof.
  intros Hv Hd. destruct (sub_days_weekday today Hv) as (ws & Hs & _ & _).
  pose proof (durations_ok_queryset user st Hd) as Hq.
  unfold TimeRecordViewSet.summary.
  rewrite Hs, (make_date_first today Hv). cbn [mbind option_bind].
  rewrite !or_zero_aggregate_Sum.
  eexists _, _, _, _. split; [reflexivity|].
  pose proof (sum_worked_time_qfilter
                (λ r, date_leb ws (record_date r)) _ Hq) as [H1 H2].
  pose proof (sum_worked_time_qfilter
                (λ r, date_leb (Date (year today) (month today) 1) (record_date r))
                _ Hq) as [H3 H4].
  repeat split; try (apply hours_of_le; assumption).
  - apply hours_of_nonneg, H1.
  - apply hours_of_nonneg, H3.
Qed.

Lemma example_durations_ok : durations_ok example_store.
Proof. unfold durations_ok. apply (bool_decide_unpack _). vm_compute. exact I. Qed.

Lemma summary_parts_within_total_example :
  ∃ total week month n,
    TimeRecordViewSet.summary alice wednesday example_store =
      Some [("total_hours", Float total); ("week_hours", Float week);
            ("month_hours", Float month); ("total_records", Int n)] ∧
    (0 <= week)%Q ∧ (week <= total)%Q ∧ (0 <= month)%Q ∧ (month <= total)%Q.
Proof.
  apply (summary_parts_within_total alice wednesday example_store).
  - reflexivity.
  - exact example_durations_ok.
Defined.

Lemma count_qfilter_le {A} (p : A → bool) (qs : gmap Z A) :
  0 <= count (qfilter p qs) <= count qs.
Proof.
  unfold count, qfilter. pose proof (map_size_filter (λ kv : Z * A, p kv.2 = true) qs).
  lia.
Qed.

Lemma length_order_by_desc {A} (key : A → Z) (qs : gmap Z A) :
  length (order_by_desc key qs) = size qs.
Proof.
  destruct (order_by_desc_sorted key qs) as [_ Hp].
  rewrite Hp. apply length_map_to_list.
Qed.

Lemma length_order_by {A} (first : A → A → bool) (qs : gmap Z A) :
  length (order_by first qs) = size qs.
Proof.
  unfold order_by. rewrite merge_sort_Permutation. apply length_map_to_list.
Qed.

(** Of the rows sorted with the largest key first, the first [n] are the
    largest: a row left out has a key no larger than any row taken. *)
Lemma slice_to_newest {A} (key : A → Z) (qs : gmap Z A) n k a :
  qs !! k = Some a →
  (k, a) ∈ slice_to n (order_by_desc key qs) ∨
  ∀ kv, kv ∈ slice_to n (order_by_desc key qs) → key a <= key kv.2.
Proof.
  intros Hk. destruct (order_by_desc_sorted key qs) as [Hs _].
  assert (Htr : Transitive (λ a b : Z * A, key b.2 ≤ key a.2))
    by (intros x y z; lia).
  apply (Sorted_StronglySorted (λ a b : Z * A, key b.2 ≤ key a.2)) in Hs.
  assert (Hin : (k, a) ∈ order_by_desc key qs) by (apply elem_of_order_by_desc, Hk).
  unfold slice_to. rewrite <- (take_drop n (order_by_desc key qs)) in Hin, Hs.
  apply elem_of_app in Hin as [Hin|Hin]; [left; exact Hin|right].
  intros kv Hkv.
  apply (StronglySorted_app_1_elem_of _ _ _ kv (k, a) Hs Hkv Hin).
Qed.

(** X8. The dashboard counts and shortlists: the active tasks are counted
    among the tasks of the user, and the dashboard shows five tasks and
    ten time records, or all of them when the user has fewer. *)
Theorem dashboard_counts_and_shortlists user today st :
  valid_date today = true →
  ∃ d total_tasks active_tasks recent_tasks recent_records,
    DashboardViewSet.list user today st = Some d ∧
    get d "total_tasks" = Some (Int total_tasks) ∧
    get d "active_tasks" = Some (Int active_tasks) ∧
    get d "recent_tasks" = Some (TasksData recent_tasks) ∧
    get d "recent_records" = Some (RecordsData recent_records) ∧
    0 <= active_tasks <= total_tasks ∧
    total_tasks = count (TaskViewSet.get_queryset user st) ∧
    Z.of_nat (length recent_tasks) = Z.min 5 total_tasks ∧
    Z.of_nat (length recent_records) =
      Z.min 10 (count (TimeRecordViewSet.get_queryset user st)).
Proof.
  intros Hv. destruct (sub_days_weekday today Hv) as (ws & Hs & _ & _).
  unfold DashboardViewSet.list.
  rewrite Hs, (make_date_first today Hv). cbn [mbind option_bind].
  eexists _, _, _, _, _. split; [reflexivity|].
  do 4 (split; [reflexivity|]).
  split; [apply count_qfilter_le|]. split; [reflexivity|].
  unfold slice_to, count.
  rewrite !length_fmap, !length_take, !length_order_by_desc. lia.
Qed.

Lemma dashboard_counts_and_shortlists_example :
  ∃ d total_tasks active_tasks recent_tasks recent_records,
    DashboardViewSet.list alice wednesday example_store = Some d ∧
    get d "total_tasks" = Some (Int total_tasks) ∧
    get d "active_tasks" = Some (Int active_tasks) ∧
    get d "recent_tasks" = Some (TasksData recent_tasks) ∧
    get d "recent_records" = Some (RecordsData recent_records) ∧
    0 <= active_tasks <= total_tasks ∧
    total_tasks = count (TaskViewSet.get_queryset alice example_store) ∧
    Z.of_nat (length recent_tasks) = Z.min 5 total_tasks ∧
    Z.of_nat (length recent_records) =
      Z.min 10 (count (TimeRecordViewSet.get_queryset alice example_store)).
Proof.
  apply (dashboard_counts_and_shortlists alice wednesday example_store).
  reflexivity.
Defined.

(** X9. The recent tasks and the recent time records of the dashboard are
    the newest: a task of the user that the dashboard leaves out was
    created no later than every task it shows, and so for the time
    records. *)
Theorem dashboard_shows_the_newest user today st d :
  DashboardViewSet.list user today st = Some d →
  ∃ recent_tasks recent_records,
    get d "recent_tasks" = Some (TasksData recent_tasks) ∧
    get d "recent_records" = Some (RecordsData recent_records) ∧
    (∀ k t, TaskViewSet.get_queryset user st !! k = Some t →
       TaskSerializer st (k, t) ∈ recent_tasks ∨
       ∀ x, x ∈ recent_tasks → creation_date t <= td_creation_date x) ∧
    (∀ k r, TimeRecordViewSet.get_queryset user st !! k = Some r →
       TimeRecordSerializer st (k, r) ∈ recent_records ∨
       ∀ x, x ∈ recent_records → record_creation_date r <= trd_creation_date x).
Proof.
  unfold DashboardViewSet.list.
  destruct (sub_days today (weekday today)) as [ws|]; [|discriminate].
  destruct (make_date (year today) (month today) 1) as [ms|]; [|discriminate].
  cbn [mbind option_bind]. intros [= <-].
  eexists _, _. split; [reflexivity|]. split; [reflexivity|]. split.
  - intros k t Hk.
    destruct (slice_to_newest creation_date _ 5%nat k t Hk) as [Hin|Hle].
    + left. apply list_elem_of_fmap. exists (k, t). split; [reflexivity|exact Hin].
    + right. intros x Hx. apply list_elem_of_fmap in Hx as (kv & -> & Hkv).
      apply (Hle kv Hkv).
  - intros k r Hk.
    destruct (slice_to_newest record_creation_date _ 10%nat k r Hk) as [Hin|Hle].
    + left. apply list_elem_of_fmap. exists (k, r). split; [reflexivity|exact Hin].
    + right. intros x Hx. apply list_elem_of_fmap in Hx as (kv & -> & Hkv).
      apply (Hle kv Hkv).
Qed.

Lemma dashboard_shows_the_newest_example :
  ∃ d recent_tasks recent_records,
    DashboardViewSet.list alice wednesday example_store = Some d ∧
    get d "recent_tasks" = Some (TasksData recent_tasks) ∧
    get d "recent_records" = Some (RecordsData recent_records) ∧
    (∀ k t, TaskViewSet.get_queryset alice example_store !! k = Some t →
       TaskSerializer example_store (k, t) ∈ recent_tasks ∨
       ∀ x, x ∈ recent_tasks → creation_date t <= td_creation_date x) ∧
    (∀ k r, TimeRecordViewSet.get_queryset alice example_store !! k = Some r →
       TimeRecordSerializer example_store (k, r) ∈ recent_records ∨
       ∀ x, x ∈ recent_records → record_creation_date r <= trd_creation_date x).
Proof.
  destruct (DashboardViewSet.list alice wednesday example_store) as [d|] eqn:E.
  - exists d.
    destruct (dashboard_shows_the_newest alice wednesday example_store d E)
      as (lt & lr & H).
    exists lt, lr. split; [reflexivity|exact H].
  - vm_compute in E. discriminate E.
Defined.

(** *** The lists of tasks *)

Lemma qfilter_true {A} (qs : gmap Z A) : qfilter (λ _, true) qs = qs.
Proof.
  apply map_eq. intros k. unfold qfilter.
  destruct (qs !! k) as [a|] eqn:E.
  - apply map_lookup_filter_Some. split; [exact E|reflexivity].
  - apply map_lookup_filter_None. left. exact E.
Qed.

Lemma rows_qfilter_split {A} (p : A → bool) (qs : gmap Z A) :
  rows (qfilter p qs) ++ rows (qfilter (λ a, negb (p a)) qs) ≡ₚ rows qs.
Proof.
  rewrite (rows_qfilter p qs), (rows_qfilter (λ a, negb (p a)) qs).
  rewrite <- (filter_app_complement (λ kv : Z * A, p kv.2 = true) (rows qs)) at 3.
  apply Permutation_app; [reflexivity|].
  erewrite list_filter_iff; [reflexivity|].
  intros [k a]. cbn. destruct (p a); cbn; split; congruence.
Qed.

(** X10. The active and the inactive tasks split the list of tasks: every
    task of the list is in one of the two and is counted once, those of
    [active] are active and those of [inactive] are not. *)
Theorem active_and_inactive_split_the_list user st :
  ∃ la li l,
    TaskViewSet.active user st = OK la ∧
    TaskViewSet.inactive user st = OK li ∧
    TaskViewSet.list user (λ _, true) st = OK l ∧
    la ++ li ≡ₚ l ∧
    (∀ x, x ∈ la → td_active x = true) ∧
    (∀ x, x ∈ li → td_active x = false) ∧
    (length la + length li = length l)%nat.
Proof.
  eexists _, _, _. split; [reflexivity|]. split; [reflexivity|].
  split; [reflexivity|].
  assert (Hp : (TaskSerializer st <$>
                 order_by TaskViewSet.newest_first
                   (qfilter active (TaskViewSet.get_queryset user st))) ++
               (TaskSerializer st <$>
                 order_by TaskViewSet.newest_first
                   (qfilter (λ t, negb (active t)) (TaskViewSet.get_queryset user st)))
               ≡ₚ TaskSerializer st <$>
                 order_by TaskViewSet.newest_first
                   (qfilter (λ _, true) (TaskViewSet.get_queryset user st))).
  { rewrite <- fmap_app. apply fmap_Permutation. unfold order_by.
    rewrite !merge_sort_Permutation, qfilter_true. apply rows_qfilter_split. }
  split; [exact Hp|]. split; [|split].
  - intros x Hx. apply list_elem_of_fmap in Hx as ([k t] & -> & Hin).
    apply elem_of_order_by, qfilter_Some in Hin as [_ Ha]. exact Ha.
  - intros x Hx. apply list_elem_of_fmap in Hx as ([k t] & -> & Hin).
    apply elem_of_order_by, qfilter_Some in Hin as [_ Ha].
    cbn in *. destruct (active t); [discriminate|reflexivity].
  - rewrite <- length_app. apply Permutation_length, Hp.
Qed.

(** *** The store under the requests *)

Lemma fresh_pk_above {A} (l : list (Z * A)) kv :
  kv ∈ l → kv.1 <= foldr (λ kv acc, Z.max kv.1 acc) 0 l.
Proof.
  induction l as [|x l IH]; intros Hin.
  - apply elem_of_nil in Hin as [].
  - apply elem_of_cons in Hin as [->|Hin]; cbn [foldr]; [lia|].
    specialize (IH Hin). lia.
Qed.

(** The key of an insert is not in use. *)
Lemma fresh_pk_fresh {A} (table : gmap Z A) : table !! fresh_pk table = None.
Proof.
  destruct (table !! fresh_pk table) as [a|] eqn:E; [|reflexivity].
  apply elem_of_map_to_list in E.
  apply (fresh_pk_above (rows table)) in E. unfold fresh_pk in E at 1.
  cbn [fst] in E. lia.
Qed.

Lemma full_clean_task st today r :
  full_clean st today r = [] → is_Some (tasks st !! task r).
Proof.
  unfold full_clean. intros H. apply app_eq_nil in H as [H _].
  apply clean_fields_nil in H as [H _]. exact H.
Qed.

Lemma TimeRecord_save_consistent today now pk r st :
  references_ok st → durations_ok st →
  references_ok (TimeRecord_save today now pk r st).2 ∧
  durations_ok (TimeRecord_save today now pk r st).2.
Proof.
  intros Hr Hd. unfold TimeRecord_save.
  destruct (full_clean st today r) eqn:E; [|split; assumption].
  pose proof (full_clean_task _ _ _ E) as Ht.
  apply full_clean_nil in E as [Hmin _].
  cbn [snd]. unfold references_ok, durations_ok. cbn [tasks time_records].
  split; apply map_Forall_insert_2; try assumption;
    destruct (time_records st !! _); assumption.
Qed.

Lemma replace_task_consistent st pk t' :
  references_ok st → durations_ok st →
  references_ok {| tasks := <[pk := t']> (tasks st); time_records := time_records st |} ∧
  durations_ok {| tasks := <[pk := t']> (tasks st); time_records := time_records st |}.
Proof.
  intros Hr Hd. split; [|exact Hd].
  intros k r Hk. cbn [tasks time_records] in *.
  apply lookup_insert_is_Some'. right. apply (Hr k r Hk).
Qed.

Lemma handle_consistent user today now req st :
  references_ok st → durations_ok st →
  references_ok (handle user today now req st).2 ∧
  durations_ok (handle user today now req st).2.
Proof.
  intros Hr Hd. destruct req; cbn [handle snd]; try (split; assumption).
  - unfold TaskViewSet.update.
    destruct (TaskViewSet.get_object user pk st); [|split; assumption].
    case_decide; [split; assumption|]. cbn [snd].
    apply replace_task_consistent; assumption.
  - unfold TaskViewSet.toggle_status.
    destruct (TaskViewSet.get_object user pk st); [|split; assumption].
    cbn [snd]. apply replace_task_consistent; assumption.
  - unfold TaskViewSet.destroy.
    destruct (TaskViewSet.get_object user pk st); [|split; assumption].
    cbn [snd]. split.
    + intros k r Hk. cbn [tasks time_records] in *.
      apply qfilter_Some in Hk as [Hk Hne].
      destruct (Z.eqb_spec (task r) pk); [discriminate|].
      rewrite lookup_delete_ne by congruence. apply (Hr k r Hk).
    + intros k r Hk. cbn [time_records] in Hk.
      apply qfilter_Some in Hk as [Hk _]. apply (Hd k r Hk).
  - unfold TimeRecordViewSet.update.
    destruct (TimeRecordViewSet.get_object user pk st); [|split; assumption].
    destruct (TimeRecordViewSet.run_validation user data st); [|split; assumption].
    match goal with |- context [TimeRecord_save today now ?k ?x st] =>
      pose proof (TimeRecord_save_consistent today now k x st Hr Hd) as Hs;
      destruct (TimeRecord_save today now k x st) as [[?|?] ?]
    end; [exact Hs|split; assumption].
  - unfold TimeRecordViewSet.destroy.
    destruct (TimeRecordViewSet.get_object user pk st); [|split; assumption].
    cbn [snd]. split.
    + apply map_Forall_delete, Hr.
    + apply map_Forall_delete, Hd.
Qed.

(** X11. The requests of the API keep the store consistent: when every
    time record points at a task of the store and has a worked time of a
    minute or more, this still holds after any request on existing data
    and after the creation of a task or of a time record, whatever the
    answer is. *)
Theorem requests_keep_the_store_consistent user today now st :
  references_ok st → durations_ok st →
  (∀ req, references_ok (handle user today now req st).2 ∧
          durations_ok (handle user today now req st).2) ∧
  (∀ data, references_ok (TaskViewSet.create user now data st).2 ∧
           durations_ok (TaskViewSet.create user now data st).2) ∧
  (∀ data, references_ok (TimeRecordViewSet.create user today now data st).2 ∧
           durations_ok (TimeRecordViewSet.create user today now data st).2).
Proof.
  intros Hr Hd. split; [|split].
  - intros req. apply handle_consistent; assumption.
  - intros data. unfold TaskViewSet.create.
    case_decide; [split; assumption|]. cbn [snd].
    apply replace_task_consistent; assumption.
  - intros data. unfold TimeRecordViewSet.create.
    destruct (TimeRecordViewSet.run_validation user data st); [|split; assumption].
    match goal with |- context [TimeRecord_save today now ?k ?x st] =>
      pose proof (TimeRecord_save_consistent today now k x st Hr Hd) as Hs;
      destruct (TimeRecord_save today now k x st) as [[?|?] ?]
    end; [exact Hs|split; assumption].
Qed.

Lemma example_references_ok : references_ok example_store.
Proof. unfold references_ok. apply (bool_decide_unpack _). vm_compute. exact I. Qed.

Lemma requests_keep_the_store_consistent_example :
  (∀ req, references_ok (handle alice wednesday 0 req example_store).2 ∧
          durations_ok (handle alice wednesday 0 req example_store).2) ∧
  (∀ data, references_ok (TaskViewSet.create alice 0 data example_store).2 ∧
           durations_ok (TaskViewSet.create alice 0 data example_store).2) ∧
  (∀ data,
     references_ok (TimeRecordViewSet.create alice wednesday 0 data example_store).2 ∧
     durations_ok (TimeRecordViewSet.create alice wednesday 0 data example_store).2).
Proof.
  apply (requests_keep_the_store_consistent alice wednesday 0 example_store).
  - exact example_references_ok.
  - exact example_durations_ok.
Defined.

(** X12. Deleting a task deletes its time records with it: the task and
    the records that point at it are gone, every other task and every
    other record is as it was, and a second deletion finds nothing. *)
Theorem destroy_task_deletes_its_records user pk st t :
  TaskViewSet.get_object user pk st = Some t →
  ∃ st', TaskViewSet.destroy user pk st = (NoContent, st') ∧
    tasks st' !! pk = None ∧
    (∀ k, k ≠ pk → tasks st' !! k = tasks st !! k) ∧
    (∀ k r, time_records st' !! k = Some r ↔
            time_records st !! k = Some r ∧ task r ≠ pk) ∧
    Task_time_records st' pk = ∅ ∧
    TaskViewSet.destroy user pk st' = (NotFound, st').
Proof.
  intros H. unfold TaskViewSet.destroy at 1. rewrite H.
  eexists. split; [reflexivity|]. cbn [tasks time_records].
  assert (Hrec : ∀ k r,
            qfilter (λ r, negb (task r =? pk)) (time_records st) !! k = Some r ↔
            time_records st !! k = Some r ∧ task r ≠ pk).
  { intros k r. rewrite qfilter_Some.
    destruct (Z.eqb_spec (task r) pk); cbn; split; intros [? ?];
      split; congruence. }
  split; [apply lookup_delete_eq|]. split; [|split; [exact Hrec|split]].
  - intros k Hk. apply lookup_delete_ne. congruence.
  - apply map_empty. intros k. unfold Task_time_records. cbn [time_records].
    destruct (qfilter _ _ !! k) as [r|] eqn:E; [|reflexivity].
    apply qfilter_Some in E as [E Ht]. apply Hrec in E as [_ Hne].
    apply Z.eqb_eq in Ht. contradiction.
  - unfold TaskViewSet.destroy.
    replace (TaskViewSet.get_object user pk _) with (@None Task); [reflexivity|].
    symmetry. unfold TaskViewSet.get_object.
    rewrite tasks_queryset_lookup. cbn [tasks]. rewrite lookup_delete_eq. reflexivity.
Qed.

Lemma destroy_task_deletes_its_records_example :
  ∃ st', TaskViewSet.destroy alice 1 example_store = (NoContent, st') ∧
    tasks st' !! 1 = None ∧
    (∀ k, k ≠ 1 → tasks st' !! k = tasks example_store !! k) ∧
    (∀ k r, time_records st' !! k = Some r ↔
            time_records example_store !! k = Some r ∧ task r ≠ 1) ∧
    Task_time_records st' 1 = ∅ ∧
    TaskViewSet.destroy alice 1 st' = (NotFound, st').
Proof.
  apply (destroy_task_deletes_its_records alice 1 example_store
           (example_task alice 100 "Write the report")).
  reflexivity.
Defined.

(** X13. A task that is created belongs to the user who sent the request:
    it is stored under a key that was not in use, so that no task is
    overwritten and no time record is touched; its creator can retrieve
    it, and for every other user it is not found. *)
Theorem created_task_belongs_to_its_creator user now data st st' :
  TaskViewSet.create user now data st = (OK data, st') →
  ∃ k t,
    tasks st !! k = None ∧
    st' = {| tasks := <[k := t]> (tasks st); time_records := time_records st |} ∧
    responsible_user t = user ∧ creation_date t = now ∧
    TaskViewSet.get_object user k st' = Some t ∧
    ∀ other, other ≠ user → TaskViewSet.retrieve other k st' = NotFound.
Proof.
  unfold TaskViewSet.create. case_decide; [discriminate|].
  intros Hc. injection Hc as <-.
  eexists _, _. split; [apply fresh_pk_fresh|].
  do 3 (split; [reflexivity|]). split.
  - apply TaskViewSet_get_object_Some. cbn [tasks].
    split; [apply lookup_insert_eq|reflexivity].
  - intros other Ho. unfold TaskViewSet.retrieve, TaskViewSet.get_object.
    rewrite tasks_queryset_lookup. cbn [tasks]. rewrite lookup_insert_eq.
    cbn [responsible_user]. destruct (Z.eqb_spec user other); [congruence|reflexivity].
Qed.

Lemma created_task_belongs_to_its_creator_example :
  ∃ k t,
    tasks example_store !! k = None ∧
    (TaskViewSet.create bob 300 {| in_description := "Plan"; in_active := true |}
       example_store).2 =
      {| tasks := <[k := t]> (tasks example_store);
         time_records := time_records example_store |} ∧
    responsible_user t = bob ∧ creation_date t = 300 ∧
    TaskViewSet.get_object bob k
      (TaskViewSet.create bob 300 {| in_description := "Plan"; in_active := true |}
         example_store).2 = Some t ∧
    ∀ other, other ≠ bob →
      TaskViewSet.retrieve other k
        (TaskViewSet.create bob 300 {| in_description := "Plan"; in_active := true |}
           example_store).2 = NotFound.
Proof.
  apply (created_task_belongs_to_its_creator bob 300
           {| in_description := "Plan"; in_active := true |} example_store).
  reflexivity.
Defined.

(** *** Creating time records *)

(** X14. A time record cannot be created on the task of another user, nor
    on a task that does not exist: the request is refused as a bad
    request that reports the task, and nothing is stored. *)
Theorem time_record_needs_own_task user today now data st :
  TaskViewSet.get_queryset user st !! in_task_id data = None →
  ∃ errors,
    TimeRecordViewSet.create user today now data st = (BadRequest errors, st) ∧
    ("task_id", MSG_TASK_ID) ∈ errors.
Proof.
  intros H. unfold TimeRecordViewSet.create, TimeRecordViewSet.run_validation,
    TimeRecordViewSet.validate_task_id.
  rewrite H. cbn [app]. eexists. split; [reflexivity|]. left.
Qed.

Lemma time_record_needs_own_task_example :
  ∃ errors,
    TimeRecordViewSet.create bob wednesday 0
      {| in_task_id := 1; in_record_date := wednesday;
         in_worked_time := timedelta_of 1 0 0;
         in_work_description := "work" |} example_store =
      (BadRequest errors, example_store) ∧
    ("task_id", MSG_TASK_ID) ∈ errors.
Proof.
  apply (time_record_needs_own_task bob wednesday 0
           {| in_task_id := 1; in_record_date := wednesday;
              in_worked_time := timedelta_of 1 0 0;
              in_work_description := "work" |} example_store).
  reflexivity.
Defined.

Lemma date_leb_not_ltb a b : date_leb a b = true → date_ltb b a = false.
Proof.
  unfold date_leb, date_ltb, date_eqb. destruct a, b. cbn [year month day].
  intros H. zbool; cbn in *; try reflexivity; try discriminate; lia.
Qed.

Lemma full_clean_accepts st today r :
  is_Some (tasks st !! task r) → timedelta_minutes 1 <= worked_time r →
  work_description r ≠ "" → date_leb (record_date r) today = true →
  full_clean st today r = [].
Proof.
  intros Ht Hw Hd Hl. unfold full_clean, clean_fields, TimeRecord_clean.
  case_decide; [|contradiction].
  destruct (Z.ltb_spec (worked_time r) (timedelta_minutes 1)); [lia|].
  case_decide; [contradiction|].
  rewrite (date_leb_not_ltb _ _ Hl).
  replace (Qle_bool (total_seconds (worked_time r)) 0) with false.
  - rewrite andb_false_r. reflexivity.
  - symmetry. apply not_true_is_false. intros Hq. apply Qle_bool_iff in Hq.
    unfold total_seconds, Qle in Hq. cbn [Qnum Qden] in Hq.
    change (timedelta_minutes 1) with 60000000 in *. lia.
Qed.

(** X15. The model accepts a time record if and only if its task exists,
    its worked time is a minute or more, its description is not empty and
    its date is not after the current date. *)
Theorem full_clean_accepts_iff st today r :
  full_clean st today r = [] ↔
  is_Some (tasks st !! task r) ∧ timedelta_minutes 1 <= worked_time r ∧
  work_description r ≠ "" ∧ date_leb (record_date r) today = true.
Proof.
  split.
  - intros H. pose proof (full_clean_nil _ _ _ H) as [_ Hl].
    unfold full_clean in H. apply app_eq_nil in H as [H _].
    apply clean_fields_nil in H as (Ht & Hw & Hd).
    repeat split; try assumption. apply date_leb_of_not_ltb, Hl.
  - intros (Ht & Hw & Hd & Hl). apply full_clean_accepts; assumption.
Qed.

Lemma records_queryset_insert user st k r :
  TimeRecordViewSet.owned_by st user r = true →
  TimeRecordViewSet.get_queryset user
    {| tasks := tasks st; time_records := <[k := r]> (time_records st) |} =
  <[k := r]> (TimeRecordViewSet.get_queryset user st).
Proof.
  intros Ho. unfold TimeRecordViewSet.get_queryset, qfilter. cbn [time_records].
  rewrite map_filter_insert_True.
  - f_equal.
  - exact Ho.
Qed.



(** X17. No request on existing data changes who owns a task or when a
    task or a time record was created, and none adds a row: a row of the
    store after the request was there before, with the same owner and the
    same date of creation. *)
Theorem owner_and_creation_date_never_change user today now req st :
  (∀ k t', tasks (handle user today now req st).2 !! k = Some t' →
     ∃ t, tasks st !! k = Some t ∧
          responsible_user t' = responsible_user t ∧
          creation_date t' = creation_date t) ∧
  (∀ k r', time_records (handle user today now req st).2 !! k = Some r' →
     ∃ r, time_records st !! k = Some r ∧
          record_creation_date r' = record_creation_date r).
Proof.
  assert (Hid : (∀ k t', tasks st !! k = Some t' →
                   ∃ t, tasks st !! k = Some t ∧
                        responsible_user t' = responsible_user t ∧
                        creation_date t' = creation_date t) ∧
                (∀ k r', time_records st !! k = Some r' →
                   ∃ r, time_records st !! k = Some r ∧
                        record_creation_date r' = record_creation_date r))
    by (split; intros; eauto).
  assert (Hrepl : ∀ pk t0 t1, tasks st !! pk = Some t0 →
            responsible_user t1 = responsible_user t0 →
            creation_date t1 = creation_date t0 →
            ∀ k t', <[pk := t1]> (tasks st) !! k = Some t' →
            ∃ t, tasks st !! k = Some t ∧
                 responsible_user t' = responsible_user t ∧
                 creation_date t' = creation_date t).
  { intros pk t0 t1 H0 Hu Hc k t' Hk. destruct (decide (pk = k)) as [->|Hne].
    - rewrite lookup_insert_eq in Hk. injection Hk as <-. eauto.
    - rewrite lookup_insert_ne in Hk by exact Hne. eauto. }
  destruct req; cbn [handle snd]; try exact Hid.
  - unfold TaskViewSet.update.
    destruct (TaskViewSet.get_object user pk st) as [t0|] eqn:E; [|exact Hid].
    case_decide; [exact Hid|]. cbn [snd tasks time_records].
    apply TaskViewSet_get_object_Some in E as [E _].
    split; [|apply Hid]. apply (Hrepl pk t0); [exact E|reflexivity..].
  - unfold TaskViewSet.toggle_status.
    destruct (TaskViewSet.get_object user pk st) as [t0|] eqn:E; [|exact Hid].
    cbn [snd tasks time_records].
    apply TaskViewSet_get_object_Some in E as [E _].
    split; [|apply Hid]. apply (Hrepl pk t0); [exact E|reflexivity..].
  - unfold TaskViewSet.destroy.
    destruct (TaskViewSet.get_object user pk st) as [t0|] eqn:E; [|exact Hid].
    cbn [snd tasks time_records]. split.
    + intros k t' Hk. apply lookup_delete_Some in Hk as [_ Hk]. eauto.
    + intros k r' Hk. apply qfilter_Some in Hk as [Hk _]. eauto.
  - unfold TimeRecordViewSet.update.
    destruct (TimeRecordViewSet.get_object user pk st) as [r0|] eqn:E; [|exact Hid].
    destruct (TimeRecordViewSet.run_validation user data st); [|exact Hid].
    apply records_queryset_Some in E as [E _].
    rewrite (TimeRecord_save_existing today now pk _ r0 st E).
    destruct (full_clean st today _); [|exact Hid].
    cbn [snd tasks time_records]. split; [apply Hid|].
    intros k r' Hk. destruct (decide (pk = k)) as [->|Hne].
    + rewrite lookup_insert_eq in Hk. injection Hk as <-. eauto.
    + rewrite lookup_insert_ne in Hk by exact Hne. eauto.
  - unfold TimeRecordViewSet.destroy.
    destruct (TimeRecordViewSet.get_object user pk st) as [r0|] eqn:E; [|exact Hid].
    cbn [snd tasks time_records]. split; [apply Hid|].
    intros k r' Hk. apply lookup_delete_Some in Hk as [_ Hk]. eauto.
Qed.

(** *** The order of the lists *)

Lemma order_by_sorted {A} (first : A → A → bool) (qs : gmap Z A) :
  (∀ a b, first a b = true ∨ first b a = true) →
  Sorted (λ a b : Z * A, first a.2 b.2 = true) (order_by first qs).
Proof.
  intros Ht. unfold order_by.
  assert (Total (λ a b : Z * A, first a.2 b.2 = true)) by (intros a b; apply Ht).
  apply (Sorted_merge_sort (λ a b : Z * A, first a.2 b.2 = true)).
Qed.

Lemma NoDup_order_by {A} (first : A → A → bool) (qs : gmap Z A) :
  NoDup (order_by first qs).*1.
Proof.
  unfold order_by. rewrite merge_sort_Permutation. apply NoDup_fst_map_to_list.
Qed.

Lemma date_leb_total a b : date_leb a b = true ∨ date_leb b a = true.
Proof.
  unfold date_leb. destruct (date_trichotomy a b) as [H|[->|H]].
  - left. rewrite H. reflexivity.
  - left. apply orb_true_iff. right. apply date_eqb_eq. reflexivity.
  - right. rewrite H. reflexivity.
Qed.

Lemma record_newest_first_total a b :
  record_newest_first a b = true ∨ record_newest_first b a = true.
Proof.
  unfold record_newest_first.
  destruct (date_trichotomy (record_date a) (record_date b)) as [H|[E|H]].
  - right. rewrite H. reflexivity.
  - rewrite E. replace (date_eqb (record_date b) (record_date b)) with true
      by (symmetry; apply date_eqb_eq; reflexivity).
    destruct (Z.leb_spec (record_creation_date b) (record_creation_date a)).
    + left. apply orb_true_r.
    + right. apply orb_true_iff. right. apply Z.leb_le. lia.
  - left. rewrite H. reflexivity.
Qed.



(** *** The pages of the records and of the tasks *)

Lemma record_list_inv icontains user today search ds de period st l :
  record_list icontains user today search ds de period st = Some l →
  ∃ qs, l = order_by (λ a b, date_leb (record_date b) (record_date a)) qs ∧
    ∀ k r, qs !! k = Some r →
      TimeRecordViewSet.get_queryset user st !! k = Some r ∧
      (∀ d, ds = Some d → date_leb d (record_date r) = true) ∧
      (∀ d, de = Some d → date_leb (record_date r) d = true).
Proof.
  unfold record_list. cbv zeta.
  set (q1 := if decide (search = "") then _ else _).
  set (q2 := match ds with Some _ => _ | None => _ end).
  set (q3 := match de with Some _ => _ | None => _ end).
  assert (H1 : ∀ k r, q1 !! k = Some r →
            TimeRecordViewSet.get_queryset user st !! k = Some r).
  { intros k r. unfold q1. destruct (decide (search = "")); [auto|].
    intros Hk. apply qfilter_Some in Hk as [Hk _]. exact Hk. }
  assert (H2 : ∀ k r, q2 !! k = Some r →
            q1 !! k = Some r ∧ ∀ d, ds = Some d → date_leb d (record_date r) = true).
  { intros k r. unfold q2. destruct ds as [d0|].
    - intros H. apply qfilter_Some in H as [H Hd]. split; [exact H|].
      intros d [= <-]. exact Hd.
    - intros H. split; [exact H|discriminate]. }
  assert (H3 : ∀ k r, q3 !! k = Some r →
            q2 !! k = Some r ∧ ∀ d, de = Some d → date_leb (record_date r) d = true).
  { intros k r. unfold q3. destruct de as [d0|].
    - intros H. apply qfilter_Some in H as [H Hd]. split; [exact H|].
      intros d [= <-]. exact Hd.
    - intros H. split; [exact H|discriminate]. }
  assert (Hall : ∀ k r, q3 !! k = Some r →
            TimeRecordViewSet.get_queryset user st !! k = Some r ∧
            (∀ d, ds = Some d → date_leb d (record_date r) = true) ∧
            (∀ d, de = Some d → date_leb (record_date r) d = true)).
  { intros k r H. apply H3 in H as [H Hde]. apply H2 in H as [H Hds].
    apply H1 in H. auto. }
  clearbody q3. clear q1 q2 H1 H2 H3.
  intros H.
  assert (Hq : ∃ qs, (∀ k r, qs !! k = Some r → q3 !! k = Some r) ∧
                     l = order_by (λ a b, date_leb (record_date b) (record_date a)) qs).
  { repeat case_decide.
    - cbn [mbind option_bind] in H. injection H as <-. eauto.
    - cbn [mbind option_bind] in H. injection H as <-. eexists. split; [|reflexivity].
      intros k r Hk. apply qfilter_Some in Hk as [Hk _]. exact Hk.
    - destruct (sub_days today (weekday today)); [|discriminate].
      cbn [mbind option_bind] in H. injection H as <-. eexists. split; [|reflexivity].
      intros k r Hk. apply qfilter_Some in Hk as [Hk _]. exact Hk.
    - destruct (make_date (year today) (month today) 1); [|discriminate].
      cbn [mbind option_bind] in H. injection H as <-. eexists. split; [|reflexivity].
      intros k r Hk. apply qfilter_Some in Hk as [Hk _]. exact Hk.
    - cbn [mbind option_bind] in H. injection H as <-. eauto. }
  destruct Hq as (qs & Hsub & ->). exists qs. split; [reflexivity|].
  intros k r Hk. apply Hall, Hsub, Hk.
Qed.

(** X19. The page of the time records shows only time records of the
    user, each once, within the two dates of the request when they are
    given, with the latest date first; a request without parameters shows
    all time records of the user. *)
Theorem record_page_results icontains user today search ds de period st l :
  record_list icontains user today search ds de period st = Some l →
  (∀ k r, (k, r) ∈ l →
     TimeRecordViewSet.get_queryset user st !! k = Some r ∧
     (∀ d, ds = Some d → date_leb d (record_date r) = true) ∧
     (∀ d, de = Some d → date_leb (record_date r) d = true)) ∧
  Sorted (λ a b, date_leb (record_date b.2) (record_date a.2) = true) l ∧
  NoDup l.*1 ∧
  (search = "" → ds = None → de = None → period = "" →
   l ≡ₚ rows (TimeRecordViewSet.get_queryset user st)).
Proof.
  intros H. pose proof H as Hl.
  apply record_list_inv in H as (qs & -> & Hqs).
  split; [|split; [|split]].
  - intros k r Hin. apply elem_of_order_by in Hin. apply (Hqs k r Hin).
  - apply (order_by_sorted (λ a b, date_leb (record_date b) (record_date a))).
    intros a b. apply date_leb_total.
  - apply NoDup_order_by.
  - intros -> -> -> ->. unfold record_list in Hl. cbv zeta in Hl.
    destruct (decide (""%string = ""%string)) as [_|Hn]; [|contradiction].
    cbn [mbind option_bind] in Hl. injection Hl as Hl. rewrite <- Hl.
    unfold order_by. apply merge_sort_Permutation.
Qed.

Lemma record_page_results_example :
  ∃ l, record_list (λ _ _, true) alice wednesday ""
         (Some (Date 2024 1 1)) (Some (Date 2024 1 14)) "" example_store = Some l ∧
    (∀ k r, (k, r) ∈ l →
       TimeRecordViewSet.get_queryset alice example_store !! k = Some r ∧
       (∀ d, Some (Date 2024 1 1) = Some d → date_leb d (record_date r) = true) ∧
       (∀ d, Some (Date 2024 1 14) = Some d → date_leb (record_date r) d = true)) ∧
    Sorted (λ a b, date_leb (record_date b.2) (record_date a.2) = true) l ∧
    NoDup l.*1 ∧
    (""%string = ""%string → Some (Date 2024 1 1) = None →
     Some (Date 2024 1 14) = None → ""%string = ""%string →
     l ≡ₚ rows (TimeRecordViewSet.get_queryset alice example_store)).
Proof.
  eexists. split; [reflexivity|].
  apply (record_page_results (λ _ _, true) alice wednesday ""
           (Some (Date 2024 1 1)) (Some (Date 2024 1 14)) "" example_store).
  reflexivity.
Defined.

Lemma qfilter_all {A} (p : A → bool) (qs : gmap Z A) :
  (∀ k a, qs !! k = Some a → p a = true) → qfilter p qs = qs.
Proof.
  intros H. apply map_eq. intros k. rewrite qfilter_lookup.
  destruct (qs !! k) as [a|] eqn:E; [|reflexivity].
  rewrite (H k a E). reflexivity.
Qed.

Lemma task_list_inv icontains username user search status st :
  ∃ qs, (task_list icontains username user search status st).1.1 =
          order_by_desc creation_date qs ∧
    ∀ k t, qs !! k = Some t →
      TaskViewSet.get_queryset user st !! k = Some t ∧
      (status = "active"%string → active t = true) ∧
      (status = "inactive"%string → active t = false).
Proof.
  unfold task_list. cbv zeta. cbn [fst].
  set (q1 := if decide (search = "") then _ else _).
  assert (H1 : ∀ k t, q1 !! k = Some t →
            TaskViewSet.get_queryset user st !! k = Some t).
  { intros k r. unfold q1. destruct (decide (search = "")); [auto|].
    intros Hk. apply qfilter_Some in Hk as [Hk _]. exact Hk. }
  clearbody q1. eexists. split; [reflexivity|]. intros k t.
  destruct (decide (status = "active"%string)) as [Ea|Na];
    [|destruct (decide (status = "inactive"%string)) as [Ei|Ni]].
  - intros Hk. apply qfilter_Some in Hk as [Hk Ha]. apply H1 in Hk.
    split; [exact Hk|]. split; [auto|]. intros Ei. congruence.
  - intros Hk. apply qfilter_Some in Hk as [Hk Ha]. apply H1 in Hk.
    split; [exact Hk|]. split; [contradiction|].
    intros _. destruct (active t); [discriminate|reflexivity].
  - intros Hk. apply H1 in Hk. split; [exact Hk|]. split; intros; contradiction.
Qed.

(** X20. The page of the tasks shows only tasks of the user, the newest
    first; with the status [active] only active tasks and with the status
    [inactive] only inactive ones. Since every task of the page belongs
    to the user, a search text found in the name of the user filters
    nothing: the page shows what it shows without a search. *)
Theorem task_page_results (icontains : string → string → bool)
    (username : Z → string) user search status st :
  (∀ k t, (k, t) ∈ (task_list icontains username user search status st).1.1 →
     TaskViewSet.get_queryset user st !! k = Some t ∧
     (status = "active"%string → active t = true) ∧
     (status = "inactive"%string → active t = false)) ∧
  Sorted (λ a b, creation_date b.2 <= creation_date a.2)
    (task_list icontains username user search status st).1.1 ∧
  (icontains (username user) search = true →
   (task_list icontains username user search status st).1.1 =
   (task_list icontains username user "" status st).1.1).
Proof.
  split; [|split].
  - destruct (task_list_inv icontains username user search status st)
      as (qs & -> & Hqs).
    intros k t Hin. apply elem_of_order_by_desc in Hin. apply (Hqs k t Hin).
  - destruct (task_list_inv icontains username user search status st)
      as (qs & -> & _).
    apply order_by_desc_sorted.
  - intros Hu. unfold task_list. cbv zeta. cbn [fst].
    destruct (decide (search = "")) as [->|Hs]; [reflexivity|].
    destruct (decide (""%string = ""%string)) as [_|Hn]; [|contradiction].
    rewrite (qfilter_all (λ t, icontains (description t) search ||
                               icontains (username (responsible_user t)) search)).
    + reflexivity.
    + intros k t Hk. apply (tasks_queryset_Some user st) in Hk as [_ <-].
      rewrite Hu. apply orb_true_r.
Qed.

Lemma task_page_results_example :
  (∀ k t, (k, t) ∈ (task_list (λ s _, String.eqb s "alice") (λ _, "alice"%string)
                      alice "xyz" "active" example_store).1.1 →
     TaskViewSet.get_queryset alice example_store !! k = Some t ∧
     ("active"%string = "active"%string → active t = true) ∧
     ("active"%string = "inactive"%string → active t = false)) ∧
  Sorted (λ a b, creation_date b.2 <= creation_date a.2)
    (task_list (λ s _, String.eqb s "alice") (λ _, "alice"%string)
       alice "xyz" "active" example_store).1.1 ∧
  ((λ s _, String.eqb s "alice") ((λ _, "alice"%string) alice) "xyz"%string = true →
   (task_list (λ s _, String.eqb s "alice") (λ _, "alice"%string)
      alice "xyz" "active" example_store).1.1 =
   (task_list (λ s _, String.eqb s "alice") (λ _, "alice"%string)
      alice "" "active" example_store).1.1).
Proof.
  apply (task_page_results (λ s _, String.eqb s "alice") (λ _, "alice"%string)
           alice "xyz" "active" example_store).
Defined.

Lemma get_task_or_404_queryset user pk st :
  get_task_or_404 user pk st = TaskViewSet.get_queryset user st !! pk.
Proof. unfold get_task_or_404. rewrite tasks_queryset_lookup. reflexivity. Qed.

Lemma get_task_or_404_other user pk t st :
  tasks st !! pk = Some t → responsible_user t ≠ user →
  get_task_or_404 user pk st = None.
Proof.
  intros H Hu. unfold get_task_or_404. rewrite H.
  destruct (Z.eqb_spec (responsible_user t) user); [contradiction|reflexivity].
Qed.

(** X21. The pages respect ownership as the API does: for a user who is
    not the owner of a task, the page of the task and the page to edit it
    answer "not found" and change nothing, the page of the tasks and the
    choices of the record form leave the task out, and the page of the
    time records shows no time record of the task. *)
Theorem pages_respect_ownership (icontains : string → string → bool)
    (username : Z → string) (strip : string → string) user pk t st :
  tasks st !! pk = Some t → responsible_user t ≠ user →
  task_detail user pk st = Http404 ∧
  (∀ post, edit_task strip user pk post st = (Http404, st)) ∧
  (∀ search status x,
     (pk, x) ∉ (task_list icontains username user search status st).1.1) ∧
  (∀ x, (pk, x) ∉ TimeRecordForm_task_choices user st) ∧
  (∀ today search ds de period l,
     record_list icontains user today search ds de period st = Some l →
     ∀ k r, (k, r) ∈ l → task r ≠ pk).
Proof.
  intros H Hu. pose proof (get_task_or_404_other user pk t st H Hu) as H404.
  assert (Hq : ∀ x, TaskViewSet.get_queryset user st !! pk ≠ Some x).
  { intros x. rewrite <- get_task_or_404_queryset, H404. discriminate. }
  split; [|split; [|split; [|split]]].
  - unfold task_detail. rewrite H404. reflexivity.
  - intros post. unfold edit_task. rewrite H404. reflexivity.
  - intros search status x Hin.
    destruct (task_list_inv icontains username user search status st)
      as (qs & E & Hqs).
    rewrite E in Hin. apply elem_of_order_by_desc in Hin.
    apply Hqs in Hin as [Hin _]. exact (Hq x Hin).
  - intros x Hin. unfold TimeRecordForm_task_choices in Hin.
    apply elem_of_order_by_desc in Hin. exact (Hq x Hin).
  - intros today search ds de period l Hl k r Hin E.
    apply record_list_inv in Hl as (qs & -> & Hqs).
    apply elem_of_order_by in Hin. cbn [fst snd] in Hin.
    apply Hqs in Hin as [Hin _].
    apply records_queryset_Some in Hin as [_ Ho].
    apply owned_by_true in Ho as (t' & Ht' & Hu').
    rewrite E, H in Ht'. congruence.
Qed.

Lemma pages_respect_ownership_example :
  task_detail bob 1 example_store = Http404 ∧
  (∀ post, edit_task (λ s, s) bob 1 post example_store = (Http404, example_store)) ∧
  (∀ search status x,
     (1, x) ∉ (task_list (λ _ _, true) (λ _, ""%string) bob search status
                 example_store).1.1) ∧
  (∀ x, (1, x) ∉ TimeRecordForm_task_choices bob example_store) ∧
  (∀ today search ds de period l,
     record_list (λ _ _, true) bob today search ds de period example_store = Some l →
     ∀ k r, (k, r) ∈ l → task r ≠ 1).
Proof.
  apply (pages_respect_ownership (λ _ _, true) (λ _, ""%string) (λ s, s)
           bob 1 (example_task alice 100 "Write the report") example_store).
  - reflexivity.
  - vm_compute. discriminate.
Defined.

(** X22. The page of a task shows the task of the user with this key and
    exactly the time records of the task, the latest date first; they are
    as many as the API counts for the task, and their worked time adds up
    to the total worked time of the task. The page is "not found" exactly
    when the API does not find the task. *)
Theorem task_page_shows_the_records_of_the_task user pk st :
  (task_detail user pk st = Http404 ↔ TaskViewSet.retrieve user pk st = NotFound) ∧
  ∀ obj l, task_detail user pk st = Rendered (obj, l) →
    obj.1 = pk ∧ TaskViewSet.get_queryset user st !! pk = Some obj.2 ∧
    (∀ k r, (k, r) ∈ l ↔ time_records st !! k = Some r ∧ task r = pk) ∧
    Sorted (λ a b, date_leb (record_date b.2) (record_date a.2) = true) l ∧
    Z.of_nat (length l) = td_records_count (TaskSerializer st obj) ∧
    sum_worked_time l = total_worked_time st pk.
Proof.
  unfold task_detail, TaskViewSet.retrieve, TaskViewSet.get_object.
  rewrite get_task_or_404_queryset.
  destruct (TaskViewSet.get_queryset user st !! pk) as [t|] eqn:E.
  - split; [split; discriminate|]. intros obj l [= <- <-]. cbn [fst snd].
    split; [reflexivity|]. split; [reflexivity|]. split; [|split; [|split]].
    + intros k r. rewrite (elem_of_order_by _ _ (k, r)). cbn [fst snd].
      unfold Task_time_records. rewrite qfilter_Some, Z.eqb_eq. reflexivity.
    + apply (order_by_sorted (λ a b, date_leb (record_date b) (record_date a))).
      intros a b. apply date_leb_total.
    + rewrite length_order_by. reflexivity.
    + unfold total_worked_time. rewrite or_zero_aggregate_Sum.
      apply sum_worked_time_perm. unfold order_by. apply merge_sort_Permutation.
  - split; [split; reflexivity|]. discriminate.
Qed.

Lemma task_page_shows_the_records_of_the_task_example :
  ∃ obj l, task_detail alice 1 example_store = Rendered (obj, l) ∧
    obj.1 = 1 ∧ TaskViewSet.get_queryset alice example_store !! 1 = Some obj.2 ∧
    (∀ k r, (k, r) ∈ l ↔ time_records example_store !! k = Some r ∧ task r = 1) ∧
    Sorted (λ a b, date_leb (record_date b.2) (record_date a.2) = true) l ∧
    Z.of_nat (length l) = td_records_count (TaskSerializer example_store obj) ∧
    sum_worked_time l = total_worked_time example_store 1.
Proof.
  eexists _, _. split; [reflexivity|].
  apply (proj2 (task_page_shows_the_records_of_the_task alice 1 example_store)).
  reflexivity.
Defined.



(** X24. The three checks of the owner of a task agree: the record form
    offers a task exactly when the serializer accepts its key for the
    user, and exactly when the pages find the task for the user. The
    choices of the form come with the newest task first. *)
Theorem form_offers_the_tasks_the_api_accepts user st k :
  ((∃ t, (k, t) ∈ TimeRecordForm_task_choices user st) ↔
   TimeRecordViewSet.validate_task_id user k st = []) ∧
  (∀ t, (k, t) ∈ TimeRecordForm_task_choices user st ↔
        get_task_or_404 user k st = Some t) ∧
  Sorted (λ a b, creation_date b.2 <= creation_date a.2)
    (TimeRecordForm_task_choices user st).
Proof.
  assert (Hin : ∀ t, (k, t) ∈ TimeRecordForm_task_choices user st ↔
                     TaskViewSet.get_queryset user st !! k = Some t).
  { intros t. unfold TimeRecordForm_task_choices.
    rewrite (elem_of_order_by_desc _ _ (k, t)). reflexivity. }
  split; [|split].
  - unfold TimeRecordViewSet.validate_task_id. split.
    + intros [t Ht]. apply Hin in Ht. rewrite Ht. reflexivity.
    + destruct (TaskViewSet.get_queryset user st !! k) as [t|] eqn:E;
        [|discriminate].
      intros _. exists t. apply Hin. reflexivity.
  - intros t. rewrite get_task_or_404_queryset. apply Hin.
  - apply order_by_desc_sorted.
Qed.

(** *** The columns of the admin *)

Lemma length_append (s t : string) :
  String.length (String.append s t) = (String.length s + String.length t)%nat.
Proof. induction s as [|c s IH]; simpl; [reflexivity|]. f_equal. exact IH. Qed.

Lemma length_substring_0 (n : nat) (s : string) :
  (n <= String.length s)%nat → String.length (substring 0 n s) = n.
Proof.
  revert n. induction s as [|c s IH]; intros [|n] H; simpl in *; try reflexivity.
  - lia.
  - f_equal. apply IH. lia.
Qed.

Lemma substring_0_append (n : nat) (s t : string) :
  (n <= String.length s)%nat →
  substring 0 n (String.append (substring 0 n s) t) = substring 0 n s.
Proof.
  revert n. induction s as [|c s IH]; intros [|n] H; simpl in *.
  - destruct t; reflexivity.
  - lia.
  - destruct t; reflexivity.
  - f_equal. apply IH. lia.
Qed.

Lemma substring_0_length (t : string) : substring 0 (String.length t) t = t.
Proof. induction t as [|c t IH]; simpl; [reflexivity|]. f_equal. exact IH. Qed.

Lemma substring_n_append (n : nat) (s t : string) :
  (n <= String.length s)%nat →
  substring n (String.length t) (String.append (substring 0 n s) t) = t.
Proof.
  revert n. induction s as [|c s IH]; intros [|n] H; simpl in *.
  - apply substring_0_length.
  - lia.
  - apply substring_0_length.
  - apply IH. lia.
Qed.

Lemma shorten_spec (n : nat) (s : string) :
  (String.length (shorten n s) <= n + 3)%nat ∧
  substring 0 n (shorten n s) = substring 0 n s ∧
  ((String.length s <= n)%nat → shorten n s = s) ∧
  ((n < String.length s)%nat →
   String.length (shorten n s) = (n + 3)%nat ∧
   substring n 3 (shorten n s) = "..."%string).
Proof.
  unfold shorten. destruct (Nat.ltb_spec n (String.length s)) as [Hlt|Hge].
  - assert (Hl : String.length (String.append (substring 0 n s) "...") = (n + 3)%nat).
    { rewrite length_append, length_substring_0 by lia. reflexivity. }
    split; [lia|]. split; [apply substring_0_append; lia|].
    split; [lia|]. intros _. split; [exact Hl|].
    apply (substring_n_append n s "..."). lia.
  - split; [lia|]. split; [reflexivity|]. split; [reflexivity|]. lia.
Qed.



(** *** Totals *)

Lemma sum_worked_time_qfilter_insert p (m : gmap Z TimeRecord) i r :
  m !! i = None →
  sum_worked_time (rows (qfilter p (<[i := r]> m))) =
  (if p r then worked_time r else 0) + sum_worked_time (rows (qfilter p m)).
Proof.
  intros Hi. unfold qfilter. destruct (p r) eqn:E.
  - rewrite map_filter_insert_True by exact E.
    assert (Hn : filter (λ kv : Z * TimeRecord, p kv.2 = true) m !! i = None).
    { apply map_lookup_filter_None. left. exact Hi. }
    unfold rows. rewrite (sum_worked_time_perm _ _ (map_to_list_insert _ i r Hn)).
    reflexivity.
  - rewrite map_filter_insert_False by (cbn; congruence).
    rewrite delete_id by exact Hi. lia.
Qed.

Lemma sum_worked_time_qfilter_empty p :
  sum_worked_time (rows (qfilter p (∅ : gmap Z TimeRecord))) = 0.
Proof.
  unfold qfilter, rows. rewrite map_filter_empty, map_to_list_empty. reflexivity.
Qed.

Lemma indicator_sum {A} (L : list (Z * A)) (x w : Z) :
  NoDup L.*1 →
  foldr (λ kv acc, (if x =? kv.1 then w else 0) + acc) 0 L =
  if decide (x ∈ L.*1) then w else 0.
Proof.
  induction L as [|[k a] L IH]; intros Hnd.
  - cbn. destruct (decide (x ∈ [])) as [Hin|_]; [|reflexivity].
    apply elem_of_nil in Hin as [].
  - rewrite fmap_cons in Hnd. apply NoDup_cons in Hnd as [Hk Hnd].
    cbn [foldr fst]. rewrite (IH Hnd). rewrite fmap_cons. cbn [fst].
    destruct (Z.eqb_spec x k) as [->|Hne].
    + destruct (decide (k ∈ L.*1)); [contradiction|].
      destruct (decide (k ∈ k :: L.*1)) as [_|Hn]; [lia|].
      exfalso. apply Hn. left.
    + destruct (decide (x ∈ L.*1)) as [Hin|Hin];
        destruct (decide (x ∈ k :: L.*1)) as [Hin'|Hin']; try lia.
      * exfalso. apply Hin'. right. exact Hin.
      * apply elem_of_cons in Hin' as [?|?]; contradiction.
Qed.

Lemma foldr_add_split {A} (g h : A → Z) (L : list A) :
  foldr (λ kv acc, (g kv + h kv) + acc) 0 L =
  foldr (λ kv acc, g kv + acc) 0 L + foldr (λ kv acc, h kv + acc) 0 L.
Proof. induction L as [|a L IH]; cbn; lia. Qed.

Lemma foldr_add_ext {A} (g h : A → Z) (L : list A) :
  (∀ a, g a = h a) →
  foldr (λ kv acc, g kv + acc) 0 L = foldr (λ kv acc, h kv + acc) 0 L.
Proof. intros E. induction L as [|a L IH]; cbn; [reflexivity|]. rewrite E, IH. reflexivity. Qed.

(** The worked time of the records of a user is the worked time of the
    records of their tasks, task by task. *)
Lemma owned_sum_split user st (recs : gmap Z TimeRecord) :
  sum_worked_time (rows (qfilter (TimeRecordViewSet.owned_by st user) recs)) =
  foldr (λ kv acc,
           sum_worked_time (rows (qfilter (λ r, task r =? kv.1) recs)) + acc)
    0 (rows (TaskViewSet.get_queryset user st)).
Proof.
  induction recs as [|i r m Hi IH] using map_ind.
  - rewrite sum_worked_time_qfilter_empty.
    rewrite (foldr_add_ext _ (λ _, 0)).
    + induction (rows (TaskViewSet.get_queryset user st)); cbn; lia.
    + intros a. apply sum_worked_time_qfilter_empty.
  - rewrite (sum_worked_time_qfilter_insert _ m i r Hi), IH.
    rewrite (foldr_add_ext
               (λ kv : Z * Task,
                  sum_worked_time (rows (qfilter (λ r0, task r0 =? kv.1) (<[i:=r]> m))))
               (λ kv : Z * Task,
                  (if task r =? kv.1 then worked_time r else 0) +
                  sum_worked_time (rows (qfilter (λ r0, task r0 =? kv.1) m)))).
    2: { intros a.
         apply (sum_worked_time_qfilter_insert (λ r0, task r0 =? a.1) m i r Hi). }
    rewrite (foldr_add_split
               (λ kv : Z * Task, if task r =? kv.1 then worked_time r else 0)).
    f_equal. unfold rows.
    rewrite (indicator_sum _ (task r) (worked_time r))
      by apply NoDup_fst_map_to_list.
    unfold TimeRecordViewSet.owned_by.
    destruct (decide (task r ∈ (map_to_list (TaskViewSet.get_queryset user st)).*1))
      as [Hin|Hin].
    + apply list_elem_of_fmap in Hin as ([k t] & Hk & Hin). cbn in Hk. subst k.
      apply elem_of_map_to_list, tasks_queryset_Some in Hin as [Hl Hu].
      rewrite Hl. apply Z.eqb_eq in Hu. rewrite Hu. reflexivity.
    + destruct (tasks st !! task r) as [t|] eqn:Et; [|reflexivity].
      destruct (Z.eqb_spec (responsible_user t) user) as [Hu|]; [|reflexivity].
      exfalso. apply Hin. apply list_elem_of_fmap. exists (task r, t).
      split; [reflexivity|]. apply elem_of_map_to_list, tasks_queryset_Some. auto.
Qed.

(** X26. The total worked hours of the dashboard and of the summary are
    the total worked time of the tasks of the user added up: every time
    record of the user is counted in the total of one task, once. *)
Theorem dashboard_total_is_the_sum_of_the_tasks user today st :
  valid_date today = true →
  ∃ d s,
    DashboardViewSet.list user today st = Some d ∧
    TimeRecordViewSet.summary user today st = Some s ∧
    get d "total_worked_hours" =
      Some (Float (hours_of
              (sum_task_totals st (rows (TaskViewSet.get_queryset user st))))) ∧
    get s "total_hours" =
      Some (Float (hours_of
              (sum_task_totals st (rows (TaskViewSet.get_queryset user st))))).
Proof.
  intros Hv. destruct (sub_days_weekday today Hv) as (ws & Hs & _ & _).
  assert (E : or_zero (aggregate_Sum worked_time
                         (TimeRecordViewSet.get_queryset user st)) =
              sum_task_totals st (rows (TaskViewSet.get_queryset user st))).
  { rewrite or_zero_aggregate_Sum. unfold TimeRecordViewSet.get_queryset.
    rewrite owned_sum_split. unfold sum_task_totals. apply foldr_add_ext.
    intros [k t]. unfold total_worked_time, Task_time_records.
    rewrite or_zero_aggregate_Sum. reflexivity. }
  unfold DashboardViewSet.list, TimeRecordViewSet.summary.
  rewrite Hs, (make_date_first today Hv). cbn [mbind option_bind].
  rewrite E. eexists _, _. repeat split.
Qed.

Lemma dashboard_total_is_the_sum_of_the_tasks_example :
  ∃ d s,
    DashboardViewSet.list alice wednesday example_store = Some d ∧
    TimeRecordViewSet.summary alice wednesday example_store = Some s ∧
    get d "total_worked_hours" =
      Some (Float (hours_of
              (sum_task_totals example_store
                 (rows (TaskViewSet.get_queryset alice example_store))))) ∧
    get s "total_hours" =
      Some (Float (hours_of
              (sum_task_totals example_store
                 (rows (TaskViewSet.get_queryset alice example_store))))).
Proof.
  apply (dashboard_total_is_the_sum_of_the_tasks alice wednesday example_store).
  reflexivity.
Defined.

Lemma sum_worked_time_at_least (l : list (Z * TimeRecord)) :
  Forall (λ kv, timedelta_minutes 1 <= worked_time kv.2) l →
  timedelta_minutes 1 * Z.of_nat (length l) <= sum_worked_time l.
Proof.
  unfold sum_worked_time. change (timedelta_minutes 1) with 60000000.
  induction 1 as [|kv l Hk _ IH]; cbn [foldr length]; lia.
Qed.

(** X27. When every stored time record has a worked time of a minute or
    more, the total worked time of a task is at least a minute for each
    of its time records: it is zero exactly when the task has no time
    record. *)
Theorem task_total_counts_every_record st pk :
  durations_ok st →
  timedelta_minutes 1 * count (Task_time_records st pk) <= total_worked_time st pk ∧
  (total_worked_time st pk = 0 ↔ count (Task_time_records st pk) = 0).
Proof.
  intros Hd. unfold total_worked_time. rewrite or_zero_aggregate_Sum.
  assert (Hf : Forall (λ kv : Z * TimeRecord, timedelta_minutes 1 <= worked_time kv.2)
                 (rows (Task_time_records st pk))).
  { apply Forall_forall. intros [k r] Hin. apply elem_of_map_to_list in Hin.
    apply qfilter_Some in Hin as [Hin _]. apply (Hd k r Hin). }
  pose proof (sum_worked_time_at_least _ Hf) as Hle.
  unfold count. unfold rows in Hle at 1. rewrite length_map_to_list in Hle.
  split; [exact Hle|]. split.
  - intros E. rewrite E in Hle. change (timedelta_minutes 1) with 60000000 in Hle. lia.
  - intros E. assert (Hz : size (Task_time_records st pk) = 0%nat) by lia.
    apply map_size_empty_iff in Hz. rewrite Hz. unfold rows.
    rewrite map_to_list_empty. reflexivity.
Qed.

Lemma task_total_counts_every_record_example :
  timedelta_minutes 1 * count (Task_time_records example_store 1) <=
    total_worked_time example_store 1 ∧
  (total_worked_time example_store 1 = 0 ↔
   count (Task_time_records example_store 1) = 0).
Proof.
  apply (task_total_counts_every_record example_store 1).
  exact example_durations_ok.
Defined.

(** *** The printed hours *)

Lemma format_02d_length n :
  0 <= n < 100 → String.length (format_02d n) = 2%nat.
Proof.
  intros Hn.
  assert (Hall : forallb (λ i, Nat.eqb (String.length (format_02d (Z.of_nat i))) 2)
                   (seq 0 100) = true) by (vm_compute; reflexivity).
  rewrite forallb_forall in Hall.
  specialize (Hall (Z.to_nat n)). rewrite Z2Nat.id in Hall by lia.
  apply Nat.eqb_eq, Hall. apply in_seq. lia.
Qed.

(** X28. A worked time from zero to less than a hundred hours is printed
    with five characters, two digits of hours and two of minutes, and the
    minutes are less than sixty; the admin shows the same text. *)
Theorem worked_hours_has_five_characters r :
  0 <= worked_time r < timedelta_of 100 0 0 →
  String.length (worked_hours r) = 5%nat ∧
  TimeRecordAdmin.formatted_time r = worked_hours r ∧
  ∃ h m, 0 <= h < 100 ∧ 0 <= m < 60 ∧
    timedelta_of h m 0 <= worked_time r < timedelta_of h (m + 1) 0 ∧
    worked_hours r = String.append (format_02d h) (String ":" (format_02d m)).
Proof.
  change (timedelta_of 100 0 0) with 360000000000. intros Hr.
  rewrite worked_hours_microseconds.
  set (h := worked_time r / 3600000000).
  set (m := (worked_time r mod 3600000000) / 60000000).
  assert (Hh : 0 <= h < 100) by (subst h; Z.div_mod_to_equations; lia).
  assert (Hm : 0 <= m < 60) by (subst m; Z.div_mod_to_equations; lia).
  split; [|split].
  - rewrite length_append. cbn [String.length].
    rewrite (format_02d_length h Hh), (format_02d_length m) by lia. reflexivity.
  - unfold TimeRecordAdmin.formatted_time. apply worked_hours_microseconds.
  - exists h, m. split; [exact Hh|]. split; [exact Hm|]. split; [|reflexivity].
    unfold timedelta_of. subst h m. Z.div_mod_to_equations. lia.
Qed.

Lemma worked_hours_has_five_characters_example :
  String.length (worked_hours (example_record 1 (Date 2024 1 15) 2 30)) = 5%nat.
Proof.
  apply (worked_hours_has_five_characters (example_record 1 (Date 2024 1 15) 2 30)).
  vm_compute. split; [discriminate|reflexivity].
Defined.

(** *** The owner of a time record *)

Lemma owner_of_replace_task st pk t0 t1 r :
  tasks st !! pk = Some t0 → responsible_user t1 = responsible_user t0 →
  owner_of {| tasks := <[pk := t1]> (tasks st); time_records := time_records st |} r =
  owner_of st r.
Proof.
  intros H0 Hu. unfold owner_of. cbn [tasks].
  destruct (decide (pk = task r)) as [->|Hne].
  - rewrite lookup_insert_eq, H0. cbn. f_equal. exact Hu.
  - rewrite lookup_insert_ne by exact Hne. reflexivity.
Qed.

(** X29. A time record never changes hands: after any request on existing
    data, a time record of the store was there before and has the owner
    it had, also when the request moves it to another task, which must be
    a task of the same user. *)
Theorem time_records_keep_their_owner user today now req st :
  ∀ k r', time_records (handle user today now req st).2 !! k = Some r' →
    ∃ r, time_records st !! k = Some r ∧
         owner_of (handle user today now req st).2 r' = owner_of st r.
Proof.
  assert (Hid : ∀ k r', time_records st !! k = Some r' →
                  ∃ r, time_records st !! k = Some r ∧ owner_of st r' = owner_of st r)
    by (intros; eauto).
  destruct req; cbn [handle snd]; try exact Hid.
  - unfold TaskViewSet.update.
    destruct (TaskViewSet.get_object user pk st) as [t0|] eqn:E; [|exact Hid].
    case_decide; [exact Hid|]. cbn [snd].
    apply TaskViewSet_get_object_Some in E as [E _].
    intros k r' Hk. cbn [time_records] in Hk. exists r'. split; [exact Hk|].
    apply (owner_of_replace_task st pk t0); [exact E|reflexivity].
  - unfold TaskViewSet.toggle_status.
    destruct (TaskViewSet.get_object user pk st) as [t0|] eqn:E; [|exact Hid].
    cbn [snd]. apply TaskViewSet_get_object_Some in E as [E _].
    intros k r' Hk. cbn [time_records] in Hk. exists r'. split; [exact Hk|].
    apply (owner_of_replace_task st pk t0); [exact E|reflexivity].
  - unfold TaskViewSet.destroy.
    destruct (TaskViewSet.get_object user pk st) as [t0|] eqn:E; [|exact Hid].
    cbn [snd]. intros k r' Hk. cbn [time_records] in Hk.
    apply qfilter_Some in Hk as [Hk Hne]. exists r'. split; [exact Hk|].
    unfold owner_of. cbn [tasks].
    destruct (Z.eqb_spec (task r') pk); [discriminate|].
    rewrite lookup_delete_ne by congruence. reflexivity.
  - unfold TimeRecordViewSet.update.
    destruct (TimeRecordViewSet.get_object user pk st) as [r0|] eqn:E; [|exact Hid].
    destruct (TimeRecordViewSet.run_validation user data st) eqn:Ev; [|exact Hid].
    apply records_queryset_Some in E as [E Ho].
    rewrite (TimeRecord_save_existing today now pk _ r0 st E).
    destruct (full_clean st today _); [|exact Hid].
    cbn [snd time_records]. intros k r' Hk.
    destruct (decide (pk = k)) as [->|Hne].
    + rewrite lookup_insert_eq in Hk. injection Hk as <-.
      exists r0. split; [exact E|].
      apply run_validation_nil in Ev as (t & Ht & Hu).
      apply owned_by_true in Ho as (t0 & Ht0 & Hu0).
      unfold owner_of. cbn [tasks task]. rewrite Ht, Ht0. cbn. congruence.
    + rewrite lookup_insert_ne in Hk by exact Hne. exists r'. split; [exact Hk|].
      reflexivity.
  - unfold TimeRecordViewSet.destroy.
    destruct (TimeRecordViewSet.get_object user pk st) as [r0|] eqn:E; [|exact Hid].
    cbn [snd time_records]. intros k r' Hk.
    apply lookup_delete_Some in Hk as [_ Hk]. exists r'. split; [exact Hk|].
    reflexivity.
Qed.

Lemma time_records_keep_their_owner_example :
  ∃ r, time_records example_store !! 2 = Some r ∧
       owner_of
         (handle alice wednesday 0
            (RecordUpdate 1 {| in_task_id := 1; in_record_date := wednesday;
                               in_worked_time := timedelta_of 1 0 0;
                               in_work_description := "more" |})
            example_store).2
         (example_record 1 (Date 2024 1 14) 0 5) = owner_of example_store r.
Proof.
  apply (time_records_keep_their_owner alice wednesday 0
           (RecordUpdate 1 {| in_task_id := 1; in_record_date := wednesday;
                              in_worked_time := timedelta_of 1 0 0;
                              in_work_description := "more" |})
           example_store 2 (example_record 1 (Date 2024 1 14) 0 5)).
  vm_compute. reflexivity.
Defined.
